(** * Hash caches, collection naming and the OpenAI embedding client

    A shallow embedding of four source files of the indexing core,

      - packages/core/src/cache/simple-hash-cache.ts
      - packages/core/src/cache/hash-cache.ts
      - packages/core/src/cache/project-metadata.ts
      - packages/core/src/embedding/openai-embedding.ts

    together with the statements about them that the specification makes.

    Conventions.  A JavaScript string is a sequence of code units; the model
    carries it as a Rocq [string], one character per code unit, so it ranges
    over the strings whose code units are below 256.  A JavaScript number
    that the code only uses as an integer (time stamps, counts, dimensions)
    is a [Z], and an [option Z] where the code can leave [undefined] in its
    place; the components of an embedding vector are IEEE doubles and are
    carried as primitive floats, which the code never computes with.  A
    plain object used as a dictionary is an ordered property list
    ([JsObject.t]), because [Object.keys] and [JSON.stringify] observe the
    property order.  The list holds the own properties; the prototype of
    every such object is [Object.prototype], whose members a lookup finds
    as well ([JsObject.lookup]). *)

From Stdlib Require Import Ascii String.
From stdpp Require Import base strings list gmap numbers.
From Stdlib Require Import Floats.PrimFloat.
From Stdlib Require Import DecimalString.

Open Scope string_scope.
Open Scope Z_scope.

(** ** Strings *)

Module JsString.

Definition code (c : ascii) : N := N_of_ascii c.

Definition in_range (lo hi : N) (c : ascii) : bool :=
  ((lo <=? code c) && (code c <=? hi))%N.

Definition is_digit (c : ascii) : bool := in_range 48 57 c.
Definition is_upper (c : ascii) : bool := in_range 65 90 c.
Definition is_lower (c : ascii) : bool := in_range 97 122 c.

(** The character class [a-zA-Z0-9]. *)
Definition is_alnum (c : ascii) : bool :=
  is_lower c || is_upper c || is_digit c.

Fixpoint map_chars (f : ascii -> ascii) (s : string) : string :=
  match s with
  | EmptyString => EmptyString
  | String c r => String (f c) (map_chars f r)
  end.

(** [s.replace(/[^a-zA-Z0-9]/g, '_')]: every code unit outside the class
    becomes one underscore. *)
Definition replace_non_alnum (s : string) : string :=
  map_chars (fun c => if is_alnum c then c else "_"%char) s.

(** [toLowerCase] on code units below 256: the ASCII capitals and the
    Latin-1 capitals U+00C0..U+00DE (U+00D7, the multiplication sign,
    excepted) move up by 32; nothing else changes. *)
Definition lower_char (c : ascii) : ascii :=
  if is_upper c || (in_range 192 222 c && negb (code c =? 215)%N)
  then ascii_of_N (code c + 32)
  else c.

Definition toLowerCase (s : string) : string := map_chars lower_char s.

(** [s.substring(start, end)] for [0 <= start <= end]. *)
Definition substring (start stop : nat) (s : string) : string :=
  String.substring start (stop - start) s.

(** [s.includes(needle)]. *)
Fixpoint includes (needle s : string) : bool :=
  String.prefix needle s ||
  match s with
  | EmptyString => false
  | String _ r => includes needle r
  end.

Fixpoint all_chars (p : ascii -> bool) (s : string) : bool :=
  match s with
  | EmptyString => true
  | String c r => p c && all_chars p r
  end.

Fixpoint repeat_char (c : ascii) (n : nat) : string :=
  match n with
  | O => EmptyString
  | S k => String c (repeat_char c k)
  end.

Fixpoint join (sep : string) (parts : list string) : string :=
  match parts with
  | [] => EmptyString
  | [p] => p
  | p :: rest => p ++ sep ++ join sep rest
  end.

(** The value of a decimal numeral, most significant digit first. *)
Fixpoint decimal_value (acc : N) (s : string) : N :=
  match s with
  | EmptyString => acc
  | String c r => decimal_value (10 * acc + (code c - 48))%N r
  end.

(** [Number.prototype.toString] on an integer of magnitude below 10^21,
    which time stamps, counts and line numbers are. *)
Definition of_Z (z : Z) : string := NilZero.string_of_int (Z.to_int z).

(** White space and line terminators, the class [\s] of a regular
    expression and what [trim] removes; among the code units below 256
    these are TAB, LF, VT, FF, CR, SP and NBSP. *)
Definition is_space (c : ascii) : bool :=
  in_range 9 13 c || (code c =? 32)%N || (code c =? 160)%N.

Fixpoint trimStart (s : string) : string :=
  match s with
  | EmptyString => EmptyString
  | String c r => if is_space c then trimStart r else s
  end.

Fixpoint trimEnd (s : string) : string :=
  match s with
  | EmptyString => EmptyString
  | String c r =>
      match trimEnd r with
      | EmptyString => if is_space c then EmptyString else String c EmptyString
      | r' => String c r'
      end
  end.

(** [s.trim()]. *)
Definition trim (s : string) : string := trimEnd (trimStart s).

(** [s.replace(/\s+/g, ' ')]: every maximal run of white space becomes one
    blank; [inRun] tells that the code unit before was white space. *)
Fixpoint collapse (inRun : bool) (s : string) : string :=
  match s with
  | EmptyString => EmptyString
  | String c r =>
      if is_space c
      then if inRun then collapse true r else String " "%char (collapse true r)
      else String c (collapse false r)
  end.

Definition replace_spaces (s : string) : string := collapse false s.

End JsString.

(** ** Plain objects used as dictionaries *)

Module JsObject.

(** Own enumerable string-keyed properties, in the order in which
    [Object.keys] lists them: array indices in ascending numeric order
    first, then the other names in the order of their creation. *)
Definition t (V : Type) : Type := list (string * V).

(** A property name is an array index when it is the canonical numeral of
    an integer between 0 and 2^32 - 2. *)
Definition array_index (k : string) : option N :=
  match k with
  | EmptyString => None
  | String c r =>
      if JsString.all_chars JsString.is_digit k
         && (negb (JsString.code c =? 48)%N || bool_decide (r = EmptyString))
         && (String.length k <=? 10)%nat
         && (JsString.decimal_value 0 k <=? 4294967294)%N
      then Some (JsString.decimal_value 0 k)
      else None
  end.

Definition empty {V} : t V := [].

(** [o[k]] restricted to own properties. *)
Fixpoint get {V} (k : string) (o : t V) : option V :=
  match o with
  | [] => None
  | (k', v) :: rest => if String.eqb k k' then Some v else get k rest
  end.

Definition has {V} (k : string) (o : t V) : bool :=
  match get k o with Some _ => true | None => false end.

(** The names of the members of [Object.prototype], which every plain
    object inherits: eleven functions and the accessor [__proto__]. *)
Definition prototype_members : list string :=
  [ "constructor"; "__defineGetter__"; "__defineSetter__"; "hasOwnProperty";
    "__lookupGetter__"; "__lookupSetter__"; "isPrototypeOf";
    "propertyIsEnumerable"; "toString"; "valueOf"; "__proto__";
    "toLocaleString" ].

Definition inherited (k : string) : bool :=
  existsb (String.eqb k) prototype_members.

(** What [o[k]] evaluates to: the value of the own property, else a member
    of [Object.prototype] (a function, or [Object.prototype] itself for
    [__proto__]), else [undefined].  A member is true in a condition and
    has none of the properties the code reads from a value ([dimension],
    [contextLength], [hash], [fileHash], [symbols]): reading one gives
    [undefined]. *)
Inductive slot (V : Type) : Type :=
| Entry (v : V)
| Member
| Nothing.
Arguments Entry {V} v.
Arguments Member {V}.
Arguments Nothing {V}.

Definition lookup {V} (k : string) (o : t V) : slot V :=
  match get k o with
  | Some v => Entry v
  | None => if inherited k then Member else Nothing
  end.

(** Overwrite the value of an existing property; its place is kept. *)
Fixpoint overwrite {V} (k : string) (v : V) (o : t V) : t V :=
  match o with
  | [] => []
  | (k', v') :: rest =>
      if String.eqb k k' then (k', v) :: rest
      else (k', v') :: overwrite k v rest
  end.

(** Create an array-index property: it goes before the first property
    that is not an array index or has a larger index. *)
Fixpoint add_index {V} (i : N) (k : string) (v : V) (o : t V) : t V :=
  match o with
  | [] => [(k, v)]
  | (k', v') :: rest =>
      match array_index k' with
      | Some j =>
          if (j <? i)%N then (k', v') :: add_index i k v rest
          else (k, v) :: o
      | None => (k, v) :: o
      end
  end.

(** [o[k] = v], for every name but one: an assignment to [__proto__] on
    an object without an own property of that name goes to the accessor of
    [Object.prototype] and replaces the prototype of the object by [v]
    instead of creating a property.  A later [o.__proto__] finds [v] as it
    does here, but [Object.keys] does not list the name and the properties
    of [v] show through the object.  The statements below that depend on
    the difference carry the condition that the name is not [__proto__]. *)
Definition set {V} (k : string) (v : V) (o : t V) : t V :=
  if has k o then overwrite k v o
  else match array_index k with
       | Some i => add_index i k v o
       | None => (o ++ [(k, v)])%list
       end.

(** [delete o[k]]. *)
Fixpoint remove {V} (k : string) (o : t V) : t V :=
  match o with
  | [] => []
  | (k', v') :: rest =>
      if String.eqb k k' then rest else (k', v') :: remove k rest
  end.

(** [Object.keys(o)] and [Object.values(o)]. *)
Definition keys {V} (o : t V) : list string := map fst o.
Definition values {V} (o : t V) : list V := map snd o.

End JsObject.

(** ** JSON documents *)

Module Json.

#[local] Unset Elimination Schemes.
Inductive value : Type :=
| Null
| Bool (b : bool)
| Num (z : Z)
| Str (s : string)
| Arr (items : list value)
| Obj (props : list (string * value)).
#[local] Set Elimination Schemes.

Definition dquote : ascii := ascii_of_N 34.

Definition hex_digit (n : N) : ascii :=
  ascii_of_N (if (n <? 10)%N then 48 + n else 87 + n).

(** One code unit inside a JSON string literal (QuoteJSONString). *)
Definition escape_char (c : ascii) : string :=
  let n := JsString.code c in
  if (n =? 34)%N then String "\"%char (String dquote EmptyString)
  else if (n =? 92)%N then "\\"
  else if (n =? 8)%N then "\b"
  else if (n =? 9)%N then "\t"
  else if (n =? 10)%N then "\n"
  else if (n =? 12)%N then "\f"
  else if (n =? 13)%N then "\r"
  else if (n <? 32)%N
       then "\u00" ++ String (hex_digit (n / 16)) (String (hex_digit (n mod 16)) EmptyString)
  else String c EmptyString.

Fixpoint escape (s : string) : string :=
  match s with
  | EmptyString => EmptyString
  | String c r => escape_char c ++ escape r
  end.

Definition quote (s : string) : string :=
  String dquote (escape s) ++ String dquote EmptyString.

Definition newline : string := String (ascii_of_N 10) EmptyString.

Definition pad (depth : nat) : string :=
  JsString.repeat_char " "%char (2 * depth).

Definition block (opening closing : string) (depth : nat)
    (parts : list string) : string :=
  match parts with
  | [] => opening ++ closing
  | _ =>
      opening ++ newline
      ++ JsString.join ("," ++ newline) (map (fun p => pad (S depth) ++ p) parts)
      ++ newline ++ pad depth ++ closing
  end.

(** [JSON.stringify(v, null, 2)], the nested value starting at [depth]
    levels of indentation. *)
Fixpoint render (depth : nat) (v : value) : string :=
  match v with
  | Null => "null"
  | Bool true => "true"
  | Bool false => "false"
  | Num z => JsString.of_Z z
  | Str s => quote s
  | Arr items => block "[" "]" depth (map (render (S depth)) items)
  | Obj props =>
      block "{" "}" depth
        (map (fun kv => quote (fst kv) ++ ": " ++ render (S depth) (snd kv)) props)
  end.

Definition stringify (v : value) : string := render 0 v.

End Json.

(** ** Results of calls that may throw *)

Inductive outcome (A : Type) : Type :=
| Ok (a : A)
| Throw (message : string).
Arguments Ok {A} a.
Arguments Throw {A} message.

(** ** The file system, as far as the cache managers use it *)

Module Fs.

Inductive node : Type :=
| File (data : string)
| Dir.

(** The calls that change the disk.  [SysRename] is never issued by the
    code below; it is here so that statements about rename-based
    protocols can be written down. *)
Inductive syscall : Type :=
| SysMkdir (path : string)
| SysWrite (path data : string)
| SysUnlink (path : string)
| SysRename (source target : string).

(** [denied] holds the paths that cannot be opened (permissions, a
    read-only volume, a missing parent directory): every access to them
    fails before anything changes.  [space] holds the paths on a volume that is short of space:
    [space !! p = Some n] says that no more than [n] code units can be
    stored in the file at [p].  [journal] lists the mutating calls issued
    so far, oldest first. *)
Record disk : Type := {
  nodes : gmap string node;
  denied : gset string;
  space : gmap string nat;
  journal : list syscall
}.

Definition record (c : syscall) (d : disk) : disk :=
  {| nodes := nodes d; denied := denied d; space := space d;
     journal := (journal d ++ [c])%list |}.

Definition with_nodes (n : gmap string node) (d : disk) : disk :=
  {| nodes := n; denied := denied d; space := space d; journal := journal d |}.

Definition is_denied (p : string) (d : disk) : bool :=
  bool_decide (p ∈ denied d).

(** [fs.existsSync(p)]. *)
Definition existsSync (p : string) (d : disk) : bool :=
  match nodes d !! p with Some _ => true | None => false end.

(** [fs.readFileSync(p, 'utf-8')]. *)
Definition readFileSync (p : string) (d : disk) : outcome string :=
  if is_denied p d then Throw "EACCES: permission denied"
  else match nodes d !! p with
       | Some (File data) => Ok data
       | Some Dir => Throw "EISDIR: illegal operation on a directory"
       | None => Throw "ENOENT: no such file or directory"
       end.

(** [fs.mkdirSync(p, { recursive: true })]; the ancestors it creates on the
    way are not tracked. *)
Definition mkdirSync (p : string) (d : disk) : outcome unit * disk :=
  let d' := record (SysMkdir p) d in
  if is_denied p d then (Throw "EACCES: permission denied", d')
  else match nodes d !! p with
       | Some (File _) => (Throw "EEXIST: file already exists", d')
       | _ => (Ok tt, with_nodes (<[p := Dir]> (nodes d)) d')
       end.

(** How much of [data] the file at [p] can take. *)
Definition fits (p data : string) (d : disk) : nat :=
  match space d !! p with
  | Some n => Nat.min n (String.length data)
  | None => String.length data
  end.

(** [fs.writeFileSync(p, data, 'utf-8')] run to completion: the file is
    opened with flag 'w' (created or truncated), the data is written and
    the file is closed.  When the file cannot be opened the call throws
    and nothing has changed; when the volume runs out of space the call
    throws after the file was truncated and holds the part of the data
    that fitted. *)
Definition writeFileSync (p data : string) (d : disk) : outcome unit * disk :=
  let d' := record (SysWrite p data) d in
  if is_denied p d then (Throw "EACCES: permission denied", d')
  else match nodes d !! p with
       | Some Dir => (Throw "EISDIR: illegal operation on a directory", d')
       | _ =>
           if (fits p data d <? String.length data)%nat
           then (Throw "ENOSPC: no space left on device",
                 with_nodes
                   (<[p := File (String.substring 0 (fits p data d) data)]> (nodes d)) d')
           else (Ok tt, with_nodes (<[p := File data]> (nodes d)) d')
       end.

(** The disk left behind when the process dies inside [writeFileSync]
    after [written] code units have reached the file: the file was
    truncated when it was opened and holds what was written since. *)
Definition writeFileSync_interrupted (written : nat) (p data : string)
    (d : disk) : disk :=
  let d' := record (SysWrite p data) d in
  if is_denied p d then d'
  else match nodes d !! p with
       | Some Dir => d'
       | _ =>
           with_nodes
             (<[p := File (String.substring 0 (Nat.min written (fits p data d)) data)]>
                (nodes d)) d'
       end.

(** [fs.unlinkSync(p)]. *)
Definition unlinkSync (p : string) (d : disk) : outcome unit * disk :=
  let d' := record (SysUnlink p) d in
  if is_denied p d then (Throw "EACCES: permission denied", d')
  else match nodes d !! p with
       | Some (File _) => (Ok tt, with_nodes (delete p (nodes d)) d')
       | Some Dir => (Throw "EISDIR: illegal operation on a directory", d')
       | None => (Throw "ENOENT: no such file or directory", d')
       end.

(** What [readFileSync] would find at [p]. *)
Definition content (p : string) (d : disk) : option string :=
  match nodes d !! p with
  | Some (File data) => Some data
  | _ => None
  end.

End Fs.

(** ** simple-hash-cache.ts *)

Module SimpleHashCacheManager.

Record FileHashEntry : Type := {
  hash : string;
  lastModified : Z;
  chunkCount : Z
}.

Record SimpleHashCache : Type := {
  projectPath : string;
  collectionName : string;
  lastIndexed : Z;
  files : JsObject.t FileHashEntry
}.

(** The private fields of the class. *)
Record t : Type := {
  cacheDir : string;
  cacheFilePath : string;
  cache : SimpleHashCache
}.

Definition with_cache (c : SimpleHashCache) (m : t) : t :=
  {| cacheDir := cacheDir m; cacheFilePath := cacheFilePath m; cache := c |}.

Definition with_files (f : JsObject.t FileHashEntry) (c : SimpleHashCache)
    : SimpleHashCache :=
  {| projectPath := projectPath c; collectionName := collectionName c;
     lastIndexed := lastIndexed c; files := f |}.

Definition with_lastIndexed (now : Z) (c : SimpleHashCache) : SimpleHashCache :=
  {| projectPath := projectPath c; collectionName := collectionName c;
     lastIndexed := now; files := files c |}.

(** The document [JSON.stringify(this.cache, null, 2)] prints; the fields
    come in the order of the object literals that create them. *)
Definition entry_json (e : FileHashEntry) : Json.value :=
  Json.Obj [("hash", Json.Str (hash e));
            ("lastModified", Json.Num (lastModified e));
            ("chunkCount", Json.Num (chunkCount e))].

Definition cache_json (c : SimpleHashCache) : Json.value :=
  Json.Obj [("projectPath", Json.Str (projectPath c));
            ("collectionName", Json.Str (collectionName c));
            ("lastIndexed", Json.Num (lastIndexed c));
            ("files", Json.Obj (map (fun kv => (fst kv, entry_json (snd kv))) (files c)))].

Definition document (c : SimpleHashCache) : string :=
  Json.stringify (cache_json c).

Section Loading.

(** [path.join] of Node's path module. *)
Variable path_join : string -> string -> string.

(** [JSON.parse] followed by the unchecked cast to [SimpleHashCache]:
    [None] when parsing throws or the text is not a document of that
    shape. *)
Variable JSON_parse : string -> option SimpleHashCache.

Definition ensureCacheDir (dir : string) (d : Fs.disk) : outcome unit * Fs.disk :=
  if negb (Fs.existsSync dir d) then Fs.mkdirSync dir d else (Ok tt, d).

Definition emptyCache (projectPath collectionName : string) (now : Z)
    : SimpleHashCache :=
  {| projectPath := projectPath; collectionName := collectionName;
     lastIndexed := now; files := JsObject.empty |}.

(** [loadCache]; [file] is [this.cacheFilePath], [now] what [Date.now()]
    returns. *)
Definition loadCache (file projectPath' collectionName' : string) (now : Z)
    (d : Fs.disk) : SimpleHashCache :=
  let fresh := emptyCache projectPath' collectionName' now in
  if Fs.existsSync file d then
    match Fs.readFileSync file d with
    | Ok data =>
        match JSON_parse data with
        | Some loaded =>
            if String.eqb (projectPath loaded) projectPath'
               && String.eqb (collectionName loaded) collectionName'
            then loaded
            else fresh
        | None => fresh
        end
    | Throw _ => fresh
    end
  else fresh.

(** [new SimpleHashCacheManager(projectPath, collectionName)]. *)
Definition new (projectPath' collectionName' : string) (now : Z)
    (d : Fs.disk) : outcome t * Fs.disk :=
  let dir := path_join projectPath' ".context" in
  let file := path_join dir "file-hashes.json" in
  match ensureCacheDir dir d with
  | (Ok _, d') =>
      (Ok {| cacheDir := dir; cacheFilePath := file;
             cache := loadCache file projectPath' collectionName' now d' |}, d')
  | (Throw e, d') => (Throw e, d')
  end.

End Loading.

(** [save()]: the time stamp is set first; a failing write is logged and
    swallowed. *)
Definition save (now : Z) (m : t) (d : Fs.disk) : t * Fs.disk :=
  let c := with_lastIndexed now (cache m) in
  let m' := with_cache c m in
  match Fs.writeFileSync (cacheFilePath m) (document c) d with
  | (Ok _, d') => (m', d')
  | (Throw _, d') => (m', d')
  end.

(** The disk when the process dies inside the write of [save()], after
    [written] code units. *)
Definition save_interrupted (written : nat) (now : Z) (m : t) (d : Fs.disk)
    : Fs.disk :=
  let c := with_lastIndexed now (cache m) in
  Fs.writeFileSync_interrupted written (cacheFilePath m) (document c) d.

(** [clear()]. *)
Definition clear (m : t) (d : Fs.disk) : Fs.disk :=
  if Fs.existsSync (cacheFilePath m) d
  then snd (Fs.unlinkSync (cacheFilePath m) d)
  else d.

(** [hasFileChanged(relativePath, currentHash)]; the [hash] of an
    inherited member is [undefined], which differs from every string. *)
Definition hasFileChanged (relativePath currentHash : string) (m : t) : bool :=
  match JsObject.lookup relativePath (files (cache m)) with
  | JsObject.Nothing => true
  | JsObject.Entry entry => negb (String.eqb (hash entry) currentHash)
  | JsObject.Member => true
  end.

(** [updateFile(relativePath, hash, chunkCount)]. *)
Definition updateFile (relativePath hash' : string) (chunkCount' : Z) (now : Z)
    (m : t) : t :=
  let entry := {| hash := hash'; lastModified := now; chunkCount := chunkCount' |} in
  with_cache (with_files (JsObject.set relativePath entry (files (cache m))) (cache m)) m.

(** [getDeletedFiles(currentFiles)]. *)
Definition getDeletedFiles (currentFiles : gset string) (m : t) : list string :=
  let cached := JsObject.keys (files (cache m)) in
  filter (fun f => ¬ (f ∈ currentFiles)) cached.

(** [getStats()], the date left as its time stamp.  The sum is the sum of
    integers; the code adds doubles, which is the same as long as the
    counts are not negative and the sum does not exceed 2^53. *)
Definition getStats (m : t) : nat * Z * Z :=
  let totalFiles := length (JsObject.keys (files (cache m))) in
  let totalChunks :=
    foldl (fun sum entry => sum + chunkCount entry) 0 (JsObject.values (files (cache m))) in
  (totalFiles, totalChunks, lastIndexed (cache m)).

End SimpleHashCacheManager.

(** ** hash-cache.ts *)

Module HashCacheManager.

Record SymbolHash : Type := {
  name : string;
  startLine : Z;
  endLine : Z;
  contentHash : string
}.

Record FileHash : Type := {
  filePath : string;
  fileHash : string;
  lastModified : Z;
  symbols : list SymbolHash
}.

Record HashCache : Type := {
  projectPath : string;
  collectionName : string;
  lastIndexed : Z;
  files : JsObject.t FileHash
}.

(** The private fields of the class; [cache] is [null] after [clear()]. *)
Record t : Type := {
  cacheDir : string;
  cacheFilePath : string;
  cache : option HashCache
}.

Definition with_cache (c : option HashCache) (m : t) : t :=
  {| cacheDir := cacheDir m; cacheFilePath := cacheFilePath m; cache := c |}.

Definition with_files (f : JsObject.t FileHash) (c : HashCache) : HashCache :=
  {| projectPath := projectPath c; collectionName := collectionName c;
     lastIndexed := lastIndexed c; files := f |}.

Definition with_lastIndexed (now : Z) (c : HashCache) : HashCache :=
  {| projectPath := projectPath c; collectionName := collectionName c;
     lastIndexed := now; files := files c |}.

Definition symbol_json (s : SymbolHash) : Json.value :=
  Json.Obj [("name", Json.Str (name s));
            ("startLine", Json.Num (startLine s));
            ("endLine", Json.Num (endLine s));
            ("contentHash", Json.Str (contentHash s))].

Definition file_json (f : FileHash) : Json.value :=
  Json.Obj [("filePath", Json.Str (filePath f));
            ("fileHash", Json.Str (fileHash f));
            ("lastModified", Json.Num (lastModified f));
            ("symbols", Json.Arr (map symbol_json (symbols f)))].

Definition cache_json (c : HashCache) : Json.value :=
  Json.Obj [("projectPath", Json.Str (projectPath c));
            ("collectionName", Json.Str (collectionName c));
            ("lastIndexed", Json.Num (lastIndexed c));
            ("files", Json.Obj (map (fun kv => (fst kv, file_json (snd kv))) (files c)))].

Definition document (c : HashCache) : string :=
  Json.stringify (cache_json c).

(** [createEmptyCache]. *)
Definition createEmptyCache (projectPath' collectionName' : string) (now : Z)
    : HashCache :=
  {| projectPath := projectPath'; collectionName := collectionName';
     lastIndexed := now; files := JsObject.empty |}.

Section Loading.

Variable path_join : string -> string -> string.

(** [JSON.parse] followed by the assignment to the field of type
    [HashCache | null]: [None] when parsing throws, [Some None] for the
    text [null], [Some (Some c)] for a document of the shape. *)
Variable JSON_parse : string -> option (option HashCache).

Definition ensureCacheDir (dir : string) (d : Fs.disk) : outcome unit * Fs.disk :=
  if negb (Fs.existsSync dir d) then Fs.mkdirSync dir d else (Ok tt, d).

(** [loadCache]: the value it leaves in [this.cache]. *)
Definition loadCache (file projectPath' collectionName' : string) (now : Z)
    (d : Fs.disk) : option HashCache :=
  let fresh := Some (createEmptyCache projectPath' collectionName' now) in
  if Fs.existsSync file d then
    match Fs.readFileSync file d with
    | Ok data =>
        match JSON_parse data with
        | Some (Some loaded) =>
            if negb (String.eqb (projectPath loaded) projectPath')
               || negb (String.eqb (collectionName loaded) collectionName')
            then fresh
            else Some loaded
        | Some None => fresh
        | None => fresh
        end
    | Throw _ => fresh
    end
  else fresh.

(** [new HashCacheManager(projectPath, collectionName)]. *)
Definition new (projectPath' collectionName' : string) (now : Z)
    (d : Fs.disk) : outcome t * Fs.disk :=
  let dir := path_join projectPath' ".context" in
  let file := path_join dir "hash-cache.json" in
  match ensureCacheDir dir d with
  | (Ok _, d') =>
      (Ok {| cacheDir := dir; cacheFilePath := file;
             cache := loadCache file projectPath' collectionName' now d' |}, d')
  | (Throw e, d') => (Throw e, d')
  end.

End Loading.

(** [save()]. *)
Definition save (now : Z) (m : t) (d : Fs.disk) : t * Fs.disk :=
  match cache m with
  | None => (m, d)
  | Some c0 =>
      let c := with_lastIndexed now c0 in
      let m' := with_cache (Some c) m in
      match Fs.writeFileSync (cacheFilePath m) (document c) d with
      | (Ok _, d') => (m', d')
      | (Throw _, d') => (m', d')
      end
  end.

Definition save_interrupted (written : nat) (now : Z) (m : t) (d : Fs.disk)
    : Fs.disk :=
  match cache m with
  | None => d
  | Some c0 =>
      Fs.writeFileSync_interrupted written (cacheFilePath m)
        (document (with_lastIndexed now c0)) d
  end.

(** [clear()]. *)
Definition clear (m : t) (d : Fs.disk) : t * Fs.disk :=
  let d' := if Fs.existsSync (cacheFilePath m) d
            then snd (Fs.unlinkSync (cacheFilePath m) d)
            else d in
  (with_cache None m, d').

(** The mapping the manager holds; there is none after [clear()]. *)
Definition mapping (m : t) : JsObject.t FileHash :=
  match cache m with
  | None => JsObject.empty
  | Some c => files c
  end.

(** [getFileHash(relativePath)], [this.cache.files[relativePath] || null]:
    [Nothing] is [null]; for the name of a member of [Object.prototype]
    that is not a cached path the method returns that member. *)
Definition getFileHash (relativePath : string) (m : t) : JsObject.slot FileHash :=
  match cache m with
  | None => JsObject.Nothing
  | Some c => JsObject.lookup relativePath (files c)
  end.

(** [updateFileHash(fileHash)]. *)
Definition updateFileHash (f : FileHash) (m : t) : t :=
  match cache m with
  | None => m
  | Some c => with_cache (Some (with_files (JsObject.set (filePath f) f (files c)) c)) m
  end.

(** [removeFile(relativePath)]. *)
Definition removeFile (relativePath : string) (m : t) : t :=
  match cache m with
  | None => m
  | Some c => with_cache (Some (with_files (JsObject.remove relativePath (files c)) c)) m
  end.

(** [hasFileChanged(relativePath, currentHash)]. *)
Definition hasFileChanged (relativePath currentHash : string) (m : t) : bool :=
  match getFileHash relativePath m with
  | JsObject.Nothing => true
  | JsObject.Entry cached => negb (String.eqb (fileHash cached) currentHash)
  | JsObject.Member => true
  end.

Definition symbol_key (s : SymbolHash) : string :=
  name s ++ ":" ++ JsString.of_Z (startLine s) ++ ":" ++ JsString.of_Z (endLine s).

(** [new Map(entries).get(key)]: the last entry with the key wins. *)
Definition map_get {V} (key : string) (entries : list (string * V)) : option V :=
  JsObject.get key (rev entries).

(** [getChangedSymbols(relativePath, currentSymbols)]; an inherited member
    has no [symbols], so that [cached.symbols.map] throws a TypeError. *)
Definition getChangedSymbols (relativePath : string) (currentSymbols : list SymbolHash)
    (m : t) : outcome (list SymbolHash) :=
  match getFileHash relativePath m with
  | JsObject.Nothing => Ok currentSymbols
  | JsObject.Entry cached =>
      let cachedSymbolMap := map (fun s => (symbol_key s, s)) (symbols cached) in
      Ok (List.filter
            (fun symbol =>
               match map_get (symbol_key symbol) cachedSymbolMap with
               | None => true
               | Some cachedSymbol =>
                   negb (String.eqb (contentHash cachedSymbol) (contentHash symbol))
               end)
            currentSymbols)
  | JsObject.Member => Throw "Cannot read properties of undefined (reading 'map')"
  end.

(** [getCachedFilePaths()]. *)
Definition getCachedFilePaths (m : t) : list string :=
  match cache m with
  | None => []
  | Some c => JsObject.keys (files c)
  end.

(** [getDeletedFiles(currentFiles)]. *)
Definition getDeletedFiles (currentFiles : list string) (m : t) : list string :=
  let cached := getCachedFilePaths m in
  let currentSet : gset string := list_to_set currentFiles in
  filter (fun f => ¬ (f ∈ currentSet)) cached.

Section Hashing.

(** [crypto.createHash('sha256').update(content, 'utf-8').digest('hex')]. *)
Variable sha256 : string -> string.

(** [calculateFileHash(content)]. *)
Definition calculateFileHash (content : string) : string := sha256 content.

(** The constant [normalized] of [calculateSymbolHash]. *)
Definition normalized (content : string) : string :=
  JsString.replace_spaces (JsString.trim content).

(** [calculateSymbolHash(content)]. *)
Definition calculateSymbolHash (content : string) : string :=
  sha256 (normalized content).

End Hashing.

(** [getStats()], the date left as its time stamp. *)
Definition getStats (m : t) : nat * nat * Z :=
  match cache m with
  | None => (0%nat, 0%nat, 0)
  | Some c =>
      let totalFiles := length (JsObject.keys (files c)) in
      let totalSymbols :=
        foldl (fun sum file => (sum + length (symbols file))%nat) 0%nat
          (JsObject.values (files c)) in
      (totalFiles, totalSymbols, lastIndexed c)
  end.

End HashCacheManager.

(** ** MD5, as [crypto.createHash('md5').update(s).digest('hex')] computes it *)

Module Md5.

Definition mask32 (x : Z) : Z := Z.land x 0xffffffff.

Definition add32 (x y : Z) : Z := mask32 (x + y).

Definition not32 (x : Z) : Z := Z.lxor x 0xffffffff.

Definition rotl32 (x : Z) (n : Z) : Z :=
  mask32 (Z.lor (Z.shiftl x n) (Z.shiftr x (32 - n))).

(** [update(s)] hashes the UTF-8 encoding of the string: one byte for a
    code unit below 128, two for the others below 256. *)
Fixpoint utf8 (s : string) : list Z :=
  match s with
  | EmptyString => []
  | String c r =>
      let n := Z.of_N (JsString.code c) in
      if n <? 128 then n :: utf8 r
      else Z.lor 0xc0 (Z.shiftr n 6) :: Z.lor 0x80 (Z.land n 0x3f) :: utf8 r
  end.

Definition sines : list Z :=
  [ 0xd76aa478; 0xe8c7b756; 0x242070db; 0xc1bdceee;
    0xf57c0faf; 0x4787c62a; 0xa8304613; 0xfd469501;
    0x698098d8; 0x8b44f7af; 0xffff5bb1; 0x895cd7be;
    0x6b901122; 0xfd987193; 0xa679438e; 0x49b40821;
    0xf61e2562; 0xc040b340; 0x265e5a51; 0xe9b6c7aa;
    0xd62f105d; 0x02441453; 0xd8a1e681; 0xe7d3fbc8;
    0x21e1cde6; 0xc33707d6; 0xf4d50d87; 0x455a14ed;
    0xa9e3e905; 0xfcefa3f8; 0x676f02d9; 0x8d2a4c8a;
    0xfffa3942; 0x8771f681; 0x6d9d6122; 0xfde5380c;
    0xa4beea44; 0x4bdecfa9; 0xf6bb4b60; 0xbebfbc70;
    0x289b7ec6; 0xeaa127fa; 0xd4ef3085; 0x04881d05;
    0xd9d4d039; 0xe6db99e5; 0x1fa27cf8; 0xc4ac5665;
    0xf4292244; 0x432aff97; 0xab9423a7; 0xfc93a039;
    0x655b59c3; 0x8f0ccc92; 0xffeff47d; 0x85845dd1;
    0x6fa87e4f; 0xfe2ce6e0; 0xa3014314; 0x4e0811a1;
    0xf7537e82; 0xbd3af235; 0x2ad7d2bb; 0xeb86d391 ].

Definition shifts : list Z :=
  [ 7; 12; 17; 22; 7; 12; 17; 22; 7; 12; 17; 22; 7; 12; 17; 22;
    5; 9; 14; 20; 5; 9; 14; 20; 5; 9; 14; 20; 5; 9; 14; 20;
    4; 11; 16; 23; 4; 11; 16; 23; 4; 11; 16; 23; 4; 11; 16; 23;
    6; 10; 15; 21; 6; 10; 15; 21; 6; 10; 15; 21; 6; 10; 15; 21 ].

(** The [count] low bytes of [x], least significant first. *)
Definition le_bytes (count : nat) (x : Z) : list Z :=
  map (fun i => Z.land (Z.shiftr x (8 * Z.of_nat i)) 0xff) (seq 0 count).

(** The message with its padding: a one bit, zeros up to 56 modulo 64
    bytes, then the bit length as a 64-bit little-endian integer. *)
Definition padded (message : list Z) : list Z :=
  let len := Z.of_nat (length message) in
  let zeros := Z.to_nat ((55 - len) mod 64) in
  (message ++ [0x80] ++ replicate zeros 0 ++ le_bytes 8 (Z.land (8 * len) 0xffffffffffffffff))%list.

Definition le_word (bytes : list Z) : Z :=
  foldr (fun b acc => b + 256 * acc) 0 bytes.

(** The sixteen 32-bit words of a 64-byte block. *)
Fixpoint words (count : nat) (bytes : list Z) : list Z :=
  match count with
  | O => []
  | S k => le_word (take 4 bytes) :: words k (drop 4 bytes)
  end.

Definition state : Type := Z * Z * Z * Z.

Definition round (m : list Z) (i : nat) (st : state) : state :=
  let '(a, b, c, d) := st in
  let '(f, g) :=
    if (i <? 16)%nat then (Z.lor (Z.land b c) (Z.land (not32 b) d), i)
    else if (i <? 32)%nat then (Z.lor (Z.land d b) (Z.land (not32 d) c), (5 * i + 1) mod 16)%nat
    else if (i <? 48)%nat then (Z.lxor (Z.lxor b c) d, (3 * i + 5) mod 16)%nat
    else (Z.lxor c (Z.lor b (not32 d)), (7 * i) mod 16)%nat in
  let f' := add32 (add32 (add32 f a) (sines !!! i)) (m !!! g) in
  (d, add32 b (rotl32 f' (shifts !!! i)), b, c).

Definition compress (st : state) (block : list Z) : state :=
  let m := words 16 block in
  let '(a, b, c, d) := foldl (fun s i => round m i s) st (seq 0 64) in
  let '(a0, b0, c0, d0) := st in
  (add32 a0 a, add32 b0 b, add32 c0 c, add32 d0 d).

Fixpoint blocks (count : nat) (st : state) (bytes : list Z) : state :=
  match count with
  | O => st
  | S k => blocks k (compress st (take 64 bytes)) (drop 64 bytes)
  end.

Definition initial : state := (0x67452301, 0xefcdab89, 0x98badcfe, 0x10325476).

Definition digest (message : list Z) : list Z :=
  let bytes := padded message in
  let '(a, b, c, d) := blocks (length bytes / 64) initial bytes in
  (le_bytes 4 a ++ le_bytes 4 b ++ le_bytes 4 c ++ le_bytes 4 d)%list.

Definition hex_byte (b : Z) : string :=
  String (Json.hex_digit (Z.to_N (b / 16)))
    (String (Json.hex_digit (Z.to_N (b mod 16))) EmptyString).

Definition hex (s : string) : string :=
  foldr (fun b acc => hex_byte b ++ acc) EmptyString (digest (utf8 s)).

End Md5.

(** ** project-metadata.ts: collection names *)

Module ProjectMetadataManager.

Section Naming.

(** [path.resolve] of Node's path module; its result depends on the
    working directory of the process and on the platform. *)
Variable path_resolve : string -> string.

(** A string in a condition is true when it is not empty;
    [undefined] and [null] are false. *)
Definition truthy (s : option string) : option string :=
  match s with
  | Some EmptyString => None
  | other => other
  end.

(** [generateCollectionName(projectPath, isHybrid, gitRepoIdentifier)]. *)
Definition generateCollectionName (projectPath : string) (isHybrid : bool)
    (gitRepoIdentifier : option string) : string :=
  let prefix := if isHybrid then "hybrid_code_chunks" else "code_chunks" in
  match truthy gitRepoIdentifier with
  | Some identifier =>
      let cleanIdentifier :=
        JsString.substring 0 32
          (JsString.toLowerCase (JsString.replace_non_alnum identifier)) in
      let hash := Md5.hex identifier in
      prefix ++ "_git_" ++ cleanIdentifier ++ "_" ++ JsString.substring 0 8 hash
  | None =>
      let normalizedPath := path_resolve projectPath in
      let hash := Md5.hex normalizedPath in
      prefix ++ "_" ++ JsString.substring 0 8 hash
  end.

End Naming.

(** ** project-metadata.ts: the metadata file *)

Record ProjectMetadata : Type := {
  version : string;
  projectPath : string;
  collectionName : string;
  gitRepoIdentifier : option string;
  isHybrid : bool;
  embeddingModel : string;
  embeddingDimension : Z;
  createdAt : Z;
  lastIndexed : Z;
  indexedFileCount : Z;
  totalChunks : Z
}.

Module Params.
(** The argument of [initializeOrUpdate]. *)
Record t : Type := {
  projectPath : string;
  collectionName : string;
  gitRepoIdentifier : option string;
  isHybrid : bool;
  embeddingModel : string;
  embeddingDimension : Z;
  indexedFileCount : Z;
  totalChunks : Z
}.
End Params.

(** The private fields of the class; [metadata] is [null] until a file is
    loaded or [initializeOrUpdate] is called, and after [clear()]. *)
Record t : Type := {
  metadataDir : string;
  metadataFilePath : string;
  metadata : option ProjectMetadata
}.

Definition with_metadata (x : option ProjectMetadata) (m : t) : t :=
  {| metadataDir := metadataDir m; metadataFilePath := metadataFilePath m;
     metadata := x |}.

Definition with_projectPath (p : string) (x : ProjectMetadata) : ProjectMetadata :=
  {| version := version x; projectPath := p; collectionName := collectionName x;
     gitRepoIdentifier := gitRepoIdentifier x; isHybrid := isHybrid x;
     embeddingModel := embeddingModel x; embeddingDimension := embeddingDimension x;
     createdAt := createdAt x; lastIndexed := lastIndexed x;
     indexedFileCount := indexedFileCount x; totalChunks := totalChunks x |}.

(** The two assignments at the start of [save()]. *)
Definition stamped (now : Z) (x : ProjectMetadata) : ProjectMetadata :=
  {| version := "1.0"; projectPath := projectPath x; collectionName := collectionName x;
     gitRepoIdentifier := gitRepoIdentifier x; isHybrid := isHybrid x;
     embeddingModel := embeddingModel x; embeddingDimension := embeddingDimension x;
     createdAt := createdAt x; lastIndexed := now;
     indexedFileCount := indexedFileCount x; totalChunks := totalChunks x |}.

Section Store.

Variable path_join : string -> string -> string.
Variable path_resolve : string -> string.

(** [JSON.parse] followed by the unchecked cast to [ProjectMetadata]:
    [None] when parsing throws or the value is not an object of that
    shape (reading [loaded.version] of [null] and resolving a path that is
    not a string both throw inside the same [try]). *)
Variable JSON_parse : string -> option ProjectMetadata.

(** [JSON.stringify(this.metadata, null, 2)].  The text lists the
    properties in the order in which the object got them, which for a
    loaded object is the order of the file it came from; the record does
    not carry that order, so the text is left open. *)
Variable JSON_stringify : ProjectMetadata -> string.

Definition ensureMetadataDir (dir : string) (d : Fs.disk) : outcome unit * Fs.disk :=
  if negb (Fs.existsSync dir d) then Fs.mkdirSync dir d else (Ok tt, d).

(** [loadMetadata(projectPath)]: the value it leaves in [this.metadata],
    which is still [null] when it is called. *)
Definition loadMetadata (file projectPath' : string) (d : Fs.disk)
    : option ProjectMetadata :=
  if Fs.existsSync file d then
    match Fs.readFileSync file d with
    | Ok data =>
        match JSON_parse data with
        | Some loaded =>
            let normalizedCurrent := path_resolve projectPath' in
            let normalizedStored := path_resolve (projectPath loaded) in
            if negb (String.eqb normalizedCurrent normalizedStored)
            then Some (with_projectPath normalizedCurrent loaded)
            else Some loaded
        | None => None
        end
    | Throw _ => None
    end
  else None.

(** [new ProjectMetadataManager(projectPath)]. *)
Definition new (projectPath' : string) (d : Fs.disk) : outcome t * Fs.disk :=
  let dir := path_join projectPath' ".context" in
  let file := path_join dir "project.json" in
  match ensureMetadataDir dir d with
  | (Ok _, d') =>
      (Ok {| metadataDir := dir; metadataFilePath := file;
             metadata := loadMetadata file projectPath' d' |}, d')
  | (Throw e, d') => (Throw e, d')
  end.

(** [save()]: nothing happens without metadata; otherwise the version and
    the time stamp are set first and a failing write is swallowed. *)
Definition save (now : Z) (m : t) (d : Fs.disk) : t * Fs.disk :=
  match metadata m with
  | None => (m, d)
  | Some x0 =>
      let x := stamped now x0 in
      let m' := with_metadata (Some x) m in
      match Fs.writeFileSync (metadataFilePath m) (JSON_stringify x) d with
      | (Ok _, d') => (m', d')
      | (Throw _, d') => (m', d')
      end
  end.

End Store.

(** [clear()]. *)
Definition clear (m : t) (d : Fs.disk) : t * Fs.disk :=
  let d' := if Fs.existsSync (metadataFilePath m) d
            then snd (Fs.unlinkSync (metadataFilePath m) d)
            else d in
  (with_metadata None m, d').

(** [exists()]. *)
Definition exists_ (m : t) : bool :=
  match metadata m with Some _ => true | None => false end.

(** [getCollectionName()], [this.metadata?.collectionName || null]. *)
Definition getCollectionName (m : t) : option string :=
  match metadata m with
  | Some x => truthy (Some (collectionName x))
  | None => None
  end.

(** [getMetadata()]. *)
Definition getMetadata (m : t) : option ProjectMetadata := metadata m.

(** [initializeOrUpdate(params)]; [now] is what [Date.now()] returns. *)
Definition initializeOrUpdate (params : Params.t) (now : Z) (m : t) : t :=
  match metadata m with
  | Some x =>
      with_metadata
        (Some {| version := version x;
                 projectPath := Params.projectPath params;
                 collectionName := Params.collectionName params;
                 gitRepoIdentifier := Params.gitRepoIdentifier params;
                 isHybrid := Params.isHybrid params;
                 embeddingModel := Params.embeddingModel params;
                 embeddingDimension := Params.embeddingDimension params;
                 createdAt := createdAt x;
                 lastIndexed := now;
                 indexedFileCount := Params.indexedFileCount params;
                 totalChunks := Params.totalChunks params |})
        m
  | None =>
      with_metadata
        (Some {| version := "1.0";
                 projectPath := Params.projectPath params;
                 collectionName := Params.collectionName params;
                 gitRepoIdentifier := Params.gitRepoIdentifier params;
                 isHybrid := Params.isHybrid params;
                 embeddingModel := Params.embeddingModel params;
                 embeddingDimension := Params.embeddingDimension params;
                 createdAt := now;
                 lastIndexed := now;
                 indexedFileCount := Params.indexedFileCount params;
                 totalChunks := Params.totalChunks params |})
        m
  end.

(** The result of [validateAgainstConfig]. *)
Record Validation : Type := {
  valid : bool;
  warnings : list string
}.

Definition mode_name (hybrid : bool) : string :=
  if hybrid then "hybrid" else "regular".

(** The three messages of [validateAgainstConfig]. *)
Definition modeWarning (stored current : bool) : string :=
  "Search mode mismatch: metadata has " ++ mode_name stored
  ++ ", current config is " ++ mode_name current.

Definition modelWarning (stored current : string) : string :=
  "Embedding model mismatch: metadata has '" ++ stored
  ++ "', current config is '" ++ current ++ "'".

Definition dimensionWarning (stored current : Z) : string :=
  "Embedding dimension mismatch: metadata has " ++ JsString.of_Z stored
  ++ "D, current config is " ++ JsString.of_Z current ++ "D".

(** [validateAgainstConfig(isHybrid, embeddingModel, embeddingDimension)]. *)
Definition validateAgainstConfig (isHybrid' : bool) (embeddingModel' : string)
    (embeddingDimension' : Z) (m : t) : Validation :=
  match metadata m with
  | None => {| valid := true; warnings := [] |}
  | Some x =>
      let warnings :=
        ((if negb (Bool.eqb (isHybrid x) isHybrid')
          then [modeWarning (isHybrid x) isHybrid'] else [])
         ++ (if negb (String.eqb (embeddingModel x) embeddingModel')
             then [modelWarning (embeddingModel x) embeddingModel'] else [])
         ++ (if negb (embeddingDimension x =? embeddingDimension')
             then [dimensionWarning (embeddingDimension x) embeddingDimension'] else []))%list in
      {| valid := (length warnings =? 0)%nat; warnings := warnings |}
  end.

End ProjectMetadataManager.

(** ** openai-embedding.ts *)

Module OpenAIEmbedding.

Module Config.
(** [OpenAIEmbeddingConfig]; an absent optional field is [None]. *)
Record t : Type := {
  model : string;
  apiKey : string;
  baseURL : option string;
  dimensions : option Z
}.

Definition with_model (m : string) (c : t) : t :=
  {| model := m; apiKey := apiKey c; baseURL := baseURL c;
     dimensions := dimensions c |}.
End Config.

Module ModelInfo.
Record t : Type := {
  dimension : Z;
  contextLength : Z;
  description : string
}.
End ModelInfo.

Module EmbeddingVector.
(** [vector] is [None] when the field holds [undefined], which only happens
    in a batch result, for an item that lacks the field being read. *)
Record t : Type := {
  vector : option (list float);
  dimension : Z
}.
End EmbeddingVector.

Module Request.
(** The [input] of a request is one string or an array of strings. *)
Inductive Input : Type :=
| One (text : string)
| Many (texts : list string).

Record t : Type := {
  model : string;
  input : Input;
  encoding_format : string;
  dimensions : option Z
}.

(** How many texts the request carries. *)
Definition size (r : t) : nat :=
  match input r with
  | One _ => 1%nat
  | Many texts => length texts
  end.
End Request.

Module Item.
(** One element of [response.data]: the vector sits under [embedding]
    (OpenAI) or under [vector] (Alibaba Cloud/DashScope). *)
Record t : Type := {
  embedding : option (list float);
  vector : option (list float)
}.
End Item.

(** The part of the response the client reads. *)
Record Response : Type := { data : list Item.t }.

(** [this.client.embeddings.create]: the provider answers a request, which
    it may do differently depending on the requests it has seen before, or
    the call throws. *)
Definition Provider : Type := list Request.t -> Request.t -> outcome Response.

(** The fields of the instance.  Both numbers can come to hold
    [undefined], which is [None]: the code reads them from the catalog
    entry of the model, and for a model name that is a member of
    [Object.prototype] the entry it finds has neither property. *)
Record t : Type := {
  config : Config.t;
  dimension : option Z;
  maxTokens : option Z
}.

(** The instance together with the exchanges with the provider so far,
    oldest first: each request with what the call returned or threw. *)
Record world : Type := {
  self : t;
  log : list (Request.t * outcome Response)
}.

(** The requests sent so far. *)
Definition sent (w : world) : list Request.t := map fst (log w).

(** Computations that read and change the instance, talk to the provider
    and may throw. *)
Definition M (A : Type) : Type := world -> outcome A * world.

Definition ret {A} (a : A) : M A := fun w => (Ok a, w).

Definition throw {A} (message : string) : M A := fun w => (Throw message, w).

Definition bind {A B} (m : M A) (k : A -> M B) : M B :=
  fun w =>
    match m w with
    | (Ok a, w') => k a w'
    | (Throw e, w') => (Throw e, w')
    end.

(** [try { body } catch (error) { handler(error.message) }]. *)
Definition try_catch {A} (body : M A) (handler : string -> M A) : M A :=
  fun w =>
    match body w with
    | (Ok a, w') => (Ok a, w')
    | (Throw e, w') => handler e w'
    end.

Definition getSelf : M t := fun w => (Ok (self w), w).

Definition withDimension (d : option Z) (e : t) : t :=
  {| config := config e; dimension := d; maxTokens := maxTokens e |}.

(** [this.dimension = d]. *)
Definition setDimension (d : option Z) : M unit :=
  fun w => (Ok tt, {| self := withDimension d (self w); log := log w |}).

Definition setMaxTokens (n : option Z) : M unit :=
  fun w =>
    (Ok tt, {| self := {| config := config (self w); dimension := dimension (self w);
                          maxTokens := n |};
               log := log w |}).

Definition setConfigModel (m : string) : M unit :=
  fun w =>
    (Ok tt, {| self := {| config := Config.with_model m (config (self w));
                          dimension := dimension (self w);
                          maxTokens := maxTokens (self w) |};
               log := log w |}).

Declare Scope embed_scope.
Delimit Scope embed_scope with embed.
Notation "'let*' x ':=' m 'in' k" := (bind m (fun x => k))
  (at level 10, x name, m at level 100, k at level 200) : embed_scope.

(** [a || b] on a string and on an optional number. *)
Definition or_string (a b : string) : string :=
  match a with EmptyString => b | _ => a end.

Definition truthy_number (a : option Z) : option Z :=
  match a with
  | Some z => if z =? 0 then None else Some z
  | None => None
  end.

Definition or_number (a : option Z) (b : Z) : Z :=
  match truthy_number a with Some z => z | None => b end.

(** [a !== b] on two values that are a number or [undefined]. *)
Definition differs (a b : option Z) : bool :=
  match a, b with
  | Some x, Some y => negb (x =? y)
  | None, None => false
  | _, _ => true
  end.

Definition default_model : string := "text-embedding-3-small".

(** [getSupportedModels()]. *)
Definition getSupportedModels : JsObject.t ModelInfo.t :=
  [ ("text-embedding-3-small",
     {| ModelInfo.dimension := 1536; ModelInfo.contextLength := 8192;
        ModelInfo.description :=
          "High performance and cost-effective embedding model (recommended)" |});
    ("text-embedding-3-large",
     {| ModelInfo.dimension := 3072; ModelInfo.contextLength := 8192;
        ModelInfo.description :=
          "Highest performance embedding model with larger dimensions" |});
    ("text-embedding-ada-002",
     {| ModelInfo.dimension := 1536; ModelInfo.contextLength := 8192;
        ModelInfo.description :=
          "Legacy model (use text-embedding-3-small instead)" |});
    ("Qwen/Qwen3-Embedding-8B",
     {| ModelInfo.dimension := 4096; ModelInfo.contextLength := 32000;
        ModelInfo.description :=
          "Qwen3 8B embedding model with 4096 dimensions (32k context)" |});
    ("Qwen/Qwen3-Embedding-4B",
     {| ModelInfo.dimension := 2560; ModelInfo.contextLength := 32000;
        ModelInfo.description :=
          "Qwen3 4B embedding model with 2560 dimensions (32k context)" |});
    ("Qwen/Qwen3-Embedding-0.6B",
     {| ModelInfo.dimension := 1024; ModelInfo.contextLength := 32000;
        ModelInfo.description :=
          "Qwen3 0.6B embedding model with 1024 dimensions (32k context)" |});
    ("text-embedding-v4",
     {| ModelInfo.dimension := 1024; ModelInfo.contextLength := 32000;
        ModelInfo.description :=
          "Qwen text-embedding-v4 model (Alibaba Cloud/DashScope) - 1024 dimensions, requires dashscope.aliyuncs.com baseURL" |}) ].

(** [this.config.baseURL?.includes('dashscope.aliyuncs.com')]. *)
Definition isAlibaba (c : Config.t) : bool :=
  match Config.baseURL c with
  | Some url => JsString.includes "dashscope.aliyuncs.com" url
  | None => false
  end.

(** [updateModelSettings(model)].  The test [if (modelInfo)] also succeeds
    for an inherited member, whose [dimension] and [contextLength] are
    [undefined]. *)
Definition updateModelSettings (model : string) (e : t) : t :=
  match JsObject.lookup model getSupportedModels with
  | JsObject.Entry modelInfo =>
      {| config := config e;
         dimension :=
           Some (or_number (Config.dimensions (config e)) (ModelInfo.dimension modelInfo));
         maxTokens := Some (ModelInfo.contextLength modelInfo) |}
  | JsObject.Member =>
      {| config := config e;
         dimension := truthy_number (Config.dimensions (config e));
         maxTokens := None |}
  | JsObject.Nothing =>
      {| config := config e;
         dimension := Some (or_number (Config.dimensions (config e)) 1536);
         maxTokens := Some 8192 |}
  end.

(** [new OpenAIEmbedding(config)]. *)
Definition new (c : Config.t) : t :=
  updateModelSettings (or_string (Config.model c) default_model)
    {| config := c; dimension := Some 1536; maxTokens := Some 8192 |}.

(** [getDimension()]; [None] is [undefined]. *)
Definition getDimension (e : t) : option Z :=
  let model := or_string (Config.model (config e)) default_model in
  match JsObject.lookup model getSupportedModels with
  | JsObject.Entry info => Some (ModelInfo.dimension info)
  | JsObject.Member => None
  | JsObject.Nothing => dimension e
  end.

(** The request object that [detectDimension], [embed] and [embedBatch]
    build: [dimensions] is set only when the configured value is true. *)
Definition embedRequest (model : string) (input : Request.Input) (c : Config.t)
    : Request.t :=
  {| Request.model := model;
     Request.input := input;
     Request.encoding_format := "float";
     Request.dimensions := truthy_number (Config.dimensions c) |}.

Definition shape_name (alibaba : bool) : string :=
  if alibaba then "vector" else "embedding".

Definition unexpected_format (alibaba : bool) : string :=
  "Unexpected embedding response format: expected " ++ shape_name alibaba ++ " field".

(** The message of the TypeError that reading a field of [response.data[0]]
    raises when [data] is empty. *)
Definition undefined_item (alibaba : bool) : string :=
  "Cannot read properties of undefined (reading '" ++ shape_name alibaba ++ "')".

(** The vector of the first item, by the rule shared by the three
    methods: [vector] when the endpoint is DashScope and the field is
    there, else [embedding] when that is there. *)
Definition firstVector (alibaba : bool) (response : Response) : outcome (list float) :=
  match data response with
  | [] => Throw (undefined_item alibaba)
  | firstItem :: _ =>
      match (if alibaba then Item.vector firstItem else None), Item.embedding firstItem with
      | Some v, _ => Ok v
      | None, Some v => Ok v
      | None, None => Throw (unexpected_format alibaba)
      end
  end.

Section Methods.

(** [preprocessText] and [preprocessTexts] are inherited from the class
    [Embedding] of base-embedding.ts, which is not among the sources.  Of
    the fields of the instance the base class can only see [maxTokens],
    which is their first argument. *)
Variable preprocessText : option Z -> string -> string.
Variable preprocessTexts : option Z -> list string -> list string.

Variable provider : Provider.

Local Open Scope embed_scope.

(** [await this.client.embeddings.create(request)]. *)
Definition create (request : Request.t) : M Response :=
  fun w =>
    let reply := provider (sent w) request in
    (reply, {| self := self w; log := (log w ++ [(request, reply)])%list |}).

Definition lift {A} (o : outcome A) : M A :=
  match o with
  | Ok a => ret a
  | Throw e => throw e
  end.

Definition vector_length (v : list float) : Z := Z.of_nat (length v).

(** [detectDimension(testText)]; the result [None] is [undefined], which
    the method returns for a model name that is an inherited member. *)
Definition detectDimension (testText : string) : M (option Z) :=
  let* e := getSelf in
  let model := or_string (Config.model (config e)) default_model in
  let knownModels := getSupportedModels in
  match truthy_number (Config.dimensions (config e)) with
  | Some d => ret (Some d)
  | None =>
      match JsObject.lookup model knownModels with
      | JsObject.Entry info => ret (Some (ModelInfo.dimension info))
      | JsObject.Member => ret None
      | JsObject.Nothing =>
          try_catch
            (let processedText := preprocessText (maxTokens e) testText in
             let request := embedRequest model (Request.One processedText) (config e) in
             let* response := create request in
             let* v := lift (firstVector (isAlibaba (config e)) response) in
             ret (Some (vector_length v)))
            (fun errorMessage =>
               throw ("Failed to detect dimension for model " ++ model ++ ": "
                      ++ errorMessage))
      end
  end.

(** The lines that [embed] and [embedBatch] share: bring
    [this.dimension] in line with the catalog, or detect it. *)
Definition refreshDimension (model : string) : M unit :=
  let* e := getSelf in
  match JsObject.lookup model getSupportedModels with
  | JsObject.Entry info =>
      if differs (dimension e) (Some (ModelInfo.dimension info))
      then setDimension (Some (ModelInfo.dimension info))
      else ret tt
  | JsObject.Member =>
      if differs (dimension e) None
      then setDimension None
      else ret tt
  | JsObject.Nothing =>
      let* d := detectDimension "test" in
      setDimension d
  end.

(** [embed(text)]. *)
Definition embed (text : string) : M EmbeddingVector.t :=
  let* e := getSelf in
  let processedText := preprocessText (maxTokens e) text in
  let model := or_string (Config.model (config e)) default_model in
  let* _ := refreshDimension model in
  try_catch
    (let request := embedRequest model (Request.One processedText) (config e) in
     let* response := create request in
     let* embeddingVector := lift (firstVector (isAlibaba (config e)) response) in
     let* _ := setDimension (Some (vector_length embeddingVector)) in
     ret {| EmbeddingVector.vector := Some embeddingVector;
            EmbeddingVector.dimension := vector_length embeddingVector |})
    (fun errorMessage =>
       throw ("Failed to generate OpenAI embedding: " ++ errorMessage)).

(** [texts.slice(start, stop)]. *)
Definition slice {A} (start stop : nat) (l : list A) : list A :=
  take (stop - start) (drop start l).

(** [response.data.map(item => ({ vector: item.FIELD, dimension }))]. *)
Definition itemVectors (useVector : bool) (dim : Z) (items : list Item.t)
    : list EmbeddingVector.t :=
  map (fun item =>
         {| EmbeddingVector.vector :=
              if useVector then Item.vector item else Item.embedding item;
            EmbeddingVector.dimension := dim |})
      items.

(** What [embedBatch] does with a response. *)
Definition batchVectors (alibaba : bool) (response : Response)
    : M (list EmbeddingVector.t) :=
  match data response with
  | [] => throw (undefined_item alibaba)
  | firstItem :: _ =>
      match (if alibaba then Item.vector firstItem else None), Item.embedding firstItem with
      | Some embeddingVector, _ =>
          let* _ := setDimension (Some (vector_length embeddingVector)) in
          ret (itemVectors true (vector_length embeddingVector) (data response))
      | None, Some embeddingVector =>
          let* _ := setDimension (Some (vector_length embeddingVector)) in
          ret (itemVectors false (vector_length embeddingVector) (data response))
      | None, None => throw (unexpected_format alibaba)
      end
  end.

(** [embedBatch(texts)] when the texts go out in one request. *)
Definition embedBatchRequest (texts : list string) : M (list EmbeddingVector.t) :=
  let* e := getSelf in
  let processedTexts := preprocessTexts (maxTokens e) texts in
  let model := or_string (Config.model (config e)) default_model in
  let* _ := refreshDimension model in
  try_catch
    (let request := embedRequest model (Request.Many processedTexts) (config e) in
     let* response := create request in
     batchVectors (isAlibaba (config e)) response)
    (fun errorMessage =>
       throw ("Failed to generate OpenAI batch embeddings: " ++ errorMessage)).

(** The loop [for (let i = 0; i < texts.length; i += maxBatchSize)] of
    [embedBatch]; [recur] is the recursive call [this.embedBatch], [count]
    bounds the number of iterations and [None] means that the bound was
    too small. *)
Fixpoint splitLoop
    (recur : list string -> world -> option (outcome (list EmbeddingVector.t) * world))
    (maxBatchSize : nat) (texts : list string) (count i : nat)
    (results : list EmbeddingVector.t) (w : world)
    : option (outcome (list EmbeddingVector.t) * world) :=
  if (i <? length texts)%nat then
    match count with
    | O => None
    | S count' =>
        let batch := slice i (i + maxBatchSize) texts in
        match recur batch w with
        | None => None
        | Some (Ok batchResults, w') =>
            splitLoop recur maxBatchSize texts count' (i + maxBatchSize)
              (results ++ batchResults)%list w'
        | Some (Throw e, w') => Some (Throw e, w')
        end
    end
  else Some (Ok results, w).

(** [embedBatch(texts)]; [fuel] bounds the depth of the recursion and
    [None] means that it ran out. *)
Fixpoint embedBatch (fuel : nat) (texts : list string) (w : world)
    : option (outcome (list EmbeddingVector.t) * world) :=
  match fuel with
  | O => None
  | S fuel' =>
      let maxBatchSize := if isAlibaba (config (self w)) then 10%nat else length texts in
      if (maxBatchSize <? length texts)%nat
      then splitLoop (embedBatch fuel') maxBatchSize texts (length texts) 0 [] w
      else Some (embedBatchRequest texts w)
  end.

(** [setModel(model)]. *)
Definition setModel (model : string) : M unit :=
  let* _ := setConfigModel model in
  match JsObject.lookup model getSupportedModels with
  | JsObject.Entry info =>
      let* _ := setDimension (Some (ModelInfo.dimension info)) in
      setMaxTokens (Some (ModelInfo.contextLength info))
  | JsObject.Member =>
      let* _ := setDimension None in
      setMaxTokens None
  | JsObject.Nothing =>
      let* d := detectDimension "test" in
      let* _ := setDimension d in
      setMaxTokens (Some 8192)
  end.

End Methods.

(** [getProvider()]. *)
Definition getProvider : string := "OpenAI".

End OpenAIEmbedding.

(** ** Sample data *)

Module Samples.

(** [path.join] on a normalized POSIX path and a plain name. *)
Definition join (a b : string) : string := a ++ "/" ++ b.

Definition entryA : SimpleHashCacheManager.FileHashEntry :=
  {| SimpleHashCacheManager.hash := "9f86d081884c7d65";
     SimpleHashCacheManager.lastModified := 1700000000000;
     SimpleHashCacheManager.chunkCount := 3 |}.

Definition entryB : SimpleHashCacheManager.FileHashEntry :=
  {| SimpleHashCacheManager.hash := "60303ae22b998861";
     SimpleHashCacheManager.lastModified := 1700000000500;
     SimpleHashCacheManager.chunkCount := 1 |}.

(** A cache written for the collection [code_chunks_90722f26]. *)
Definition cache1 : SimpleHashCacheManager.SimpleHashCache :=
  {| SimpleHashCacheManager.projectPath := "/home/user/project";
     SimpleHashCacheManager.collectionName := "code_chunks_90722f26";
     SimpleHashCacheManager.lastIndexed := 1700000001000;
     SimpleHashCacheManager.files := [("src/a.ts", entryA); ("src/b.ts", entryB)] |}.

Definition manager1 : SimpleHashCacheManager.t :=
  {| SimpleHashCacheManager.cacheDir := "/home/user/project/.context";
     SimpleHashCacheManager.cacheFilePath := "/home/user/project/.context/file-hashes.json";
     SimpleHashCacheManager.cache := cache1 |}.

(** A disk that holds the document of [cache1]. *)
Definition disk1 : Fs.disk :=
  {| Fs.nodes :=
       <[ "/home/user/project/.context/file-hashes.json" :=
            Fs.File (SimpleHashCacheManager.document cache1) ]>
         (<[ "/home/user/project/.context" := Fs.Dir ]> ∅);
     Fs.denied := ∅;
     Fs.space := ∅;
     Fs.journal := [] |}.

(** The same disk on a volume with room for forty code units of the cache
    file. *)
Definition disk1Full : Fs.disk :=
  {| Fs.nodes := Fs.nodes disk1;
     Fs.denied := ∅;
     Fs.space := {[ "/home/user/project/.context/file-hashes.json" := 40%nat ]};
     Fs.journal := [] |}.

(** A parser that knows the document of [cache1] and nothing else. *)
Definition parse1 (text : string) : option SimpleHashCacheManager.SimpleHashCache :=
  if String.eqb text (SimpleHashCacheManager.document cache1)
  then Some cache1 else None.

Definition symbolF : HashCacheManager.SymbolHash :=
  {| HashCacheManager.name := "main";
     HashCacheManager.startLine := 1;
     HashCacheManager.endLine := 12;
     HashCacheManager.contentHash := "2c26b46b68ffc68f" |}.

Definition fileA : HashCacheManager.FileHash :=
  {| HashCacheManager.filePath := "src/a.ts";
     HashCacheManager.fileHash := "9f86d081884c7d65";
     HashCacheManager.lastModified := 1700000000000;
     HashCacheManager.symbols := [symbolF] |}.

Definition cache2 : HashCacheManager.HashCache :=
  {| HashCacheManager.projectPath := "/home/user/project";
     HashCacheManager.collectionName := "code_chunks_90722f26";
     HashCacheManager.lastIndexed := 1700000001000;
     HashCacheManager.files := [("src/a.ts", fileA)] |}.

Definition manager2 : HashCacheManager.t :=
  {| HashCacheManager.cacheDir := "/home/user/project/.context";
     HashCacheManager.cacheFilePath := "/home/user/project/.context/hash-cache.json";
     HashCacheManager.cache := Some cache2 |}.

Definition disk2 : Fs.disk :=
  {| Fs.nodes :=
       <[ "/home/user/project/.context/hash-cache.json" :=
            Fs.File (HashCacheManager.document cache2) ]>
         (<[ "/home/user/project/.context" := Fs.Dir ]> ∅);
     Fs.denied := ∅;
     Fs.space := ∅;
     Fs.journal := [] |}.

Definition parse2 (text : string) : option (option HashCacheManager.HashCache) :=
  if String.eqb text (HashCacheManager.document cache2)
  then Some (Some cache2) else None.

(** Embedding clients: a DashScope endpoint with a model outside the
    catalog, the same endpoint with a catalog model and a custom dimension,
    and the OpenAI endpoint. *)
Definition dashscopeCustom : OpenAIEmbedding.Config.t :=
  {| OpenAIEmbedding.Config.model := "text-embedding-v3";
     OpenAIEmbedding.Config.apiKey := "sk-test";
     OpenAIEmbedding.Config.baseURL :=
       Some "https://dashscope.aliyuncs.com/compatible-mode/v1";
     OpenAIEmbedding.Config.dimensions := None |}.

Definition dashscopeV4 : OpenAIEmbedding.Config.t :=
  {| OpenAIEmbedding.Config.model := "text-embedding-v4";
     OpenAIEmbedding.Config.apiKey := "sk-test";
     OpenAIEmbedding.Config.baseURL :=
       Some "https://dashscope.aliyuncs.com/compatible-mode/v1";
     OpenAIEmbedding.Config.dimensions := Some 2048 |}.

Definition dashscopeCustom2048 : OpenAIEmbedding.Config.t :=
  {| OpenAIEmbedding.Config.model := "text-embedding-v3";
     OpenAIEmbedding.Config.apiKey := "sk-test";
     OpenAIEmbedding.Config.baseURL :=
       Some "https://dashscope.aliyuncs.com/compatible-mode/v1";
     OpenAIEmbedding.Config.dimensions := Some 2048 |}.

Definition openaiSmall : OpenAIEmbedding.Config.t :=
  {| OpenAIEmbedding.Config.model := "text-embedding-3-small";
     OpenAIEmbedding.Config.apiKey := "sk-test";
     OpenAIEmbedding.Config.baseURL := None;
     OpenAIEmbedding.Config.dimensions := None |}.

(** Clients whose model name is no catalog model but the name of a member
    of [Object.prototype]. *)
Definition openaiConstructor : OpenAIEmbedding.Config.t :=
  {| OpenAIEmbedding.Config.model := "constructor";
     OpenAIEmbedding.Config.apiKey := "sk-test";
     OpenAIEmbedding.Config.baseURL := None;
     OpenAIEmbedding.Config.dimensions := None |}.

Definition openaiConstructor512 : OpenAIEmbedding.Config.t :=
  {| OpenAIEmbedding.Config.model := "constructor";
     OpenAIEmbedding.Config.apiKey := "sk-test";
     OpenAIEmbedding.Config.baseURL := None;
     OpenAIEmbedding.Config.dimensions := Some 512 |}.

Definition dashscopeToString : OpenAIEmbedding.Config.t :=
  {| OpenAIEmbedding.Config.model := "toString";
     OpenAIEmbedding.Config.apiKey := "sk-test";
     OpenAIEmbedding.Config.baseURL :=
       Some "https://dashscope.aliyuncs.com/compatible-mode/v1";
     OpenAIEmbedding.Config.dimensions := None |}.

Definition start (c : OpenAIEmbedding.Config.t) : OpenAIEmbedding.world :=
  {| OpenAIEmbedding.self := OpenAIEmbedding.new c; OpenAIEmbedding.log := [] |}.

(** A stand-in for the inherited text preparation: the empty text becomes
    a blank, other texts are kept. *)
Definition prepare (maxTokens : option Z) (text : string) : string :=
  match text with
  | EmptyString => " "
  | _ => text
  end.

Definition prepareAll (maxTokens : option Z) (texts : list string) : list string :=
  map (prepare maxTokens) texts.

(** A four-dimensional vector that starts with the length of the text. *)
Definition vectorOf (text : string) : list float :=
  [ Nat.iter (String.length text) (fun x => x + 1)%float 0%float;
    0.5%float; 0.25%float; 0.125%float ].

(** A provider that embeds each text of a request by [vectorOf]. *)
Definition embedder (useVectorField : bool) : OpenAIEmbedding.Provider :=
  fun _ request =>
    let texts :=
      match OpenAIEmbedding.Request.input request with
      | OpenAIEmbedding.Request.One text => [text]
      | OpenAIEmbedding.Request.Many texts => texts
      end in
    Ok {| OpenAIEmbedding.data :=
            map (fun text =>
                   if useVectorField
                   then {| OpenAIEmbedding.Item.embedding := None;
                           OpenAIEmbedding.Item.vector := Some (vectorOf text) |}
                   else {| OpenAIEmbedding.Item.embedding := Some (vectorOf text);
                           OpenAIEmbedding.Item.vector := None |})
                texts |}.

(** The texts [chunk 1], [chunk 2], ... *)
Definition texts (n : nat) : list string :=
  map (fun i => "chunk " ++ JsString.of_Z (Z.of_nat (S i))) (seq 0 n).

End Samples.

(** ** What the specification says about [save()] *)

Module Atomicity.

(** Write-to-temp-then-rename: the journal grows by a write of the
    document to some other path and a rename of that path over the
    target. *)
Definition by_rename (target doc : string) (before after : list Fs.syscall) : Prop :=
  exists tmp,
    tmp <> target
    /\ after = (before ++ [Fs.SysWrite tmp doc; Fs.SysRename tmp target])%list.

(** An atomic [save()] of [SimpleHashCacheManager]: after the call, and
    after a crash anywhere inside it, the cache file holds the complete new
    document or the complete previous one, and this is achieved by
    write-to-temp-then-rename. *)
Definition atomic_save (now : Z) (m : SimpleHashCacheManager.t) (d : Fs.disk) : Prop :=
  let target := SimpleHashCacheManager.cacheFilePath m in
  let doc :=
    SimpleHashCacheManager.document
      (SimpleHashCacheManager.with_lastIndexed now (SimpleHashCacheManager.cache m)) in
  let complete (d' : Fs.disk) :=
    Fs.content target d' = Some doc \/ Fs.content target d' = Fs.content target d in
  complete (snd (SimpleHashCacheManager.save now m d))
  /\ (forall written, complete (SimpleHashCacheManager.save_interrupted written now m d))
  /\ by_rename target doc (Fs.journal d)
       (Fs.journal (snd (SimpleHashCacheManager.save now m d))).

(** The target of a write can be opened for writing: the path is not
    denied and is not a directory. *)
Definition openable (p : string) (d : Fs.disk) : Prop :=
  Fs.is_denied p d = false /\ Fs.nodes d !! p <> Some Fs.Dir.

(** The target of a write can be written: it can be opened and its volume
    is not short of space. *)
Definition writable (p : string) (d : Fs.disk) : Prop :=
  Fs.is_denied p d = false /\ Fs.nodes d !! p <> Some Fs.Dir
  /\ Fs.space d !! p = None.

End Atomicity.

(** ** What the specification says about the embedding client *)

Module EmbeddingSpec.
Import OpenAIEmbedding.

(** The two response shapes, named after the field that carries the vector
    of an item: [embedding] (OpenAI) and [vector] (Alibaba). *)
Inductive Shape : Type := OpenAIShape | AlibabaShape.

Definition field (s : Shape) (item : Item.t) : option (list float) :=
  match s with
  | OpenAIShape => Item.embedding item
  | AlibabaShape => Item.vector item
  end.

(** The client has no [responseShape] option of its own: the shape it
    expects follows from the base URL. *)
Definition responseShape (c : Config.t) : Shape :=
  if isAlibaba c then AlibabaShape else OpenAIShape.

(** A well-formed response of a shape has at least one item and every item
    carries its vector under the field of the shape. *)
Definition well_formed (s : Shape) (r : Response) : Prop :=
  data r <> [] /\ Forall (fun item => is_Some (field s item)) (data r).

(** The field the client reads from the items of a response is fixed by
    the first item. *)
Definition fieldRead (alibaba : bool) (r : Response) : Shape :=
  match data r with
  | firstItem :: _ =>
      match (if alibaba then Item.vector firstItem else None) with
      | Some _ => AlibabaShape
      | None => OpenAIShape
      end
  | [] => OpenAIShape
  end.

(** A response the client can take: well-formed for the field it reads. *)
Definition accepted (alibaba : bool) (r : Response) : Prop :=
  well_formed (fieldRead alibaba r) r.

(** The model name in use, [this.config.model || 'text-embedding-3-small']. *)
Definition modelOf (c : Config.t) : string := or_string (Config.model c) default_model.

(** The dimension has to be asked from the provider: no custom dimension
    is configured and the model name finds nothing in the catalog, neither
    an entry nor an inherited member. *)
Definition needsProbe (c : Config.t) : bool :=
  match truthy_number (Config.dimensions c),
        JsObject.lookup (modelOf c) getSupportedModels with
  | None, JsObject.Nothing => true
  | _, _ => false
  end.

(** Consecutive pieces of at most [n] elements. *)
Fixpoint chunksFuel {A} (fuel n : nat) (l : list A) : list (list A) :=
  match fuel with
  | O => []
  | S fuel' =>
      match l with
      | [] => []
      | _ => take n l :: chunksFuel fuel' n (drop n l)
      end
  end.

Definition chunksOf {A} (n : nat) (l : list A) : list (list A) :=
  chunksFuel (length l) n l.

(** The sizes of the pieces of [total] elements: [n] as long as that many
    are left, then the rest. *)
Fixpoint sizesFuel (fuel n total : nat) : list nat :=
  match fuel with
  | O => []
  | S fuel' =>
      match total with
      | O => []
      | _ => Nat.min n total :: sizesFuel fuel' n (total - n)
      end
  end.

Definition batchSizes (n total : nat) : list nat := sizesFuel total n total.

(** The provider batch ceiling of a configuration, if it has one. *)
Definition providerBatchCeiling (c : Config.t) : option nat :=
  if isAlibaba c then Some 10%nat else None.

(** The batches [embedBatch] sends out. *)
Definition batches (c : Config.t) (texts : list string) : list (list string) :=
  match providerBatchCeiling c with
  | Some n => if (n <? length texts)%nat then chunksOf n texts else [texts]
  | None => [texts]
  end.

Section Plan.

Variable preprocessText : option Z -> string -> string.
Variable preprocessTexts : option Z -> list string -> list string.

(** The request for one text, and the request for a batch. *)
Definition textRequest (e : t) (text : string) : Request.t :=
  embedRequest (modelOf (config e)) (Request.One (preprocessText (maxTokens e) text))
    (config e).

Definition batchRequest (e : t) (batch : list string) : Request.t :=
  embedRequest (modelOf (config e)) (Request.Many (preprocessTexts (maxTokens e) batch))
    (config e).

(** The requests of one batch: the probe when it is needed, then the
    batch. *)
Definition requestsOfBatch (e : t) (batch : list string) : list Request.t :=
  ((if needsProbe (config e) then [textRequest e "test"] else [])
   ++ [batchRequest e batch])%list.

(** The requests of [embedBatch(texts)]. *)
Definition plannedRequests (e : t) (texts : list string) : list Request.t :=
  flat_map (requestsOfBatch e) (batches (config e) texts).

(** The requests of [embed(text)]. *)
Definition embedRequests (e : t) (text : string) : list Request.t :=
  ((if needsProbe (config e) then [textRequest e "test"] else [])
   ++ [textRequest e text])%list.

End Plan.

(** A world of the configuration [c] whose instance prepares texts with
    the limit [limit]; [embed] and [embedBatch] change neither. *)
Definition stable (c : Config.t) (limit : option Z) (w : world) : Prop :=
  config (self w) = c /\ maxTokens (self w) = limit.

(** The exchanges that sending [requests] in turn gives rise to, after the
    requests in [history]. *)
Fixpoint exchangesFor (provider : Provider) (history requests : list Request.t)
    : list (Request.t * outcome Response) :=
  match requests with
  | [] => []
  | request :: rest =>
      (request, provider history request)
      :: exchangesFor provider (history ++ [request])%list rest
  end.

(** The vectors that the answer to a batch request carries under the
    field that [read] names for it. *)
Definition replyVectors (read : Response -> Shape)
    (exchange : Request.t * outcome Response) : list (option (list float)) :=
  match Request.input (fst exchange), snd exchange with
  | Request.Many _, Ok r => map (field (read r)) (data r)
  | _, _ => []
  end.

(** The texts of a request. *)
Definition inputs (request : Request.t) : list string :=
  match Request.input request with
  | Request.One text => [text]
  | Request.Many texts => texts
  end.

Definition item (s : Shape) (v : list float) : Item.t :=
  match s with
  | OpenAIShape => {| Item.embedding := Some v; Item.vector := None |}
  | AlibabaShape => {| Item.embedding := None; Item.vector := Some v |}
  end.

(** A provider that answers every request with one item per text, in the
    order of the texts, the vector of a text being [vectorOf] of it. *)
Definition answersWith (s : Shape) (vectorOf : string -> list float) (provider : Provider)
    : Prop :=
  forall history request,
    provider history request
    = Ok {| data := map (fun text => item s (vectorOf text)) (inputs request) |}.

(** The exchanges, and the requests, between two worlds. *)
Definition newExchanges (before after : world)
    : list (Request.t * outcome Response) :=
  drop (length (log before)) (log after).

Definition newRequests (before after : world) : list Request.t :=
  map fst (newExchanges before after).

(** What a probe for [text] returns in the world [w]: the length of the
    vector of the first item of the answer, or a failure. *)
Definition probeOutcome (preprocessText : option Z -> string -> string)
    (provider : Provider) (w : world) (text : string) : outcome (option Z) :=
  let c := config (self w) in
  let failed message :=
    Throw ("Failed to detect dimension for model " ++ modelOf c ++ ": " ++ message) in
  match provider (sent w) (textRequest preprocessText (self w) text) with
  | Ok r =>
      match firstVector (isAlibaba c) r with
      | Ok v => Ok (Some (vector_length v))
      | Throw message => failed message
      end
  | Throw message => failed message
  end.

(** Calling [detectDimension] on each text in turn. *)
Fixpoint detectEach (preprocessText : option Z -> string -> string) (provider : Provider)
    (texts : list string) (w : world) : world :=
  match texts with
  | [] => w
  | text :: rest =>
      detectEach preprocessText provider rest
        (snd (detectDimension preprocessText provider text w))
  end.

(** [detectDimension] caches: of two calls in a row the first sends at
    most one request and returns the length of the vector that came back,
    the second sends nothing and returns the same value. *)
Definition detectDimension_caches (preprocessText : option Z -> string -> string)
    (provider : Provider) (w : world) (t1 t2 : string) : Prop :=
  let first := detectDimension preprocessText provider t1 w in
  let second := detectDimension preprocessText provider t2 (snd first) in
  (length (newRequests w (snd first)) <= 1)%nat
  /\ (forall request r v,
        log (snd first) = (log w ++ [(request, Ok r)])%list ->
        firstVector (isAlibaba (config (self w))) r = Ok v ->
        fst first = Ok (Some (vector_length v)))
  /\ fst second = fst first
  /\ newRequests (snd first) (snd second) = [].

(** [embedBatch] under a batch ceiling, as the specification has it: the
    call succeeds, the provider sees one request per consecutive sub-batch
    and nothing else, and the result has one vector per text. *)
Definition embedBatch_splits (preprocessText : option Z -> string -> string)
    (preprocessTexts : option Z -> list string -> list string)
    (provider : Provider) (w : world) (texts : list string) : Prop :=
  exists results w',
    embedBatch preprocessText preprocessTexts provider 2 texts w = Some (Ok results, w')
    /\ map Request.size (newRequests w w') = batchSizes 10 (length texts)
    /\ length results = length texts.

(** The responses of the shape [s] that a client of the configuration [c]
    takes: the well-formed ones when [s] is the shape that the base URL
    selects and, the OpenAI shape being the fallback of a DashScope client,
    also the well-formed ones of the OpenAI shape whose first item carries
    no [vector]. *)
Definition taken (c : Config.t) (s : Shape) (r : Response) : Prop :=
  well_formed s r
  /\ (s = responseShape c
      \/ (s = OpenAIShape
          /\ exists firstItem, head (data r) = Some firstItem
                               /\ Item.vector firstItem = None)).

(** A well-formed response of the Alibaba shape whose first item carries
    no [embedding]. *)
Definition vector_only (r : Response) : Prop :=
  well_formed AlibabaShape r
  /\ exists firstItem, head (data r) = Some firstItem
                       /\ Item.embedding firstItem = None.

(** Both shapes are accepted, as the specification has it: whichever of
    the two shapes the well-formed answers to the requests of a call have,
    [embed] returns. *)
Definition shapes_never_fail (preprocessText : option Z -> string -> string)
    (provider : Provider) (w : world) (text : string) : Prop :=
  forall s,
    (forall history request,
        request ∈ embedRequests preprocessText (self w) text ->
        exists r, provider history request = Ok r /\ well_formed s r) ->
    exists result w', embed preprocessText provider text w = (Ok result, w').

(** The error of a call that gets a response without the field it reads:
    that of [detectDimension] when the dimension had to be probed, else
    the error behind the prefix of the method. *)
Definition refusal (c : Config.t) (prefix : string) : string :=
  if needsProbe c
  then "Failed to detect dimension for model " ++ modelOf c ++ ": "
       ++ unexpected_format (isAlibaba c)
  else prefix ++ unexpected_format (isAlibaba c).

End EmbeddingSpec.

(** ** Sessions with the cache managers *)

Module CacheSpec.

(** The property names of an object are distinct, as they are in every
    JavaScript object. *)
Definition distinct_keys {V} (o : JsObject.t V) : Prop := NoDup (JsObject.keys o).

(** The calls a program makes on a [HashCacheManager] it holds. *)
Inductive Call : Type :=
| UpdateFileHash (fileHash : HashCacheManager.FileHash)
| RemoveFile (relativePath : string)
| Save (now : Z)
| Clear.

Definition step (s : HashCacheManager.t * Fs.disk) (call : Call)
    : HashCacheManager.t * Fs.disk :=
  match call with
  | UpdateFileHash f => (HashCacheManager.updateFileHash f (fst s), snd s)
  | RemoveFile p => (HashCacheManager.removeFile p (fst s), snd s)
  | Save now => HashCacheManager.save now (fst s) (snd s)
  | Clear => HashCacheManager.clear (fst s) (snd s)
  end.

Definition run (calls : list Call) (s : HashCacheManager.t * Fs.disk)
    : HashCacheManager.t * Fs.disk :=
  foldl step s calls.

(** Nothing can be unlinked at [p]: the path is denied, or there is no
    file at it. *)
Definition blocked (p : string) (d : Fs.disk) : Prop :=
  Fs.is_denied p d = true \/ forall data, Fs.nodes d !! p <> Some (Fs.File data).

(** The loop of a caller that drops the files reported as deleted. *)
Definition removeAll (paths : list string) (m : HashCacheManager.t)
    : HashCacheManager.t :=
  foldl (fun m' p => HashCacheManager.removeFile p m') m paths.

(** The calls on a [SimpleHashCacheManager]. *)
Inductive SimpleCall : Type :=
| UpdateFile (relativePath hash : string) (chunkCount now : Z)
| SimpleSave (now : Z)
| SimpleClear.

Definition simpleStep (s : SimpleHashCacheManager.t * Fs.disk) (call : SimpleCall)
    : SimpleHashCacheManager.t * Fs.disk :=
  match call with
  | UpdateFile p h c now => (SimpleHashCacheManager.updateFile p h c now (fst s), snd s)
  | SimpleSave now => SimpleHashCacheManager.save now (fst s) (snd s)
  | SimpleClear => (fst s, SimpleHashCacheManager.clear (fst s) (snd s))
  end.

Definition simpleRun (calls : list SimpleCall) (s : SimpleHashCacheManager.t * Fs.disk)
    : SimpleHashCacheManager.t * Fs.disk :=
  foldl simpleStep s calls.

(** A manager of the project at [projectPath] and of the collection
    [collectionName]: its file is the one the constructor computes and its
    cache names both. *)
Definition simple_for (path_join : string -> string -> string)
    (projectPath collectionName : string) (m : SimpleHashCacheManager.t) : Prop :=
  SimpleHashCacheManager.cacheDir m = path_join projectPath ".context"
  /\ SimpleHashCacheManager.cacheFilePath m
     = path_join (path_join projectPath ".context") "file-hashes.json"
  /\ SimpleHashCacheManager.projectPath (SimpleHashCacheManager.cache m) = projectPath
  /\ SimpleHashCacheManager.collectionName (SimpleHashCacheManager.cache m)
     = collectionName.

(** The same for a [HashCacheManager], which in addition holds a cache. *)
Definition symbols_for (path_join : string -> string -> string)
    (projectPath collectionName : string) (m : HashCacheManager.t) : Prop :=
  HashCacheManager.cacheDir m = path_join projectPath ".context"
  /\ HashCacheManager.cacheFilePath m
     = path_join (path_join projectPath ".context") "hash-cache.json"
  /\ exists c,
       HashCacheManager.cache m = Some c
       /\ HashCacheManager.projectPath c = projectPath
       /\ HashCacheManager.collectionName c = collectionName.

(** The sum of a measure over the values of an object, as the [reduce]
    calls of the two [getStats] compute it. *)
Definition total {V} (measure : V -> Z) (o : JsObject.t V) : Z :=
  foldl (fun sum entry => sum + measure entry) 0 (JsObject.values o).

(** The chunk counts of a file-level cache are in the range in which the
    sum that [getStats] computes with doubles is the sum of the integers:
    no count is negative and the total does not exceed 2^53. *)
Definition exact_totals (m : SimpleHashCacheManager.t) : Prop :=
  Forall (fun entry => 0 <= SimpleHashCacheManager.chunkCount entry)
    (JsObject.values (SimpleHashCacheManager.files (SimpleHashCacheManager.cache m)))
  /\ total SimpleHashCacheManager.chunkCount
       (SimpleHashCacheManager.files (SimpleHashCacheManager.cache m)) <= 2 ^ 53.

(** What the entry of a property adds to a total: nothing when the
    property is not there. *)
Definition share {V} (measure : V -> Z) (k : string) (o : JsObject.t V) : Z :=
  match JsObject.get k o with
  | Some entry => measure entry
  | None => 0
  end.

(** One pass over a text that gives what [trim] followed by the
    replacement of white space runs gives: nothing is written for white
    space until another code unit follows it. *)
Inductive Place : Type := AtStart | InWord | InGap.

Fixpoint scan (at_ : Place) (s : string) : string :=
  match s with
  | EmptyString => EmptyString
  | String c r =>
      if JsString.is_space c
      then scan (match at_ with AtStart => AtStart | _ => InGap end) r
      else match at_ with
           | InGap => String " "%char (String c (scan InWord r))
           | _ => String c (scan InWord r)
           end
  end.

End CacheSpec.

(** ** Collection names *)

Module NameSpec.

(** The characters of a collection name: lower-case ASCII letters, digits
    and the underscore. *)
Definition name_char (c : ascii) : bool :=
  JsString.is_lower c || JsString.is_digit c || (JsString.code c =? 95)%N.

(** A name that starts with a lower-case letter and is made of name
    characters. *)
Definition identifier (s : string) : Prop :=
  JsString.all_chars name_char s = true
  /\ exists c r, s = String c r /\ JsString.is_lower c = true.

End NameSpec.

(** ** Sessions with the metadata manager *)

Module MetadataSpec.
Import ProjectMetadataManager.

(** The calls that change the metadata a manager holds, [clear()] apart. *)
Inductive Call : Type :=
| InitializeOrUpdate (params : Params.t) (now : Z)
| Save (now : Z).

Definition isSave (call : Call) : bool :=
  match call with
  | Save _ => true
  | InitializeOrUpdate _ _ => false
  end.

Section Run.

Variable JSON_stringify : ProjectMetadata -> string.

Definition step (s : t * Fs.disk) (call : Call) : t * Fs.disk :=
  match call with
  | InitializeOrUpdate params now => (initializeOrUpdate params now (fst s), snd s)
  | Save now => save JSON_stringify now (fst s) (snd s)
  end.

Definition run (calls : list Call) (s : t * Fs.disk) : t * Fs.disk :=
  foldl step s calls.

End Run.

(** How many of the three settings of a configuration differ from the
    stored ones. *)
Definition mismatches (x : ProjectMetadata) (isHybrid' : bool)
    (embeddingModel' : string) (embeddingDimension' : Z) : nat :=
  ((if Bool.eqb (isHybrid x) isHybrid' then 0 else 1)
   + (if String.eqb (embeddingModel x) embeddingModel' then 0 else 1)
   + (if Z.eqb (embeddingDimension x) embeddingDimension' then 0 else 1))%nat.

(** Two records agree on everything but the project path. *)
Definition same_but_path (x y : ProjectMetadata) : Prop :=
  with_projectPath EmptyString x = with_projectPath EmptyString y.

End MetadataSpec.

(** ** What the embedding client keeps *)

Module ClientSpec.
Import OpenAIEmbedding EmbeddingSpec.

(** A request of a client with the configuration [c]: it names the model
    in use, asks for floats and carries [dimensions] exactly when a
    non-zero value is configured. *)
Definition wellShaped (c : Config.t) (request : Request.t) : Prop :=
  Request.model request = modelOf c
  /\ Request.encoding_format request = "float"
  /\ Request.dimensions request = truthy_number (Config.dimensions c).

(** The world [after] continues the world [before]: the configuration and
    the token limit are the same, and the log is the former log followed by
    the exchanges of some well-shaped requests, each answered by the
    provider on the history at that point. *)
Definition continues (provider : Provider) (before after : world) : Prop :=
  config (self after) = config (self before)
  /\ maxTokens (self after) = maxTokens (self before)
  /\ exists requests,
       log after = (log before ++ exchangesFor provider (sent before) requests)%list
       /\ Forall (wellShaped (config (self before))) requests.

(** The instance after [this.config.model = model]. *)
Definition renamed (model : string) (w : world) : world :=
  {| self := {| config := Config.with_model model (config (self w));
                dimension := dimension (self w);
                maxTokens := maxTokens (self w) |};
     log := log w |}.

(** A provider that is down: every call throws [message]. *)
Definition down (message : string) : Provider := fun _ _ => Throw message.

End ClientSpec.

(** ** More sample data *)

Module Fixtures.

(** A newer entry for the file of [Samples.fileA]. *)
Definition fileA2 : HashCacheManager.FileHash :=
  {| HashCacheManager.filePath := "src/a.ts";
     HashCacheManager.fileHash := "0a0a0a0a";
     HashCacheManager.lastModified := 1700000002000;
     HashCacheManager.symbols := [] |}.

Definition symbolG : HashCacheManager.SymbolHash :=
  {| HashCacheManager.name := "helper";
     HashCacheManager.startLine := 14;
     HashCacheManager.endLine := 20;
     HashCacheManager.contentHash := "fcde2b2edba56bf4" |}.

(** [symbolG] after an edit of its body. *)
Definition symbolG2 : HashCacheManager.SymbolHash :=
  {| HashCacheManager.name := "helper";
     HashCacheManager.startLine := 14;
     HashCacheManager.endLine := 20;
     HashCacheManager.contentHash := "18ac3e7343f01689" |}.

Definition fileB : HashCacheManager.FileHash :=
  {| HashCacheManager.filePath := "src/b.ts";
     HashCacheManager.fileHash := "60303ae22b998861";
     HashCacheManager.lastModified := 1700000000500;
     HashCacheManager.symbols := [Samples.symbolF; symbolG] |}.

(** A symbol-level manager that holds two files. *)
Definition manager3 : HashCacheManager.t :=
  {| HashCacheManager.cacheDir := "/home/user/project/.context";
     HashCacheManager.cacheFilePath := "/home/user/project/.context/hash-cache.json";
     HashCacheManager.cache :=
       Some {| HashCacheManager.projectPath := "/home/user/project";
               HashCacheManager.collectionName := "code_chunks_90722f26";
               HashCacheManager.lastIndexed := 1700000001000;
               HashCacheManager.files :=
                 [("src/a.ts", Samples.fileA); ("src/b.ts", fileB)] |} |}.

(** A parser that knows the document [Samples.manager1] writes when it
    saves at time 1700000009000. *)
Definition parseSaved (text : string) : option SimpleHashCacheManager.SimpleHashCache :=
  let saved := SimpleHashCacheManager.with_lastIndexed 1700000009000 Samples.cache1 in
  if String.eqb text (SimpleHashCacheManager.document saved) then Some saved else None.

(** A line break followed by two blanks. *)
Definition indent : string := String (ascii_of_N 10) "  ".

(** The metadata of a project indexed with the small OpenAI model. *)
Definition metadata1 : ProjectMetadataManager.ProjectMetadata :=
  {| ProjectMetadataManager.version := "0.9";
     ProjectMetadataManager.projectPath := "/home/user/project";
     ProjectMetadataManager.collectionName := "code_chunks_90722f26";
     ProjectMetadataManager.gitRepoIdentifier := None;
     ProjectMetadataManager.isHybrid := false;
     ProjectMetadataManager.embeddingModel := "text-embedding-3-small";
     ProjectMetadataManager.embeddingDimension := 1536;
     ProjectMetadataManager.createdAt := 1690000000000;
     ProjectMetadataManager.lastIndexed := 1700000001000;
     ProjectMetadataManager.indexedFileCount := 2;
     ProjectMetadataManager.totalChunks := 4 |}.

Definition metadataManager1 : ProjectMetadataManager.t :=
  {| ProjectMetadataManager.metadataDir := "/home/user/project/.context";
     ProjectMetadataManager.metadataFilePath := "/home/user/project/.context/project.json";
     ProjectMetadataManager.metadata := Some metadata1 |}.

(** The settings of a later run of the same project with another model. *)
Definition params1 : ProjectMetadataManager.Params.t :=
  {| ProjectMetadataManager.Params.projectPath := "/home/user/project";
     ProjectMetadataManager.Params.collectionName := "hybrid_code_chunks_90722f26";
     ProjectMetadataManager.Params.gitRepoIdentifier := None;
     ProjectMetadataManager.Params.isHybrid := true;
     ProjectMetadataManager.Params.embeddingModel := "text-embedding-v4";
     ProjectMetadataManager.Params.embeddingDimension := 1024;
     ProjectMetadataManager.Params.indexedFileCount := 3;
     ProjectMetadataManager.Params.totalChunks := 7 |}.

(** A stand-in for the text of a metadata record: its collection name. *)
Definition render (x : ProjectMetadataManager.ProjectMetadata) : string :=
  ProjectMetadataManager.collectionName x.

(** A disk that holds a metadata file, and a parser that reads
    [metadata1] from it. *)
Definition disk3 : Fs.disk :=
  {| Fs.nodes :=
       <[ "/srv/checkout/.context/project.json" := Fs.File "project.json of metadata1" ]>
         (<[ "/srv/checkout/.context" := Fs.Dir ]> ∅);
     Fs.denied := ∅;
     Fs.space := ∅;
     Fs.journal := [] |}.

(** The manager of the checkout at [/srv/checkout]. *)
Definition metadataManager3 : ProjectMetadataManager.t :=
  {| ProjectMetadataManager.metadataDir := "/srv/checkout/.context";
     ProjectMetadataManager.metadataFilePath := "/srv/checkout/.context/project.json";
     ProjectMetadataManager.metadata := Some metadata1 |}.

Definition parse3 (text : string) : option ProjectMetadataManager.ProjectMetadata :=
  if String.eqb text "project.json of metadata1" then Some metadata1 else None.

(** A parser that knows the document [Samples.manager2] writes when it
    saves at time 1700000009000, and the text [null]. *)
Definition parseSaved2 (text : string) : option (option HashCacheManager.HashCache) :=
  let saved := HashCacheManager.with_lastIndexed 1700000009000 Samples.cache2 in
  if String.eqb text (HashCacheManager.document saved) then Some (Some saved)
  else if String.eqb text "null" then Some None
  else None.

End Fixtures.

(** * Properties *)

(** ** Property lists *)

Module JsObjectFacts.
Import JsObject.

Section Lookup.
Context {V : Type}.
Implicit Types (o : t V) (k : string) (v : V).

Lemma eqb_same k : String.eqb k k = true.
Proof. apply String.eqb_refl. Qed.

Lemma eqb_other k k' : k <> k' -> String.eqb k k' = false.
Proof. intros H. apply String.eqb_neq. exact H. Qed.

Lemma get_overwrite_same k v o :
  has k o = true -> get k (overwrite k v o) = Some v.
Proof.
  unfold has. induction o as [|[k0 v0] o IH]; simpl; [discriminate|].
  destruct (String.eqb k k0) eqn:E; simpl; rewrite E; auto.
Qed.

Lemma get_overwrite_other k k' v o :
  k' <> k -> get k' (overwrite k v o) = get k' o.
Proof.
  intros Hne. induction o as [|[k0 v0] o IH]; simpl; [reflexivity|].
  destruct (String.eqb k k0) eqn:E; simpl.
  - apply String.eqb_eq in E. subst k0. rewrite eqb_other by exact Hne.
    reflexivity.
  - destruct (String.eqb k' k0); auto.
Qed.

Lemma get_add_index k' i k v o :
  get k o = None ->
  get k' (add_index i k v o) = if String.eqb k' k then Some v else get k' o.
Proof.
  induction o as [|[k0 v0] o IH]; simpl; intros Hk.
  - reflexivity.
  - destruct (String.eqb k k0) eqn:E; [discriminate|].
    destruct (array_index k0) as [j|]; [destruct (j <? i)%N|]; simpl;
      try reflexivity.
    destruct (String.eqb k' k0) eqn:E'.
    + apply String.eqb_eq in E'. subst k0.
      destruct (String.eqb k' k) eqn:E''; [|reflexivity].
      apply String.eqb_eq in E''. subst k'. rewrite eqb_same in E. discriminate.
    + apply IH, Hk.
Qed.

Lemma get_snoc k' k v o :
  get k' (o ++ [(k, v)])%list =
  match get k' o with
  | Some x => Some x
  | None => if String.eqb k' k then Some v else None
  end.
Proof.
  induction o as [|[k0 v0] o IH]; simpl; [reflexivity|].
  destruct (String.eqb k' k0); auto.
Qed.

(** Reading back what was just assigned. *)
Lemma get_set_same k v o : get k (set k v o) = Some v.
Proof.
  unfold set. destruct (has k o) eqn:H.
  - apply get_overwrite_same, H.
  - assert (Hn : get k o = None).
    { unfold has in H. destruct (get k o); [discriminate|reflexivity]. }
    destruct (array_index k).
    + rewrite get_add_index by exact Hn. rewrite eqb_same. reflexivity.
    + rewrite get_snoc, Hn, eqb_same. reflexivity.
Qed.

(** An assignment leaves the other properties alone. *)
Lemma get_set_other k k' v o : k' <> k -> get k' (set k v o) = get k' o.
Proof.
  intros Hne. unfold set. destruct (has k o) eqn:H.
  - apply get_overwrite_other, Hne.
  - assert (Hn : get k o = None).
    { unfold has in H. destruct (get k o); [discriminate|reflexivity]. }
    destruct (array_index k).
    + rewrite get_add_index by exact Hn. rewrite eqb_other by exact Hne. reflexivity.
    + rewrite get_snoc, eqb_other by exact Hne. destruct (get k' o); reflexivity.
Qed.

(** The names [Object.keys] lists are the ones a lookup finds. *)
Lemma elem_of_keys k o : k ∈ keys o <-> is_Some (get k o).
Proof.
  unfold keys. induction o as [|[k0 v0] o IH]; simpl.
  - split; [intros H; inversion H | intros [x H]; discriminate].
  - rewrite elem_of_cons, IH. destruct (String.eqb k k0) eqn:E.
    + apply String.eqb_eq in E. split; [eauto | auto].
    + apply String.eqb_neq in E. split; [intros [?|?]; [contradiction|assumption] | auto].
Qed.


(** What [o[k]] finds. *)
Lemma lookup_own k v o : get k o = Some v -> lookup k o = Entry v.
Proof. unfold lookup. intros ->. reflexivity. Qed.

Lemma lookup_not_own k o :
  get k o = None -> lookup k o = if inherited k then Member else Nothing.
Proof. unfold lookup. intros ->. reflexivity. Qed.

Lemma lookup_Entry k v o : lookup k o = Entry v <-> get k o = Some v.
Proof.
  unfold lookup. destruct (get k o); [|destruct (inherited k)];
    split; intros H; congruence.
Qed.

Lemma lookup_Nothing k o :
  lookup k o = Nothing <-> get k o = None /\ inherited k = false.
Proof.
  unfold lookup. destruct (get k o); [|destruct (inherited k)];
    split; try intros [? ?]; try intros ?; try split; congruence.
Qed.

Lemma lookup_Member k o :
  lookup k o = Member <-> get k o = None /\ inherited k = true.
Proof.
  unfold lookup. destruct (get k o); [|destruct (inherited k)];
    split; try intros [? ?]; try intros ?; try split; congruence.
Qed.

Lemma lookup_set_same k v o : lookup k (set k v o) = Entry v.
Proof. apply lookup_own, get_set_same. Qed.

Lemma lookup_set_other k k' v o : k' <> k -> lookup k' (set k v o) = lookup k' o.
Proof. intros Hne. unfold lookup. rewrite get_set_other by exact Hne. reflexivity. Qed.

Lemma lookup_empty k : lookup k (@empty V) = if inherited k then Member else Nothing.
Proof. reflexivity. Qed.

End Lookup.

(** Array indices come first, in numeric order; the other names keep the
    order of their creation, and an overwritten property keeps its place. *)
Example keys_order :
  keys (set "a" 5 (set "2" 4 (set "b" 3 (set "10" 2 (set "a" 1 empty)))))
  = ["2"; "10"; "a"; "b"].
Proof. reflexivity. Qed.

End JsObjectFacts.

(** ** The hash caches *)

Module HashCacheFacts.
Import JsObject JsObjectFacts.


(** C7.  [getDeletedFiles(currentFiles)] lists exactly the keys of the
    files mapping that are not in [currentFiles], in the order and with the
    multiplicity [Object.keys] gives them; this holds for both managers. *)
Theorem getDeletedFiles_exactly_missing_keys :
  (forall (m : SimpleHashCacheManager.t) (currentFiles : gset string),
      let cached := keys (SimpleHashCacheManager.files (SimpleHashCacheManager.cache m)) in
      (forall p, p ∈ SimpleHashCacheManager.getDeletedFiles currentFiles m <->
                 p ∈ cached /\ p ∉ currentFiles)
      /\ sublist (SimpleHashCacheManager.getDeletedFiles currentFiles m) cached)
  /\
  (forall (m : HashCacheManager.t) (currentFiles : list string),
      let cached := keys (HashCacheManager.mapping m) in
      (forall p, p ∈ HashCacheManager.getDeletedFiles currentFiles m <->
                 p ∈ cached /\ p ∉ currentFiles)
      /\ sublist (HashCacheManager.getDeletedFiles currentFiles m) cached).
Proof.
  split.
  - intros m currentFiles cached. split.
    + intros p. unfold SimpleHashCacheManager.getDeletedFiles.
      rewrite list_elem_of_filter. tauto.
    + apply sublist_filter.
  - intros m currentFiles cached.
    assert (Hpaths : HashCacheManager.getCachedFilePaths m = cached).
    { unfold HashCacheManager.getCachedFilePaths, cached, HashCacheManager.mapping.
      destruct (HashCacheManager.cache m); reflexivity. }
    unfold HashCacheManager.getDeletedFiles. rewrite Hpaths. split.
    + intros p. rewrite list_elem_of_filter, elem_of_list_to_set. tauto.
    + apply sublist_filter.
Qed.

(** C10.  After [updateFile(p, h, c)] the file [p] is unchanged for the
    hash [h] and changed for every other hash, and the entry of every other
    path is what it was. *)
Theorem updateFile_then_hasFileChanged
    (m : SimpleHashCacheManager.t) (p h : string) (c now : Z) :
  let m' := SimpleHashCacheManager.updateFile p h c now m in
  SimpleHashCacheManager.hasFileChanged p h m' = false
  /\ (forall h', h' <> h -> SimpleHashCacheManager.hasFileChanged p h' m' = true)
  /\ (forall p', p' <> p ->
        get p' (SimpleHashCacheManager.files (SimpleHashCacheManager.cache m'))
        = get p' (SimpleHashCacheManager.files (SimpleHashCacheManager.cache m))).
Proof.
  unfold SimpleHashCacheManager.updateFile, SimpleHashCacheManager.hasFileChanged.
  simpl. rewrite lookup_set_same. simpl. repeat split.
  - rewrite String.eqb_refl. reflexivity.
  - intros h' Hne. rewrite negb_true_iff, String.eqb_neq. congruence.
  - intros p' Hne. apply get_set_other, Hne.
Qed.

Lemma updateFile_then_hasFileChanged_witness :
  SimpleHashCacheManager.hasFileChanged "src/a.ts" "0a0a0a0a"
    (SimpleHashCacheManager.updateFile "src/a.ts" "0a0a0a0a" 4 1700000002000
       Samples.manager1) = false
  /\ SimpleHashCacheManager.hasFileChanged "src/a.ts" "9f86d081884c7d65"
       (SimpleHashCacheManager.updateFile "src/a.ts" "0a0a0a0a" 4 1700000002000
          Samples.manager1) = true
  /\ get "src/b.ts"
       (SimpleHashCacheManager.files
          (SimpleHashCacheManager.cache
             (SimpleHashCacheManager.updateFile "src/a.ts" "0a0a0a0a" 4 1700000002000
                Samples.manager1)))
     = Some Samples.entryB.
Proof.
  pose proof (updateFile_then_hasFileChanged Samples.manager1
                "src/a.ts" "0a0a0a0a" 4 1700000002000) as (H1 & H2 & H3).
  split; [exact H1|]. split.
  - apply H2. discriminate.
  - rewrite H3 by discriminate. reflexivity.
Defined.

End HashCacheFacts.

Module LoadFacts.
Import JsObject JsObjectFacts.

Lemma readFileSync_exists p d data :
  Fs.readFileSync p d = Ok data -> Fs.existsSync p d = true.
Proof.
  unfold Fs.readFileSync, Fs.existsSync.
  destruct (Fs.is_denied p d); [discriminate|].
  destruct (Fs.nodes d !! p) as [[?|]|]; intros H; try discriminate; reflexivity.
Qed.

(** C5.  When the document read from the cache file names another
    collection than the current one, the manager starts from an empty
    cache: every file counts as changed and no file counts as deleted.
    This holds for both managers. *)
Theorem stale_collection_cache_is_recreated :
  (forall (path_join : string -> string -> string)
          (JSON_parse : string -> option SimpleHashCacheManager.SimpleHashCache)
          (projectPath collectionName : string) (now : Z) (d d' : Fs.disk)
          (m : SimpleHashCacheManager.t) (data : string)
          (loaded : SimpleHashCacheManager.SimpleHashCache),
      SimpleHashCacheManager.new path_join JSON_parse projectPath collectionName now d
        = (Ok m, d') ->
      Fs.readFileSync (SimpleHashCacheManager.cacheFilePath m) d' = Ok data ->
      JSON_parse data = Some loaded ->
      SimpleHashCacheManager.collectionName loaded <> collectionName ->
      SimpleHashCacheManager.cache m
        = SimpleHashCacheManager.emptyCache projectPath collectionName now
      /\ (forall p h, SimpleHashCacheManager.hasFileChanged p h m = true)
      /\ (forall S, SimpleHashCacheManager.getDeletedFiles S m = []))
  /\
  (forall (path_join : string -> string -> string)
          (JSON_parse : string -> option (option HashCacheManager.HashCache))
          (projectPath collectionName : string) (now : Z) (d d' : Fs.disk)
          (m : HashCacheManager.t) (data : string)
          (loaded : HashCacheManager.HashCache),
      HashCacheManager.new path_join JSON_parse projectPath collectionName now d
        = (Ok m, d') ->
      Fs.readFileSync (HashCacheManager.cacheFilePath m) d' = Ok data ->
      JSON_parse data = Some (Some loaded) ->
      HashCacheManager.collectionName loaded <> collectionName ->
      HashCacheManager.cache m
        = Some (HashCacheManager.createEmptyCache projectPath collectionName now)
      /\ (forall p h, HashCacheManager.hasFileChanged p h m = true)
      /\ (forall S, HashCacheManager.getDeletedFiles S m = [])).
Proof.
  split.
  - intros path_join JSON_parse projectPath collectionName now d d' m data loaded
      Hnew Hread Hparse Hstale.
    unfold SimpleHashCacheManager.new in Hnew.
    destruct (SimpleHashCacheManager.ensureCacheDir _ d) as [[[]|e] d1];
      [|discriminate].
    injection Hnew as Hm Hd. subst d1. subst m. simpl in *.
    assert (Hcache :
      SimpleHashCacheManager.loadCache JSON_parse
        (path_join (path_join projectPath ".context") "file-hashes.json")
        projectPath collectionName now d'
      = SimpleHashCacheManager.emptyCache projectPath collectionName now).
    { unfold SimpleHashCacheManager.loadCache.
      rewrite (readFileSync_exists _ _ _ Hread), Hread, Hparse.
      apply String.eqb_neq in Hstale. rewrite Hstale, andb_false_r. reflexivity. }
    split; [exact Hcache|].
    unfold SimpleHashCacheManager.hasFileChanged,
      SimpleHashCacheManager.getDeletedFiles. simpl. rewrite Hcache. simpl.
    split; [|reflexivity].
    intros p h. unfold JsObject.lookup. simpl.
    destruct (JsObject.inherited p); reflexivity.
  - intros path_join JSON_parse projectPath collectionName now d d' m data loaded
      Hnew Hread Hparse Hstale.
    unfold HashCacheManager.new in Hnew.
    destruct (HashCacheManager.ensureCacheDir _ d) as [[[]|e] d1];
      [|discriminate].
    injection Hnew as Hm Hd. subst d1. subst m. simpl in *.
    assert (Hcache :
      HashCacheManager.loadCache JSON_parse
        (path_join (path_join projectPath ".context") "hash-cache.json")
        projectPath collectionName now d'
      = Some (HashCacheManager.createEmptyCache projectPath collectionName now)).
    { unfold HashCacheManager.loadCache.
      rewrite (readFileSync_exists _ _ _ Hread), Hread, Hparse.
      apply String.eqb_neq in Hstale. rewrite Hstale. simpl.
      rewrite orb_true_r. reflexivity. }
    split; [exact Hcache|].
    unfold HashCacheManager.hasFileChanged, HashCacheManager.getDeletedFiles,
      HashCacheManager.getFileHash, HashCacheManager.getCachedFilePaths.
    simpl. rewrite Hcache. simpl.
    split; [|reflexivity].
    intros p h. unfold JsObject.lookup. simpl.
    destruct (JsObject.inherited p); reflexivity.
Qed.

Lemma stale_collection_cache_is_recreated_witness :
  (exists m d',
     SimpleHashCacheManager.new Samples.join Samples.parse1
       "/home/user/project" "hybrid_code_chunks_90722f26" 1700000005000
       Samples.disk1 = (Ok m, d')
     /\ SimpleHashCacheManager.hasFileChanged "src/a.ts" "9f86d081884c7d65" m = true
     /\ SimpleHashCacheManager.getDeletedFiles ∅ m = [])
  /\
  (exists m d',
     HashCacheManager.new Samples.join Samples.parse2
       "/home/user/project" "hybrid_code_chunks_90722f26" 1700000005000
       Samples.disk2 = (Ok m, d')
     /\ HashCacheManager.hasFileChanged "src/a.ts" "9f86d081884c7d65" m = true
     /\ HashCacheManager.getDeletedFiles [] m = []).
Proof.
  destruct stale_collection_cache_is_recreated as [Hsimple Hsymbol].
  split.
  - eexists. eexists. split; [vm_compute; reflexivity|].
    edestruct (Hsimple Samples.join Samples.parse1
                 "/home/user/project" "hybrid_code_chunks_90722f26" 1700000005000
                 Samples.disk1) as (_ & Hchanged & Hdeleted).
    + vm_compute. reflexivity.
    + vm_compute. reflexivity.
    + vm_compute. reflexivity.
    + vm_compute. discriminate.
    + split; [apply Hchanged | apply Hdeleted].
  - eexists. eexists. split; [vm_compute; reflexivity|].
    edestruct (Hsymbol Samples.join Samples.parse2
                 "/home/user/project" "hybrid_code_chunks_90722f26" 1700000005000
                 Samples.disk2) as (_ & Hchanged & Hdeleted).
    + vm_compute. reflexivity.
    + vm_compute. reflexivity.
    + vm_compute. reflexivity.
    + vm_compute. discriminate.
    + split; [apply Hchanged | apply Hdeleted].
Defined.

End LoadFacts.

(** ** Saving *)

Module SaveFacts.
Import Atomicity.

(** C1, counterexample.  Saving [Samples.manager1] over the document that
    [Samples.disk1] holds is not atomic: the one call it issues is a write
    to the cache file itself, not a write to another path followed by a
    rename (and a crash right after the file was opened leaves it empty,
    see [save_interrupted_leaves_empty_file]). *)
Lemma save_not_atomic :
  ~ atomic_save 1700000009000 Samples.manager1 Samples.disk1.
Proof.
  intros (_ & _ & tmp & Htmp & Hjournal).
  vm_compute in Hjournal. injection Hjournal as _ Hrest. discriminate Hrest.
Qed.

(** The crash that the counterexample speaks of: nothing of the previous
    document and nothing of the new one is left. *)
Lemma save_interrupted_leaves_empty_file :
  Fs.content "/home/user/project/.context/file-hashes.json"
    (SimpleHashCacheManager.save_interrupted 0 1700000009000
       Samples.manager1 Samples.disk1)
  = Some EmptyString
  /\ Fs.content "/home/user/project/.context/file-hashes.json" Samples.disk1
     = Some (SimpleHashCacheManager.document Samples.cache1).
Proof. split; vm_compute; reflexivity. Qed.

Lemma substring_all (s : string) : String.substring 0 (String.length s) s = s.
Proof. induction s as [|c s IH]; simpl; [reflexivity | rewrite IH; reflexivity]. Qed.

Lemma fits_le p data d : (Fs.fits p data d <= String.length data)%nat.
Proof. unfold Fs.fits. destruct (Fs.space d !! p); lia. Qed.

Lemma fits_unlimited p data d :
  Fs.space d !! p = None -> Fs.fits p data d = String.length data.
Proof. unfold Fs.fits. intros ->. reflexivity. Qed.

Lemma fits_short p data d n :
  Fs.space d !! p = Some n -> (n < String.length data)%nat -> Fs.fits p data d = n.
Proof. unfold Fs.fits. intros -> H. lia. Qed.

Lemma writeFileSync_journal p data d :
  Fs.journal (snd (Fs.writeFileSync p data d))
  = (Fs.journal d ++ [Fs.SysWrite p data])%list.
Proof.
  unfold Fs.writeFileSync. destruct (Fs.is_denied p d); [reflexivity|].
  destruct (Fs.nodes d !! p) as [[?|]|]; try reflexivity;
    destruct (Fs.fits p data d <? String.length data)%nat; reflexivity.
Qed.

(** What a write leaves on the disk when the file can be opened: the part
    of the data that fitted. *)
Lemma writeFileSync_openable p data d :
  openable p d ->
  Fs.nodes (snd (Fs.writeFileSync p data d))
  = <[p := Fs.File (String.substring 0 (Fs.fits p data d) data)]> (Fs.nodes d).
Proof.
  intros [Hden Hdir]. unfold Fs.writeFileSync. rewrite Hden.
  assert (Hall : (Fs.fits p data d <? String.length data)%nat = false ->
                 String.substring 0 (Fs.fits p data d) data = data).
  { intros H. apply Nat.ltb_ge in H. pose proof (fits_le p data d) as Hle.
    replace (Fs.fits p data d) with (String.length data) by lia.
    apply substring_all. }
  destruct (Fs.nodes d !! p) as [[?|]|]; try contradiction;
    destruct (Fs.fits p data d <? String.length data)%nat; simpl;
    rewrite ?Hall by reflexivity; reflexivity.
Qed.

Lemma writeFileSync_writable p data d :
  writable p d ->
  Fs.writeFileSync p data d
  = (Ok tt, Fs.with_nodes (<[p := Fs.File data]> (Fs.nodes d))
              (Fs.record (Fs.SysWrite p data) d)).
Proof.
  intros (Hden & Hdir & Hspace). unfold Fs.writeFileSync. rewrite Hden.
  rewrite (fits_unlimited _ data _ Hspace), Nat.ltb_irrefl.
  destruct (Fs.nodes d !! p) as [[?|]|]; try reflexivity. contradiction.
Qed.

Lemma writeFileSync_refused p data d :
  ~ openable p d ->
  exists e, Fs.writeFileSync p data d = (Throw e, Fs.record (Fs.SysWrite p data) d).
Proof.
  intros Hnot. unfold Fs.writeFileSync.
  destruct (Fs.is_denied p d) eqn:Hden; [eauto|].
  destruct (Fs.nodes d !! p) as [[?|]|] eqn:Hnode; eauto;
    exfalso; apply Hnot; split; auto; rewrite Hnode; discriminate.
Qed.

Lemma writeFileSync_interrupted_openable written p data d :
  openable p d ->
  Fs.content p (Fs.writeFileSync_interrupted written p data d)
  = Some (String.substring 0 (Nat.min written (Fs.fits p data d)) data).
Proof.
  intros [Hden Hdir]. unfold Fs.writeFileSync_interrupted, Fs.content.
  rewrite Hden.
  destruct (Fs.nodes d !! p) as [[?|]|]; simpl;
    rewrite ?lookup_insert_eq; try reflexivity. contradiction.
Qed.

Lemma writeFileSync_interrupted_writable written p data d :
  writable p d ->
  (written <= String.length data)%nat ->
  Fs.content p (Fs.writeFileSync_interrupted written p data d)
  = Some (String.substring 0 written data).
Proof.
  intros (Hden & Hdir & Hspace) Hle.
  rewrite writeFileSync_interrupted_openable by (split; assumption).
  rewrite (fits_unlimited _ data _ Hspace), Nat.min_l by exact Hle. reflexivity.
Qed.

Lemma writable_openable p d : writable p d -> openable p d.
Proof. intros (Hden & Hdir & _). split; assumption. Qed.

(** C1, amended.  [save()] stamps [lastIndexed] and issues one call: a
    write of the complete new document straight to the cache file; there is
    no temporary file and no rename, and the call returns whatever happens
    to the write.  When the file can be opened it is truncated and holds,
    after the call, the part of the new document that fitted on the volume,
    and no other path is touched: the complete document when there is
    room, and the first [n] code units when there is room for [n] only, the
    error being swallowed.  A crash inside the write leaves a prefix of the
    new document, as long as the part written so far.  When the file cannot
    be opened the error is swallowed and the disk content stays as it was.
    Both managers behave so; a [HashCacheManager] without a cache does
    nothing. *)
Theorem save_overwrites_in_place :
  (forall (now : Z) (m : SimpleHashCacheManager.t) (d : Fs.disk),
      let target := SimpleHashCacheManager.cacheFilePath m in
      let c := SimpleHashCacheManager.with_lastIndexed now (SimpleHashCacheManager.cache m) in
      let doc := SimpleHashCacheManager.document c in
      let m' := fst (SimpleHashCacheManager.save now m d) in
      let d' := snd (SimpleHashCacheManager.save now m d) in
      Fs.journal d' = (Fs.journal d ++ [Fs.SysWrite target doc])%list
      /\ SimpleHashCacheManager.cache m' = c
      /\ (openable target d ->
            Fs.content target d'
            = Some (String.substring 0 (Fs.fits target doc d) doc)
            /\ (forall q, q <> target -> Fs.nodes d' !! q = Fs.nodes d !! q)
            /\ (forall written,
                  Fs.content target (SimpleHashCacheManager.save_interrupted written now m d)
                  = Some (String.substring 0 (Nat.min written (Fs.fits target doc d)) doc)))
      /\ (writable target d -> Fs.content target d' = Some doc)
      /\ (forall n,
            openable target d -> Fs.space d !! target = Some n ->
            (n < String.length doc)%nat ->
            Fs.content target d' = Some (String.substring 0 n doc))
      /\ (~ openable target d -> Fs.nodes d' = Fs.nodes d))
  /\
  (forall (now : Z) (m : HashCacheManager.t) (d : Fs.disk),
      let target := HashCacheManager.cacheFilePath m in
      let m' := fst (HashCacheManager.save now m d) in
      let d' := snd (HashCacheManager.save now m d) in
      match HashCacheManager.cache m with
      | None => m' = m /\ d' = d
      | Some c0 =>
          let c := HashCacheManager.with_lastIndexed now c0 in
          let doc := HashCacheManager.document c in
          Fs.journal d' = (Fs.journal d ++ [Fs.SysWrite target doc])%list
          /\ HashCacheManager.cache m' = Some c
          /\ (openable target d ->
                Fs.content target d'
                = Some (String.substring 0 (Fs.fits target doc d) doc)
                /\ (forall q, q <> target -> Fs.nodes d' !! q = Fs.nodes d !! q)
                /\ (forall written,
                      Fs.content target (HashCacheManager.save_interrupted written now m d)
                      = Some (String.substring 0 (Nat.min written (Fs.fits target doc d))
                                doc)))
          /\ (writable target d -> Fs.content target d' = Some doc)
          /\ (forall n,
                openable target d -> Fs.space d !! target = Some n ->
                (n < String.length doc)%nat ->
                Fs.content target d' = Some (String.substring 0 n doc))
          /\ (~ openable target d -> Fs.nodes d' = Fs.nodes d)
      end).
Proof.
  assert (Hcore : forall target doc d,
    let d' := snd (Fs.writeFileSync target doc d) in
    (openable target d ->
       Fs.content target d' = Some (String.substring 0 (Fs.fits target doc d) doc)
       /\ (forall q, q <> target -> Fs.nodes d' !! q = Fs.nodes d !! q))
    /\ (writable target d -> Fs.content target d' = Some doc)
    /\ (forall n,
          openable target d -> Fs.space d !! target = Some n ->
          (n < String.length doc)%nat ->
          Fs.content target d' = Some (String.substring 0 n doc))
    /\ (~ openable target d -> Fs.nodes d' = Fs.nodes d)).
  { intros target doc d d'. subst d'.
    assert (Hopen : openable target d ->
      Fs.content target (snd (Fs.writeFileSync target doc d))
      = Some (String.substring 0 (Fs.fits target doc d) doc)).
    { intros Ho. unfold Fs.content. rewrite (writeFileSync_openable _ doc _ Ho).
      rewrite lookup_insert_eq. reflexivity. }
    split; [|split; [|split]].
    - intros Ho. split; [exact (Hopen Ho)|].
      intros q Hq. rewrite (writeFileSync_openable _ doc _ Ho).
      apply lookup_insert_ne. congruence.
    - intros Hw. rewrite (writeFileSync_writable _ doc _ Hw). unfold Fs.content.
      simpl. rewrite lookup_insert_eq. reflexivity.
    - intros n Ho Hn Hlt. rewrite (Hopen Ho), (fits_short _ doc _ _ Hn Hlt).
      reflexivity.
    - intros Hnot. destruct (writeFileSync_refused _ doc _ Hnot) as [e He].
      rewrite He. reflexivity. }
  assert (Hsnd : forall (A : Type) (x y : A) (r : outcome unit * Fs.disk),
    snd (match r with (Ok _, d1) => (x, d1) | (Throw _, d1) => (y, d1) end) = snd r).
  { intros A x y [[[]|e] d1]; reflexivity. }
  split.
  - intros now m d target c doc m' d'.
    destruct (Hcore target doc d) as (Hopen & Hwritable & Hshort & Hrefused).
    assert (Hd' : d' = snd (Fs.writeFileSync target doc d)).
    { subst d'. unfold SimpleHashCacheManager.save. apply Hsnd. }
    rewrite Hd'.
    split; [apply writeFileSync_journal|].
    split.
    { subst m'. unfold SimpleHashCacheManager.save. fold c. fold doc. fold target.
      destruct (Fs.writeFileSync target doc d) as [[[]|e] d1]; reflexivity. }
    split; [|split; [exact Hwritable | split; [exact Hshort | exact Hrefused]]].
    intros Ho. destruct (Hopen Ho) as [H1 H2]. split; [exact H1|]. split; [exact H2|].
    intros written. unfold SimpleHashCacheManager.save_interrupted.
    apply writeFileSync_interrupted_openable, Ho.
  - intros now m d target m' d'. subst m' d'. unfold HashCacheManager.save.
    unfold HashCacheManager.save_interrupted.
    destruct (HashCacheManager.cache m) as [c0|]; [|split; reflexivity].
    fold target.
    set (doc := HashCacheManager.document (HashCacheManager.with_lastIndexed now c0)).
    destruct (Hcore target doc d) as (Hopen & Hwritable & Hshort & Hrefused).
    rewrite Hsnd.
    split; [apply writeFileSync_journal|].
    split.
    { destruct (Fs.writeFileSync target doc d) as [[[]|e] d1]; reflexivity. }
    split; [|split; [exact Hwritable | split; [exact Hshort | exact Hrefused]]].
    intros Ho. destruct (Hopen Ho) as [H1 H2]. split; [exact H1|]. split; [exact H2|].
    intros written. apply writeFileSync_interrupted_openable, Ho.
Qed.

Lemma save_overwrites_in_place_witness :
  Fs.content "/home/user/project/.context/file-hashes.json"
    (snd (SimpleHashCacheManager.save 1700000009000 Samples.manager1 Samples.disk1))
  = Some (SimpleHashCacheManager.document
            (SimpleHashCacheManager.with_lastIndexed 1700000009000 Samples.cache1))
  /\ Fs.content "/home/user/project/.context/file-hashes.json"
       (snd (SimpleHashCacheManager.save 1700000009000 Samples.manager1
               Samples.disk1Full))
     = Some (String.substring 0 40
               (SimpleHashCacheManager.document
                  (SimpleHashCacheManager.with_lastIndexed 1700000009000 Samples.cache1))).
Proof.
  destruct save_overwrites_in_place as [Hsimple _].
  split.
  - destruct (Hsimple 1700000009000 Samples.manager1 Samples.disk1)
      as (_ & _ & _ & Hok & _).
    apply Hok.
    split; [vm_compute; reflexivity | split; [vm_compute; discriminate | reflexivity]].
  - destruct (Hsimple 1700000009000 Samples.manager1 Samples.disk1Full)
      as (_ & _ & _ & _ & Hshort & _).
    apply Hshort.
    + split; [vm_compute; reflexivity | vm_compute; discriminate].
    + reflexivity.
    + vm_compute. lia.
Defined.

End SaveFacts.

(** ** Collection names *)

Module NamingFacts.
Import JsString.

Lemma length_map_chars f s : String.length (map_chars f s) = String.length s.
Proof. induction s as [|c s IH]; simpl; [reflexivity | rewrite IH; reflexivity]. Qed.

Lemma get_map_chars f i s :
  String.get i (map_chars f s) = f <$> String.get i s.
Proof.
  revert i. induction s as [|c s IH]; intros [|i]; simpl; auto.
Qed.

Lemma length_prefix n s :
  String.length (String.substring 0 n s) = Nat.min n (String.length s).
Proof.
  revert s. induction n as [|n IH]; intros [|c s]; simpl; auto.
Qed.

Lemma get_prefix i n s :
  (i < n)%nat -> String.get i (String.substring 0 n s) = String.get i s.
Proof.
  revert i s. induction n as [|n IH]; intros i s Hi; [lia|].
  destruct s as [|c s]; simpl; [reflexivity|].
  destruct i as [|i]; [reflexivity|]. apply IH. lia.
Qed.

Lemma length_le_bytes count x : length (Md5.le_bytes count x) = count.
Proof. unfold Md5.le_bytes. rewrite length_map, length_seq. reflexivity. Qed.

Lemma length_digest message : length (Md5.digest message) = 16%nat.
Proof.
  unfold Md5.digest. destruct (Md5.blocks _ _ _) as [[[a b] c] d].
  rewrite !length_app, !length_le_bytes. reflexivity.
Qed.

Lemma length_hex_bytes (bytes : list Z) :
  String.length (foldr (fun b acc => Md5.hex_byte b ++ acc) EmptyString bytes)
  = (2 * length bytes)%nat.
Proof.
  induction bytes as [|b bytes IH]; [reflexivity|].
  change (S (S (String.length
                  (foldr (fun b acc => Md5.hex_byte b ++ acc) EmptyString bytes)))
          = (2 * S (length bytes))%nat).
  rewrite IH. lia.
Qed.

(** The digest is printed as 32 characters. *)
Lemma length_md5_hex s : String.length (Md5.hex s) = 32%nat.
Proof. unfold Md5.hex. rewrite length_hex_bytes, length_digest. reflexivity. Qed.

(** The test suite of RFC 1321, in part, and a text outside ASCII. *)
Example md5_test_suite :
  Md5.hex EmptyString = "d41d8cd98f00b204e9800998ecf8427e"
  /\ Md5.hex "a" = "0cc175b9c0f1b6a831c399e269772661"
  /\ Md5.hex "abc" = "900150983cd24fb0d6963f7d28e17f72"
  /\ Md5.hex "message digest" = "f96b697d7cb7938d525a2f31aaf161d0"
  /\ Md5.hex "12345678901234567890123456789012345678901234567890123456789012345678901234567890"
     = "57edf4a22be3c955ac49da2e2107b67a"
  /\ Md5.hex ("caf" ++ String (ascii_of_N 233) EmptyString)
     = "07117fe4a1ebd544965dc19573183da2".
Proof. vm_compute. repeat split. Qed.

Lemma lower_underscore : lower_char "_" = "_"%char.
Proof. reflexivity. Qed.

(** What [toLowerCase] does to a character of the class [a-zA-Z0-9]: a
    capital moves up by 32, to its small letter; small letters and digits
    stay. *)
Lemma lower_char_alnum (c : ascii) :
  is_alnum c = true ->
  lower_char c = if is_upper c then ascii_of_N (code c + 32) else c.
Proof.
  destruct c as [[] [] [] [] [] [] [] []]; intros H;
    first [reflexivity | discriminate H].
Qed.

Lemma upper_is_alnum (c : ascii) : is_upper c = true -> is_alnum c = true.
Proof. unfold is_alnum. intros ->. rewrite orb_true_r. reflexivity. Qed.

Lemma upper_becomes_lower (c : ascii) :
  is_upper c = true -> is_lower (ascii_of_N (code c + 32)) = true.
Proof.
  destruct c as [[] [] [] [] [] [] [] []]; intros H;
    first [reflexivity | discriminate H].
Qed.

(** C8.  The collection name is the prefix, [hybrid_code_chunks] for a
    hybrid collection and [code_chunks] otherwise, an underscore and a body.
    With a git repository identifier (a non-empty string) the body is
    [git_], the slug, an underscore and the first 8 characters of the MD5
    digest of the identifier, where the slug has the first 32 characters of
    the identifier, each one lowercased when it is in [a-zA-Z0-9] (a
    capital [A-Z] becomes the small letter 32 code points above it, small
    letters and digits stay) and replaced by an underscore when it is not;
    the project path plays no part.  Without an identifier (absent or empty) the body is the first 8
    characters of the MD5 digest of the resolved project path. *)
Theorem generateCollectionName_shape
    (path_resolve : string -> string) (projectPath : string) (isHybrid : bool)
    (gitRepoIdentifier : option string) :
  let prefix := if isHybrid then "hybrid_code_chunks" else "code_chunks" in
  let name :=
    ProjectMetadataManager.generateCollectionName path_resolve projectPath isHybrid
      gitRepoIdentifier in
  (forall identifier,
      gitRepoIdentifier = Some identifier -> identifier <> EmptyString ->
      let slug := substring 0 32 (toLowerCase (replace_non_alnum identifier)) in
      let hash8 := substring 0 8 (Md5.hex identifier) in
      name = prefix ++ "_git_" ++ slug ++ "_" ++ hash8
      /\ String.length slug = Nat.min 32 (String.length identifier)
      /\ (forall i c, (i < 32)%nat -> String.get i identifier = Some c ->
            String.get i slug
            = Some (if is_upper c then ascii_of_N (code c + 32)
                    else if is_alnum c then c
                    else "_"%char)
            /\ (is_upper c = true ->
                exists l, String.get i slug = Some l /\ is_lower l = true))
      /\ String.length hash8 = 8%nat
      /\ (forall otherPath,
            ProjectMetadataManager.generateCollectionName path_resolve otherPath
              isHybrid gitRepoIdentifier = name))
  /\
  (gitRepoIdentifier = None \/ gitRepoIdentifier = Some EmptyString ->
      let hash8 := substring 0 8 (Md5.hex (path_resolve projectPath)) in
      name = prefix ++ "_" ++ hash8 /\ String.length hash8 = 8%nat).
Proof.
  intros prefix name. subst name. split.
  - intros identifier Hgit Hne slug hash8. subst gitRepoIdentifier.
    unfold ProjectMetadataManager.generateCollectionName.
    assert (Ht : ProjectMetadataManager.truthy (Some identifier) = Some identifier).
    { destruct identifier; [contradiction | reflexivity]. }
    rewrite Ht.
    assert (Hslug : forall i c, (i < 32)%nat -> String.get i identifier = Some c ->
              String.get i slug
              = Some (if is_upper c then ascii_of_N (code c + 32)
                      else if is_alnum c then c
                      else "_"%char)).
    { intros i c Hi Hc. unfold slug, substring.
      rewrite get_prefix by lia.
      unfold toLowerCase, replace_non_alnum. rewrite !get_map_chars, Hc. simpl.
      destruct (is_alnum c) eqn:Ha.
      - rewrite (lower_char_alnum c Ha). reflexivity.
      - rewrite lower_underscore. destruct (is_upper c) eqn:Hu; [|reflexivity].
        rewrite (upper_is_alnum c Hu) in Ha. discriminate. }
    split; [reflexivity|]. split; [|split; [|split]].
    + unfold slug, substring. rewrite length_prefix.
      unfold toLowerCase, replace_non_alnum. rewrite !length_map_chars. reflexivity.
    + intros i c Hi Hc. split; [exact (Hslug i c Hi Hc)|].
      intros Hu. eexists. split; [exact (Hslug i c Hi Hc)|].
      rewrite Hu. apply upper_becomes_lower, Hu.
    + unfold hash8, substring. rewrite length_prefix, length_md5_hex. reflexivity.
    + intros otherPath. reflexivity.
  - intros Hnone hash8.
    assert (Ht : ProjectMetadataManager.truthy gitRepoIdentifier = None).
    { destruct Hnone as [-> | ->]; reflexivity. }
    unfold ProjectMetadataManager.generateCollectionName. rewrite Ht. split.
    + reflexivity.
    + unfold hash8, substring. rewrite length_prefix, length_md5_hex. reflexivity.
Qed.

Lemma generateCollectionName_shape_witness :
  ProjectMetadataManager.generateCollectionName (fun p => p) "/home/user/project" true
    (Some "GitHub.com/ZillizTech/Claude-Context")
  = "hybrid_code_chunks_git_github_com_zilliztech_claude_con_7ef0f8cf"
  /\
  String.get 0
    (substring 0 32 (toLowerCase (replace_non_alnum "GitHub.com/ZillizTech/Claude-Context")))
  = Some "g"%char
  /\
  ProjectMetadataManager.generateCollectionName (fun p => p) "/home/user/project" false
    None
  = "code_chunks_90722f26".
Proof.
  pose proof (generateCollectionName_shape (fun p => p) "/home/user/project" true
                (Some "GitHub.com/ZillizTech/Claude-Context")) as [Hgit _].
  pose proof (generateCollectionName_shape (fun p => p) "/home/user/project" false
                None) as [_ Hpath].
  destruct (Hgit "GitHub.com/ZillizTech/Claude-Context")
    as (Hname & _ & Hchars & _); [reflexivity | discriminate |].
  split; [|split].
  - rewrite Hname. vm_compute. reflexivity.
  - destruct (Hchars 0%nat "G"%char) as [Hfirst _]; [lia | reflexivity |].
    rewrite Hfirst. reflexivity.
  - destruct Hpath as [Hname' _].
    + left. reflexivity.
    + rewrite Hname'. vm_compute. reflexivity.
Defined.

End NamingFacts.

(** ** The embedding client: dimensions *)

Module DimensionFacts.
Import OpenAIEmbedding.

(** C9.  For a model of the catalog [getDimension()] returns the catalog
    dimension whatever the instance holds, so also when a different custom
    dimension is configured (which the constructor does store in the
    instance).  For a model name that finds nothing in the catalog a
    freshly built instance returns the configured custom dimension.  For a
    model name that is not a catalog model but a member of
    [Object.prototype] ([constructor], [toString], ...) the method returns
    [undefined], whatever is configured. *)
Theorem getDimension_prefers_catalog :
  (forall (e : t) (info : ModelInfo.t),
      JsObject.get (or_string (Config.model (config e)) default_model) getSupportedModels
        = Some info ->
      getDimension e = Some (ModelInfo.dimension info))
  /\
  (forall (e : t),
      JsObject.lookup (or_string (Config.model (config e)) default_model)
        getSupportedModels = JsObject.Member ->
      getDimension e = None)
  /\
  (forall (c : Config.t) (d : Z),
      Config.dimensions c = Some d -> d <> 0 ->
      dimension (new c) = Some d
      /\ (JsObject.lookup (or_string (Config.model c) default_model) getSupportedModels
            = JsObject.Nothing ->
          getDimension (new c) = Some d)
      /\ (JsObject.lookup (or_string (Config.model c) default_model) getSupportedModels
            = JsObject.Member ->
          getDimension (new c) = None)).
Proof.
  split; [|split].
  - intros e info Hknown. unfold getDimension.
    rewrite (JsObjectFacts.lookup_own _ _ _ Hknown). reflexivity.
  - intros e Hmember. unfold getDimension. rewrite Hmember. reflexivity.
  - intros c d Hd Hnz.
    assert (Hor : forall b, or_number (Config.dimensions c) b = d).
    { intros b. unfold or_number, truthy_number. rewrite Hd.
      destruct (Z.eqb_spec d 0); [contradiction | reflexivity]. }
    assert (Htruthy : truthy_number (Config.dimensions c) = Some d).
    { unfold truthy_number. rewrite Hd.
      destruct (Z.eqb_spec d 0); [contradiction | reflexivity]. }
    assert (Hdim : dimension (new c) = Some d).
    { unfold new, updateModelSettings.
      destruct (JsObject.lookup _ getSupportedModels); simpl;
        rewrite ?Hor; auto. }
    assert (Hcfg : config (new c) = c).
    { unfold new, updateModelSettings.
      destruct (JsObject.lookup _ getSupportedModels); reflexivity. }
    split; [exact Hdim|]. split.
    + intros Hunknown. unfold getDimension. rewrite Hcfg, Hunknown. exact Hdim.
    + intros Hmember. unfold getDimension. rewrite Hcfg, Hmember. reflexivity.
Qed.

End DimensionFacts.

(** ** The embedding client: requests *)

Module DetectionFacts.
Import OpenAIEmbedding EmbeddingSpec.

(** C9 at sample configurations: the catalog model [text-embedding-v4]
    configured with 2048 dimensions reports 1024, an uncatalogued model
    configured with 2048 reports 2048, and the model name [constructor]
    configured with 512 reports [undefined]. *)
Lemma getDimension_prefers_catalog_witness :
  getDimension (new Samples.dashscopeV4) = Some 1024
  /\ dimension (new Samples.dashscopeV4) = Some 2048
  /\ getDimension (new Samples.dashscopeCustom2048) = Some 2048
  /\ getDimension (new Samples.openaiConstructor512) = None.
Proof.
  destruct DimensionFacts.getDimension_prefers_catalog as (Hknown & _ & Hcustom).
  split; [|split; [|split]].
  - rewrite (Hknown (new Samples.dashscopeV4)
               {| ModelInfo.dimension := 1024; ModelInfo.contextLength := 32000;
                  ModelInfo.description :=
                    "Qwen text-embedding-v4 model (Alibaba Cloud/DashScope) - 1024 dimensions, requires dashscope.aliyuncs.com baseURL" |});
      reflexivity.
  - apply (Hcustom Samples.dashscopeV4 2048); [reflexivity | discriminate].
  - apply (Hcustom Samples.dashscopeCustom2048 2048);
      [reflexivity | discriminate | reflexivity].
  - apply (Hcustom Samples.openaiConstructor512 512);
      [reflexivity | discriminate | reflexivity].
Defined.

(** C2, counterexample.  With a model outside the catalog and no custom
    dimension, the second of two calls sends a request of its own. *)
Lemma detectDimension_does_not_cache :
  ~ detectDimension_caches Samples.prepare (Samples.embedder false)
      (Samples.start Samples.dashscopeCustom) "test" "test".
Proof.
  intros (_ & _ & _ & Hnone). vm_compute in Hnone. discriminate Hnone.
Qed.

Section Detect.

#[local] Arguments JsObject.lookup : simpl never.

Variable preprocessText : option Z -> string -> string.
Variable provider : Provider.

Lemma detectDimension_run (text : string) (w : world) :
  detectDimension preprocessText provider text w =
  match truthy_number (Config.dimensions (config (self w))),
        JsObject.lookup (modelOf (config (self w))) getSupportedModels with
  | Some d, _ => (Ok (Some d), w)
  | None, JsObject.Entry info => (Ok (Some (ModelInfo.dimension info)), w)
  | None, JsObject.Member => (Ok None, w)
  | None, JsObject.Nothing =>
      (probeOutcome preprocessText provider w text,
       {| self := self w;
          log := (log w
                  ++ [(textRequest preprocessText (self w) text,
                       provider (sent w) (textRequest preprocessText (self w) text))])%list |})
  end.
Proof.
  unfold detectDimension, bind, getSelf, modelOf, probeOutcome. simpl.
  destruct (truthy_number _) as [d|]; [reflexivity|].
  destruct (JsObject.lookup (or_string (Config.model (config (self w))) default_model)
              getSupportedModels) as [info| |]; [reflexivity|reflexivity|].
  unfold try_catch, bind, create, textRequest, modelOf. simpl.
  destruct (provider _ _) as [r|message]; simpl; [|reflexivity].
  destruct (firstVector _ r) as [v|message]; reflexivity.
Qed.

Lemma detectDimension_self text w :
  self (snd (detectDimension preprocessText provider text w)) = self w.
Proof.
  rewrite detectDimension_run.
  destruct (truthy_number _); [reflexivity|].
  destruct (JsObject.lookup (modelOf (config (self w))) getSupportedModels); reflexivity.
Qed.

Lemma detectDimension_log_length text w :
  length (log (snd (detectDimension preprocessText provider text w)))
  = (length (log w) + if needsProbe (config (self w)) then 1 else 0)%nat.
Proof.
  rewrite detectDimension_run. unfold needsProbe.
  destruct (truthy_number _); [simpl; lia|].
  destruct (JsObject.lookup (modelOf (config (self w))) getSupportedModels); simpl;
    [lia|lia|].
  rewrite length_app. simpl. lia.
Qed.

End Detect.

(** C2, amended.  [detectDimension] keeps nothing between calls.  With a
    custom dimension configured it returns that dimension; otherwise for a
    model of the catalog it returns the catalog dimension, and for a model
    name that is a member of [Object.prototype] ([constructor],
    [toString], ...) it returns [undefined]; in these three cases no
    request is sent.  In the remaining case each call, the first as much as
    any later one, sends exactly one request, for the prepared probe text,
    and returns the length of the vector of the first item of the answer or
    fails; so a run of calls sends as many requests as there are calls. *)
Theorem detectDimension_one_request_per_call
    (preprocessText : option Z -> string -> string) (provider : Provider)
    (w : world) (text : string) :
  let c := config (self w) in
  let request := textRequest preprocessText (self w) text in
  detectDimension preprocessText provider text w =
    match truthy_number (Config.dimensions c),
          JsObject.lookup (modelOf c) getSupportedModels with
    | Some d, _ => (Ok (Some d), w)
    | None, JsObject.Entry info => (Ok (Some (ModelInfo.dimension info)), w)
    | None, JsObject.Member => (Ok None, w)
    | None, JsObject.Nothing =>
        (probeOutcome preprocessText provider w text,
         {| self := self w;
            log := (log w ++ [(request, provider (sent w) request)])%list |})
    end
  /\ forall texts,
       self (detectEach preprocessText provider texts w) = self w
       /\ length (log (detectEach preprocessText provider texts w))
          = (length (log w) + if needsProbe c then length texts else 0)%nat.
Proof.
  intros c request. split; [apply detectDimension_run|].
  intros texts. subst c. clear request. revert w.
  induction texts as [|t texts IH]; intros w; simpl.
  - split; [reflexivity | destruct (needsProbe _); lia].
  - destruct (IH (snd (detectDimension preprocessText provider t w)))
      as [Hself Hlen].
    rewrite Hself, Hlen, detectDimension_self, detectDimension_log_length.
    split; [reflexivity | destruct (needsProbe (config (self w))); lia].
Qed.

End DetectionFacts.

(** ** The embedding client: batches *)

Module BatchFacts.
Import OpenAIEmbedding EmbeddingSpec.

Lemma exchangesFor_app provider history (a b : list Request.t) :
  exchangesFor provider history (a ++ b)
  = (exchangesFor provider history a
     ++ exchangesFor provider (history ++ a) b)%list.
Proof.
  revert history. induction a as [|x a IH]; intros history; simpl.
  - rewrite app_nil_r. reflexivity.
  - rewrite IH, <- app_assoc. reflexivity.
Qed.

Lemma exchangesFor_requests provider history requests :
  map fst (exchangesFor provider history requests) = requests.
Proof.
  revert history. induction requests as [|x l IH]; intros history; simpl;
    [reflexivity | rewrite IH; reflexivity].
Qed.

Lemma chunksFuel_agree {A} (n : nat) (fuel1 fuel2 : nat) (l : list A) :
  (0 < n)%nat -> (length l <= fuel1)%nat -> (length l <= fuel2)%nat ->
  chunksFuel fuel1 n l = chunksFuel fuel2 n l.
Proof.
  intros Hn. revert fuel2 l.
  induction fuel1 as [|fuel1 IH]; intros fuel2 l H1 H2.
  - destruct l; [destruct fuel2; reflexivity | simpl in H1; lia].
  - destruct l as [|x l]; [destruct fuel2; reflexivity|].
    destruct fuel2 as [|fuel2]; [simpl in H2; lia|].
    cbn [chunksFuel]. f_equal.
    apply IH; rewrite length_drop; simpl in *; lia.
Qed.

Lemma chunksFuel_enough {A} (fuel n : nat) (l : list A) :
  (0 < n)%nat -> (length l <= fuel)%nat -> chunksFuel fuel n l = chunksOf n l.
Proof.
  intros Hn Hfuel. unfold chunksOf. apply chunksFuel_agree; auto.
Qed.

(** The pieces of a non-empty list: the first [n] elements, then the
    pieces of the rest. *)
Lemma chunksOf_cons {A} (n : nat) (l : list A) :
  (0 < n)%nat -> l <> [] -> chunksOf n l = take n l :: chunksOf n (drop n l).
Proof.
  intros Hn Hl. destruct l as [|x l]; [contradiction|].
  unfold chunksOf at 1. cbn [length chunksFuel]. f_equal.
  apply chunksFuel_enough; [exact Hn|]. rewrite length_drop. simpl. lia.
Qed.

Lemma chunksOf_nil {A} (n : nat) : chunksOf n (@nil A) = [].
Proof. reflexivity. Qed.

(** Induction along the pieces of a list. *)
Lemma chunksOf_induction {A} (n : nat) (P : list A -> list (list A) -> Prop) :
  (0 < n)%nat ->
  P [] [] ->
  (forall l, l <> [] ->
     P (drop n l) (chunksOf n (drop n l)) ->
     P l (take n l :: chunksOf n (drop n l))) ->
  forall l, P l (chunksOf n l).
Proof.
  intros Hn Hnil Hcons l.
  remember (length l) as len eqn:Hlen. revert l Hlen.
  induction len as [len IH] using lt_wf_ind. intros l Hlen.
  destruct l as [|x l]; [exact Hnil|].
  rewrite chunksOf_cons by (exact Hn || discriminate).
  apply Hcons; [discriminate|].
  apply (IH (length (drop n (x :: l)))); [|reflexivity].
  subst len. rewrite length_drop. simpl. lia.
Qed.

Lemma chunksOf_nonempty {A} (n : nat) (l : list A) :
  (0 < n)%nat -> forall b, b ∈ chunksOf n l -> b <> [].
Proof.
  intros Hn. apply (chunksOf_induction n (fun _ chunks => forall b, b ∈ chunks -> b <> []) Hn).
  - intros b Hb. inversion Hb.
  - clear l. intros l Hl IH b Hb. apply elem_of_cons in Hb as [-> | Hb]; [|auto].
    destruct l; [contradiction|]. destruct n; [lia | discriminate].
Qed.

(** The pieces put together again give the list. *)
Lemma concat_chunksOf {A} (n : nat) (l : list A) :
  (0 < n)%nat -> concat (chunksOf n l) = l.
Proof.
  intros Hn. apply (chunksOf_induction n (fun l chunks => concat chunks = l) Hn).
  - reflexivity.
  - clear l. intros l _ IH. simpl. rewrite IH. apply take_drop.
Qed.

Lemma sizesFuel_agree (n fuel1 fuel2 total : nat) :
  (0 < n)%nat -> (total <= fuel1)%nat -> (total <= fuel2)%nat ->
  sizesFuel fuel1 n total = sizesFuel fuel2 n total.
Proof.
  intros Hn. revert fuel2 total.
  induction fuel1 as [|fuel1 IH]; intros fuel2 total H1 H2.
  - destruct total; [destruct fuel2; reflexivity | lia].
  - destruct total as [|total]; [destruct fuel2; reflexivity|].
    destruct fuel2 as [|fuel2]; [lia|].
    cbn [sizesFuel]. f_equal. apply IH; lia.
Qed.

Lemma batchSizes_pos (n total : nat) :
  (0 < n)%nat -> (0 < total)%nat ->
  batchSizes n total = Nat.min n total :: batchSizes n (total - n).
Proof.
  intros Hn Htotal. unfold batchSizes. destruct total as [|total]; [lia|].
  cbn [sizesFuel]. f_equal. apply sizesFuel_agree; lia.
Qed.

(** The pieces have the sizes [batchSizes] lists. *)
Lemma length_chunksOf {A} (n : nat) (l : list A) :
  (0 < n)%nat -> map length (chunksOf n l) = batchSizes n (length l).
Proof.
  intros Hn.
  apply (chunksOf_induction n
           (fun l chunks => map length chunks = batchSizes n (length l)) Hn).
  - reflexivity.
  - clear l. intros l Hl IH. cbn [map]. rewrite IH, length_take, length_drop.
    rewrite (batchSizes_pos n (length l)); [reflexivity | exact Hn |].
    destruct l; [contradiction | simpl; lia].
Qed.

End BatchFacts.

Module RunFacts.
Import OpenAIEmbedding EmbeddingSpec BatchFacts.

#[local] Arguments JsObject.lookup : simpl never.

Lemma accepted_firstVector a r :
  accepted a r ->
  exists v,
    firstVector a r = Ok v
    /\ field (fieldRead a r) <$> head (data r) = Some (Some v).
Proof.
  unfold accepted, well_formed, fieldRead, firstVector.
  destruct (data r) as [|firstItem rest]; intros [Hne Hall]; [contradiction|].
  pose proof (Forall_inv Hall) as Hfirst.
  destruct a; simpl in *.
  - destruct (Item.vector firstItem) as [v|] eqn:Hv; simpl in *.
    + exists v. rewrite Hv. auto.
    + destruct Hfirst as [v Hv']. rewrite Hv'. exists v. auto.
  - destruct Hfirst as [v Hv']. rewrite Hv'. exists v. auto.
Qed.

Lemma vectors_of_items (useVector : bool) d items :
  map EmbeddingVector.vector (itemVectors useVector d items)
  = map (field (if useVector then AlibabaShape else OpenAIShape)) items.
Proof.
  unfold itemVectors. rewrite map_map. apply map_ext. intros item.
  destruct useVector; reflexivity.
Qed.

Lemma accepted_batchVectors a r w :
  accepted a r ->
  exists rs d,
    batchVectors a r w = (Ok rs, {| self := withDimension d (self w); log := log w |})
    /\ map EmbeddingVector.vector rs = map (field (fieldRead a r)) (data r).
Proof.
  unfold accepted, well_formed, fieldRead, batchVectors.
  destruct (data r) as [|firstItem rest] eqn:Hdata; intros [Hne Hall];
    [contradiction|].
  pose proof (Forall_inv Hall) as Hfirst.
  destruct (if a then Item.vector firstItem else None) as [v|].
  - eexists. eexists. split; [reflexivity|]. apply vectors_of_items.
  - destruct Hfirst as [v Hv]. simpl in Hv. rewrite Hv.
    eexists. eexists. split; [reflexivity|]. apply vectors_of_items.
Qed.

Ltac stable_now :=
  match goal with
  | |- stable _ _ _ => split; simpl; assumption
  | |- stable _ _ _ /\ _ => split; [stable_now|]
  end.

Section Run.

Variable preprocessText : option Z -> string -> string.
Variable preprocessTexts : option Z -> list string -> list string.
Variable provider : Provider.
Variable c : Config.t.

(** The requests whose answers the client can take. *)
Variable good : Request.t -> Prop.

Hypothesis provider_accepted :
  forall history request,
    good request ->
    exists r, provider history request = Ok r /\ accepted (isAlibaba c) r.

Lemma textRequest_stable e e' text :
  config e = config e' -> maxTokens e = maxTokens e' ->
  textRequest preprocessText e text = textRequest preprocessText e' text.
Proof. unfold textRequest. intros -> ->. reflexivity. Qed.

Lemma requestsOfBatch_stable e e' batch :
  config e = config e' -> maxTokens e = maxTokens e' ->
  requestsOfBatch preprocessText preprocessTexts e batch
  = requestsOfBatch preprocessText preprocessTexts e' batch.
Proof.
  unfold requestsOfBatch, textRequest, batchRequest. intros -> ->. reflexivity.
Qed.

Lemma refreshDimension_run limit w :
  stable c limit w ->
  (needsProbe c = true -> good (textRequest preprocessText (self w) "test")) ->
  exists w',
    refreshDimension preprocessText provider (modelOf c) w = (Ok tt, w')
    /\ stable c limit w'
    /\ log w' =
       (log w ++ exchangesFor provider (sent w)
                   (if needsProbe c then [textRequest preprocessText (self w) "test"]
                    else []))%list.
Proof.
  intros [Hc Hlimit] Hprobe. unfold refreshDimension, bind, getSelf. cbv beta iota.
  unfold needsProbe in *.
  destruct (JsObject.lookup (modelOf c) getSupportedModels) as [info| |] eqn:Hknown.
  - destruct (truthy_number (Config.dimensions c));
      destruct (differs (dimension (self w)) (Some (ModelInfo.dimension info)));
      eexists; (split; [reflexivity|]); simpl; rewrite app_nil_r;
      stable_now; reflexivity.
  - destruct (truthy_number (Config.dimensions c));
      destruct (differs (dimension (self w)) None);
      eexists; (split; [reflexivity|]); simpl; rewrite app_nil_r;
      stable_now; reflexivity.
  - rewrite DetectionFacts.detectDimension_run, Hc, Hknown.
    destruct (truthy_number (Config.dimensions c)) as [d|].
    + eexists. split; [reflexivity|]. simpl. rewrite app_nil_r.
      stable_now. reflexivity.
    + unfold probeOutcome. rewrite Hc.
      destruct (provider_accepted (sent w)
                  (textRequest preprocessText (self w) "test") (Hprobe eq_refl))
        as (r & Hr & Hacc).
      rewrite Hr. destruct (accepted_firstVector _ _ Hacc) as (v & Hv & _). rewrite Hv.
      eexists. split; [reflexivity|]. simpl. rewrite Hr.
      stable_now. reflexivity.
Qed.

Lemma embedBatchRequest_run limit batch w :
  stable c limit w ->
  (needsProbe c = true -> good (textRequest preprocessText (self w) "test")) ->
  good (batchRequest preprocessTexts (self w) batch) ->
  exists rs w',
    embedBatchRequest preprocessText preprocessTexts provider batch w = (Ok rs, w')
    /\ stable c limit w'
    /\ log w' =
       (log w ++ exchangesFor provider (sent w)
                   (requestsOfBatch preprocessText preprocessTexts (self w) batch))%list
    /\ map EmbeddingVector.vector rs =
       flat_map (replyVectors (fieldRead (isAlibaba c)))
         (exchangesFor provider (sent w)
            (requestsOfBatch preprocessText preprocessTexts (self w) batch)).
Proof.
  intros Hst Hprobe Hgood. pose proof Hst as [Hc Hlimit].
  unfold embedBatchRequest, bind, getSelf. cbv beta iota. rewrite Hc.
  fold (modelOf c).
  destruct (refreshDimension_run limit w Hst Hprobe)
    as (w1 & Hrun & [Hc1 Hlimit1] & Hlog1).
  rewrite Hrun. unfold try_catch, bind, create. cbv beta iota zeta.
  set (request := embedRequest (modelOf c)
                    (Request.Many (preprocessTexts (maxTokens (self w)) batch)) c).
  assert (Hbatchreq :
            batchRequest preprocessTexts (self w) batch = request).
  { unfold batchRequest, request. rewrite Hc. reflexivity. }
  rewrite Hbatchreq in Hgood.
  destruct (provider_accepted (sent w1) request Hgood) as (r & Hr & Hacc).
  rewrite Hr.
  destruct (accepted_batchVectors (isAlibaba c) r
              {| self := self w1; log := (log w1 ++ [(request, Ok r)])%list |} Hacc)
    as (rs & d & Hbatch & Hvectors).
  rewrite Hbatch. exists rs. eexists. split; [reflexivity|].
  assert (Hsent1 : sent w1 =
            (sent w ++ (if needsProbe c
                        then [textRequest preprocessText (self w) "test"] else []))%list).
  { unfold sent. rewrite Hlog1, map_app, exchangesFor_requests. reflexivity. }
  unfold requestsOfBatch. rewrite Hc, Hbatchreq, exchangesFor_app.
  cbn [exchangesFor]. rewrite <- Hsent1, Hr.
  stable_now. split.
  - simpl. rewrite Hlog1, <- app_assoc. reflexivity.
  - rewrite flat_map_app. cbn [flat_map]. rewrite app_nil_r.
    assert (Hnone : flat_map (replyVectors (fieldRead (isAlibaba c)))
                       (exchangesFor provider (sent w)
                          (if needsProbe c
                           then [textRequest preprocessText (self w) "test"]
                           else [])) = []).
    { destruct (needsProbe c); reflexivity. }
    rewrite Hnone. unfold replyVectors. simpl. exact Hvectors.
Qed.

Lemma embedBatch_single fuel batch w :
  (length batch <= 10)%nat ->
  embedBatch preprocessText preprocessTexts provider (S fuel) batch w
  = Some (embedBatchRequest preprocessText preprocessTexts provider batch w).
Proof.
  intros Hlen. cbn [embedBatch].
  destruct (isAlibaba (config (self w))).
  - destruct (Nat.ltb_spec 10 (length batch)); [lia | reflexivity].
  - rewrite Nat.ltb_irrefl. reflexivity.
Qed.

Lemma splitLoop_run limit recur maxBatchSize texts :
  (0 < maxBatchSize)%nat ->
  (forall b w, (length b <= maxBatchSize)%nat ->
     recur b w = Some (embedBatchRequest preprocessText preprocessTexts provider b w)) ->
  forall count i results w,
    stable c limit w ->
    (needsProbe c = true -> good (textRequest preprocessText (self w) "test")) ->
    (forall b, b ∈ chunksOf maxBatchSize (drop i texts) ->
               good (batchRequest preprocessTexts (self w) b)) ->
    (length texts - i <= count)%nat ->
    exists rs w',
      splitLoop recur maxBatchSize texts count i results w
      = Some (Ok (results ++ rs)%list, w')
      /\ stable c limit w'
      /\ log w' =
         (log w ++ exchangesFor provider (sent w)
                     (flat_map (requestsOfBatch preprocessText preprocessTexts (self w))
                        (chunksOf maxBatchSize (drop i texts))))%list
      /\ map EmbeddingVector.vector rs =
         flat_map (replyVectors (fieldRead (isAlibaba c)))
           (exchangesFor provider (sent w)
              (flat_map (requestsOfBatch preprocessText preprocessTexts (self w))
                 (chunksOf maxBatchSize (drop i texts)))).
Proof.
  intros Hmax Hrecur.
  assert (Hdone : forall count i results w,
             stable c limit w -> (length texts <= i)%nat ->
             exists rs w',
               splitLoop recur maxBatchSize texts count i results w
               = Some (Ok (results ++ rs)%list, w')
               /\ stable c limit w'
               /\ log w' =
                  (log w ++ exchangesFor provider (sent w)
                     (flat_map (requestsOfBatch preprocessText preprocessTexts (self w))
                        (chunksOf maxBatchSize (drop i texts))))%list
               /\ map EmbeddingVector.vector rs =
                  flat_map (replyVectors (fieldRead (isAlibaba c)))
                    (exchangesFor provider (sent w)
                       (flat_map (requestsOfBatch preprocessText preprocessTexts (self w))
                          (chunksOf maxBatchSize (drop i texts))))).
  { intros count i results w Hst Hi. exists [], w.
    rewrite (drop_ge texts i) by exact Hi. rewrite chunksOf_nil. simpl.
    rewrite !app_nil_r.
    destruct count; cbn [splitLoop];
      (destruct (Nat.ltb_spec i (length texts)); [lia|]); auto. }
  induction count as [|count IH]; intros i results w Hst Hprobe Hgood Hcount.
  - apply Hdone; [exact Hst | lia].
  - destruct (Nat.ltb_spec i (length texts)) as [Hlt|Hge];
      [|apply Hdone; [exact Hst | lia]].
    cbn [splitLoop]. destruct (Nat.ltb_spec i (length texts)); [|lia].
    set (batch := slice i (i + maxBatchSize) texts).
    assert (Hbatch : batch = take maxBatchSize (drop i texts)).
    { unfold batch, slice. f_equal. lia. }
    assert (Hlen : (length batch <= maxBatchSize)%nat).
    { rewrite Hbatch, length_take. lia. }
    assert (Hne : drop i texts <> []).
    { intros Hnil. apply (f_equal length) in Hnil.
      rewrite length_drop in Hnil. simpl in Hnil. lia. }
    rewrite (chunksOf_cons maxBatchSize (drop i texts) Hmax Hne) in Hgood.
    rewrite drop_drop, <- Hbatch in Hgood.
    rewrite (Hrecur batch w Hlen).
    destruct (embedBatchRequest_run limit batch w Hst Hprobe)
      as (rs1 & w1 & Hrun & Hst1 & Hlog1 & Hvec1).
    { apply Hgood. left. }
    rewrite Hrun.
    assert (Hsame : forall b,
               requestsOfBatch preprocessText preprocessTexts (self w1) b
               = requestsOfBatch preprocessText preprocessTexts (self w) b).
    { intros b. destruct Hst as [Hc Hl], Hst1 as [Hc1 Hl1].
      apply requestsOfBatch_stable; congruence. }
    assert (Hself : forall b,
               batchRequest preprocessTexts (self w1) b
               = batchRequest preprocessTexts (self w) b).
    { intros b. destruct Hst as [Hc Hl], Hst1 as [Hc1 Hl1].
      unfold batchRequest. congruence. }
    destruct (IH (i + maxBatchSize)%nat (results ++ rs1)%list w1 Hst1)
      as (rs2 & w2 & Hloop & Hst2 & Hlog2 & Hvec2).
    { intros Hp. rewrite (textRequest_stable (self w1) (self w));
        [exact (Hprobe Hp) | |];
        destruct Hst as [Hc Hl], Hst1 as [Hc1 Hl1]; congruence. }
    { intros b Hb. rewrite Hself. apply Hgood. right. exact Hb. }
    { lia. }
    rewrite Hloop. exists (rs1 ++ rs2)%list, w2.
    assert (Hsent1 : sent w1 =
              (sent w ++ requestsOfBatch preprocessText preprocessTexts (self w) batch)%list).
    { unfold sent. rewrite Hlog1, map_app, exchangesFor_requests. reflexivity. }
    rewrite (chunksOf_cons maxBatchSize (drop i texts) Hmax Hne).
    rewrite drop_drop, <- Hbatch. cbn [flat_map].
    rewrite exchangesFor_app, <- Hsent1.
    rewrite (flat_map_ext _ _ Hsame) in Hlog2, Hvec2.
    split; [rewrite app_assoc; reflexivity|].
    split; [exact Hst2|]. split.
    + rewrite Hlog2, Hlog1, <- app_assoc. reflexivity.
    + rewrite map_app, flat_map_app, Hvec1, Hvec2. reflexivity.
Qed.

(** With a provider whose answers to the planned requests the client can
    take, [embedBatch] succeeds as soon as the fuel allows one level of
    recursion: the exchanges are those of the planned requests, and the
    result holds the vectors of the answers to the batch requests, in
    order. *)
Lemma embedBatch_run limit fuel texts w :
  (2 <= fuel)%nat -> stable c limit w ->
  (needsProbe c = true -> good (textRequest preprocessText (self w) "test")) ->
  (forall b, b ∈ batches c texts -> good (batchRequest preprocessTexts (self w) b)) ->
  exists rs w',
    embedBatch preprocessText preprocessTexts provider fuel texts w = Some (Ok rs, w')
    /\ stable c limit w'
    /\ log w' =
       (log w ++ exchangesFor provider (sent w)
                   (plannedRequests preprocessText preprocessTexts (self w) texts))%list
    /\ map EmbeddingVector.vector rs =
       flat_map (replyVectors (fieldRead (isAlibaba c)))
         (exchangesFor provider (sent w)
            (plannedRequests preprocessText preprocessTexts (self w) texts)).
Proof.
  intros Hfuel Hst Hprobe Hgood. destruct fuel as [|[|fuel]]; [lia | lia |].
  pose proof Hst as [Hc Hl].
  unfold plannedRequests. unfold batches, providerBatchCeiling in *. rewrite Hc.
  cbn [embedBatch]. rewrite Hc.
  revert Hgood. case_eq (isAlibaba c); intros Halibaba Hgood.
  - destruct (Nat.ltb_spec 10 (length texts)) as [Hlong|Hshort].
    + destruct (splitLoop_run limit
                  (embedBatch preprocessText preprocessTexts provider (S fuel))
                  10%nat texts ltac:(lia)
                  (fun b w' Hb => embedBatch_single fuel b w' Hb)
                  (length texts) 0%nat [] w Hst Hprobe)
        as (rs & w' & Hrun & Hst' & Hlog & Hvec).
      { rewrite drop_0. exact Hgood. }
      { lia. }
      rewrite drop_0 in Hlog, Hvec. rewrite Halibaba in Hvec. simpl in Hrun.
      exists rs, w'. auto.
    + destruct (embedBatchRequest_run limit texts w Hst Hprobe)
        as (rs & w' & Hrun & Hst' & Hlog & Hvec).
      { apply Hgood. left. }
      rewrite Halibaba in Hvec.
      exists rs, w'. cbn [flat_map]. rewrite app_nil_r. rewrite Hrun. auto.
  - rewrite Nat.ltb_irrefl.
    destruct (embedBatchRequest_run limit texts w Hst Hprobe)
      as (rs & w' & Hrun & Hst' & Hlog & Hvec).
    { apply Hgood. left. }
    rewrite Halibaba in Hvec.
    exists rs, w'. cbn [flat_map]. rewrite app_nil_r. rewrite Hrun. auto.
Qed.

Lemma embed_run limit text w :
  stable c limit w ->
  (needsProbe c = true -> good (textRequest preprocessText (self w) "test")) ->
  good (textRequest preprocessText (self w) text) ->
  exists v r w',
    embed preprocessText provider text w
    = (Ok {| EmbeddingVector.vector := Some v;
             EmbeddingVector.dimension := vector_length v |}, w')
    /\ stable c limit w'
    /\ log w' =
       (log w ++ exchangesFor provider (sent w)
                   ((if needsProbe c
                     then [textRequest preprocessText (self w) "test"] else [])
                    ++ [textRequest preprocessText (self w) text]))%list
    /\ list.last (log w') = Some (textRequest preprocessText (self w) text, Ok r)
    /\ field (fieldRead (isAlibaba c) r) <$> head (data r) = Some (Some v).
Proof.
  intros Hst Hprobe Hgood. pose proof Hst as [Hc Hlimit].
  unfold embed, bind, getSelf. cbv beta iota. rewrite Hc.
  fold (modelOf c).
  destruct (refreshDimension_run limit w Hst Hprobe)
    as (w1 & Hrun & [Hc1 Hlimit1] & Hlog1).
  rewrite Hrun. unfold try_catch, bind, create. cbv beta iota zeta.
  set (request := embedRequest (modelOf c)
                    (Request.One (preprocessText (maxTokens (self w)) text)) c).
  assert (Hreq : textRequest preprocessText (self w) text = request).
  { unfold textRequest, request. rewrite Hc. reflexivity. }
  rewrite Hreq in *.
  destruct (provider_accepted (sent w1) request Hgood) as (r & Hr & Hacc).
  rewrite Hr. destruct (accepted_firstVector _ _ Hacc) as (v & Hv & Hfield).
  rewrite Hv. simpl.
  exists v, r. eexists. split; [reflexivity|].
  assert (Hsent1 : sent w1 =
            (sent w ++ (if needsProbe c
                        then [textRequest preprocessText (self w) "test"] else []))%list).
  { unfold sent. rewrite Hlog1, map_app, exchangesFor_requests. reflexivity. }
  stable_now. simpl. split; [|split].
  - rewrite exchangesFor_app. cbn [exchangesFor].
    rewrite <- Hsent1, Hr, Hlog1, <- app_assoc. reflexivity.
  - apply last_snoc.
  - exact Hfield.
Qed.

End Run.

End RunFacts.

(** ** The embedding client with any provider *)

Module AnyFacts.
Import OpenAIEmbedding EmbeddingSpec.

#[local] Arguments JsObject.lookup : simpl never.

Section Any.

Variable preprocessText : option Z -> string -> string.
Variable preprocessTexts : option Z -> list string -> list string.
Variable provider : Provider.

(** What the shared lines at the start of [embed] and [embedBatch] do,
    whatever the provider answers. *)
Lemma refreshDimension_any (w : world) :
  let c := config (self w) in
  let probe := textRequest preprocessText (self w) "test" in
  let r := refreshDimension preprocessText provider (modelOf c) w in
  config (self (snd r)) = c
  /\ maxTokens (self (snd r)) = maxTokens (self w)
  /\ log (snd r)
     = (log w ++ if needsProbe c then [(probe, provider (sent w) probe)] else [])%list
  /\ fst r
     = (if needsProbe c
        then match probeOutcome preprocessText provider w "test" with
             | Ok _ => Ok tt
             | Throw e => Throw e
             end
        else Ok tt)
  /\ (forall e, fst r = Throw e -> dimension (self (snd r)) = dimension (self w)).
Proof.
  intros c probe r. unfold r, refreshDimension, bind, getSelf. cbv beta iota.
  unfold needsProbe. fold c.
  destruct (JsObject.lookup (modelOf c) getSupportedModels) as [info| |] eqn:Hknown.
  - destruct (truthy_number (Config.dimensions c));
      destruct (differs (dimension (self w)) (Some (ModelInfo.dimension info))); simpl;
      rewrite app_nil_r; repeat split; intros e He; discriminate He.
  - destruct (truthy_number (Config.dimensions c));
      destruct (differs (dimension (self w)) None); simpl;
      rewrite app_nil_r; repeat split; intros e He; discriminate He.
  - rewrite DetectionFacts.detectDimension_run. fold c. rewrite Hknown.
    destruct (truthy_number (Config.dimensions c)) as [d|].
    + simpl. rewrite app_nil_r. repeat split. intros e He. discriminate He.
    + destruct (probeOutcome preprocessText provider w "test") as [d|e]; simpl;
        repeat split. intros e He. discriminate He.
Qed.

(** [embed], whatever the provider answers. *)
Lemma embed_any (text : string) (w : world) :
  let c := config (self w) in
  let refreshed := refreshDimension preprocessText provider (modelOf c) w in
  let request := textRequest preprocessText (self w) text in
  let reply := provider (sent (snd refreshed)) request in
  let asked :=
    {| self := self (snd refreshed);
       log := (log (snd refreshed) ++ [(request, reply)])%list |} in
  let failed e := Throw ("Failed to generate OpenAI embedding: " ++ e) in
  embed preprocessText provider text w
  = match fst refreshed with
    | Throw e => (Throw e, snd refreshed)
    | Ok _ =>
        match reply with
        | Throw e => (failed e, asked)
        | Ok response =>
            match firstVector (isAlibaba c) response with
            | Throw e => (failed e, asked)
            | Ok v =>
                (Ok {| EmbeddingVector.vector := Some v;
                       EmbeddingVector.dimension := vector_length v |},
                 {| self := withDimension (Some (vector_length v)) (self (snd refreshed));
                    log := log asked |})
            end
        end
    end.
Proof.
  cbv zeta. unfold embed, bind, getSelf, textRequest. cbv beta iota.
  fold (modelOf (config (self w))).
  destruct (refreshDimension preprocessText provider (modelOf (config (self w))) w)
    as [[u|e] w1]; [|reflexivity].
  unfold try_catch, bind, create, throw. cbv beta iota zeta. simpl.
  destruct (provider (sent w1) _) as [response|e]; [|reflexivity].
  simpl. destruct (firstVector (isAlibaba (config (self w))) response) as [v|e];
    reflexivity.
Qed.

(** What [embedBatch] makes of a response. *)
Lemma batchVectors_any (alibaba : bool) (response : Response) (w : world) :
  match batchVectors alibaba response w with
  | (Ok rs, w') =>
      exists v,
        firstVector alibaba response = Ok v
        /\ w' = {| self := withDimension (Some (vector_length v)) (self w); log := log w |}
        /\ rs <> []
        /\ length rs = length (data response)
        /\ Forall (fun e => EmbeddingVector.dimension e = vector_length v) rs
  | (Throw e, w') => firstVector alibaba response = Throw e /\ w' = w
  end.
Proof.
  unfold batchVectors, firstVector.
  destruct (data response) as [|firstItem items] eqn:Hdata; [split; reflexivity|].
  assert (Hitems : forall useVector d,
            itemVectors useVector d (firstItem :: items) <> []
            /\ length (itemVectors useVector d (firstItem :: items))
               = length (firstItem :: items)
            /\ Forall (fun e => EmbeddingVector.dimension e = d)
                 (itemVectors useVector d (firstItem :: items))).
  { intros useVector d. unfold itemVectors. split; [discriminate|].
    split; [apply length_map|]. apply List.Forall_map. apply List.Forall_forall.
    intros item _. reflexivity. }
  destruct (if alibaba then Item.vector firstItem else None) as [v|];
    [|destruct (Item.embedding firstItem) as [v|]; [|split; reflexivity]];
    unfold bind, setDimension, ret; simpl; exists v;
    (split; [reflexivity|]); (split; [reflexivity|]);
    first [exact (Hitems true (vector_length v))|exact (Hitems false (vector_length v))].
Qed.

(** One batch request of [embedBatch], whatever the provider answers. *)
Lemma embedBatchRequest_any (texts : list string) (w : world) :
  let c := config (self w) in
  let refreshed := refreshDimension preprocessText provider (modelOf c) w in
  let request := batchRequest preprocessTexts (self w) texts in
  let reply := provider (sent (snd refreshed)) request in
  let asked :=
    {| self := self (snd refreshed);
       log := (log (snd refreshed) ++ [(request, reply)])%list |} in
  let failed e := Throw ("Failed to generate OpenAI batch embeddings: " ++ e) in
  embedBatchRequest preprocessText preprocessTexts provider texts w
  = match fst refreshed with
    | Throw e => (Throw e, snd refreshed)
    | Ok _ =>
        match reply with
        | Throw e => (failed e, asked)
        | Ok response =>
            match batchVectors (isAlibaba c) response asked with
            | (Ok rs, w') => (Ok rs, w')
            | (Throw e, w') => (failed e, w')
            end
        end
    end.
Proof.
  cbv zeta. unfold embedBatchRequest, bind, getSelf, batchRequest. cbv beta iota.
  fold (modelOf (config (self w))).
  destruct (refreshDimension preprocessText provider (modelOf (config (self w))) w)
    as [[u|e] w1]; [|reflexivity].
  unfold try_catch, bind, create, throw. cbv beta iota zeta. simpl.
  destruct (provider (sent w1) _) as [response|e]; [|reflexivity].
  simpl. destruct (batchVectors _ response _) as [[rs|e] w']; reflexivity.
Qed.

End Any.

Lemma catalog_model_name (model : string) (info : ModelInfo.t) :
  JsObject.get model getSupportedModels = Some info ->
  or_string model default_model = model.
Proof. destruct model; [vm_compute; discriminate|reflexivity]. Qed.

Lemma default_model_dimension :
  JsObject.get default_model getSupportedModels
  = Some {| ModelInfo.dimension := 1536; ModelInfo.contextLength := 8192;
            ModelInfo.description :=
              "High performance and cost-effective embedding model (recommended)" |}.
Proof. reflexivity. Qed.

End AnyFacts.
(** ** The embedding client: response shapes *)

Module ShapeFacts.
Import OpenAIEmbedding EmbeddingSpec BatchFacts RunFacts.

Lemma well_formed_read c r :
  well_formed (responseShape c) r -> fieldRead (isAlibaba c) r = responseShape c.
Proof.
  unfold well_formed, responseShape, fieldRead.
  destruct (data r) as [|firstItem rest]; intros [Hne Hall]; [contradiction|].
  pose proof (Forall_inv Hall) as Hfirst.
  destruct (isAlibaba c); [|reflexivity].
  destruct Hfirst as [v Hv]. simpl in Hv. rewrite Hv. reflexivity.
Qed.

Lemma well_formed_accepted c r :
  well_formed (responseShape c) r -> accepted (isAlibaba c) r.
Proof.
  intros Hwf. unfold accepted. rewrite (well_formed_read c r Hwf). exact Hwf.
Qed.

(** A response that is taken is read under the field of its shape. *)
Lemma taken_read c s r : taken c s r -> fieldRead (isAlibaba c) r = s.
Proof.
  intros [Hwf [-> | (-> & firstItem & Hhead & Hvector)]].
  - apply well_formed_read, Hwf.
  - unfold fieldRead. destruct (data r) as [|x rest]; [reflexivity|].
    injection Hhead as ->. rewrite Hvector. destruct (isAlibaba c); reflexivity.
Qed.

Lemma taken_accepted c s r : taken c s r -> accepted (isAlibaba c) r.
Proof.
  intros Htaken. unfold accepted. rewrite (taken_read c s r Htaken).
  exact (proj1 Htaken).
Qed.

Lemma replyVectors_taken provider c s requests :
  forall history,
    (forall h request, request ∈ requests ->
       exists r, provider h request = Ok r /\ taken c s r) ->
    flat_map (replyVectors (fieldRead (isAlibaba c)))
      (exchangesFor provider history requests)
    = flat_map (replyVectors (fun _ => s))
        (exchangesFor provider history requests)
    /\ Forall is_Some
         (flat_map (replyVectors (fun _ => s))
            (exchangesFor provider history requests)).
Proof.
  induction requests as [|request rest IH]; intros history Hwf.
  - split; [reflexivity | constructor].
  - destruct (Hwf history request) as (r & Hr & Hr'); [left|].
    destruct (IH (history ++ [request])%list) as [Hsame Hall].
    { intros h q Hq. apply Hwf. right. exact Hq. }
    cbn [exchangesFor flat_map]. rewrite Hsame, Hr. split.
    + f_equal. unfold replyVectors. simpl.
      destruct (Request.input request); [reflexivity|].
      rewrite (taken_read c s r Hr'). reflexivity.
    + apply Forall_app. split; [|exact Hall].
      unfold replyVectors. simpl.
      destruct (Request.input request); [constructor|].
      apply Forall_map. exact (proj2 (proj1 Hr')).
Qed.

Lemma newExchanges_app w w' more :
  log w' = (log w ++ more)%list -> newExchanges w w' = more.
Proof.
  intros Hlog. unfold newExchanges. rewrite Hlog. apply drop_app_length.
Qed.

(** A client of an endpoint other than DashScope finds no vector in a
    response that carries [vector] only. *)
Lemma vector_only_refused r :
  vector_only r -> firstVector false r = Throw (unexpected_format false).
Proof.
  intros [[Hne _] (firstItem & Hhead & Hnone)]. unfold firstVector.
  destruct (data r) as [|x rest]; [contradiction|].
  injection Hhead as ->. rewrite Hnone. reflexivity.
Qed.

(** C4, counterexample.  The OpenAI client [Samples.openaiSmall] gets a
    well-formed response of the Alibaba shape, one item that carries its
    vector under [vector], and [embed] throws. *)
Lemma vector_items_refused_by_openai_client :
  ~ shapes_never_fail Samples.prepare (Samples.embedder true)
      (Samples.start Samples.openaiSmall) "hello".
Proof.
  intros Hclaim. destruct (Hclaim AlibabaShape) as (result & w' & Hrun).
  - intros history request Hin. vm_compute in Hin.
    apply list_elem_of_In in Hin. destruct Hin as [<- | []].
    eexists. split; [reflexivity|].
    split; [discriminate | repeat constructor; eexists; reflexivity].
  - vm_compute in Hrun. discriminate Hrun.
Qed.

(** C4, amended.  The client has no [responseShape] option: the field it
    reads follows from the base URL and from the first item of the
    response, [vector] for a DashScope base URL when the first item has it
    and [embedding] otherwise.  When the answers to the requests of a call
    are well-formed responses of the shape that the base URL selects, or
    well-formed responses of the OpenAI shape whose first item has no
    [vector], the call succeeds: it sends exactly its planned requests,
    [embed] returns the vector of the first item of the answer to its
    request, and [embedBatch] (the fuel allowing one level of recursion)
    returns the vectors of the items of the answers to its batch requests,
    in order, none of them missing.  But a client of an endpoint other than
    DashScope refuses the Alibaba shape: when the answers are well-formed
    responses of that shape whose first item has no [embedding], [embed]
    and [embedBatch] throw the unexpected-format error. *)
Theorem response_shape_follows_base_url
    (preprocessText : option Z -> string -> string)
    (preprocessTexts : option Z -> list string -> list string)
    (provider : Provider) (w : world) :
  let c := config (self w) in
  (forall s text,
      (forall history request,
          request ∈ embedRequests preprocessText (self w) text ->
          exists r, provider history request = Ok r /\ taken c s r) ->
      exists v r w',
        embed preprocessText provider text w
        = (Ok {| EmbeddingVector.vector := Some v;
                 EmbeddingVector.dimension := vector_length v |}, w')
        /\ newExchanges w w'
           = exchangesFor provider (sent w) (embedRequests preprocessText (self w) text)
        /\ list.last (log w') = Some (textRequest preprocessText (self w) text, Ok r)
        /\ field s <$> head (data r) = Some (Some v))
  /\
  (forall s fuel texts,
      (2 <= fuel)%nat ->
      (forall history request,
          request ∈ plannedRequests preprocessText preprocessTexts (self w) texts ->
          exists r, provider history request = Ok r /\ taken c s r) ->
      exists rs w',
        embedBatch preprocessText preprocessTexts provider fuel texts w = Some (Ok rs, w')
        /\ newExchanges w w'
           = exchangesFor provider (sent w)
               (plannedRequests preprocessText preprocessTexts (self w) texts)
        /\ map EmbeddingVector.vector rs
           = flat_map (replyVectors (fun _ => s)) (newExchanges w w')
        /\ Forall (fun e => is_Some (EmbeddingVector.vector e)) rs)
  /\
  (isAlibaba c = false ->
   (forall text,
       (forall history request,
           request ∈ embedRequests preprocessText (self w) text ->
           exists r, provider history request = Ok r /\ vector_only r) ->
       exists w',
         embed preprocessText provider text w
         = (Throw (refusal c "Failed to generate OpenAI embedding: "), w'))
   /\
   (forall fuel texts,
       (forall history request,
           request ∈ plannedRequests preprocessText preprocessTexts (self w) texts ->
           exists r, provider history request = Ok r /\ vector_only r) ->
       exists w',
         embedBatch preprocessText preprocessTexts provider (S fuel) texts w
         = Some (Throw (refusal c "Failed to generate OpenAI batch embeddings: "), w'))).
Proof.
  intros c.
  assert (Hst : stable c (maxTokens (self w)) w) by (split; reflexivity).
  assert (Hfirst : forall b rest, batches c b = rest -> exists x l, rest = x :: l).
  { intros texts rest <-. unfold batches.
    destruct (providerBatchCeiling c) as [n|]; [|eauto].
    destruct (Nat.ltb_spec n (length texts)); [|eauto].
    destruct texts as [|t texts']; [simpl in *; lia|].
    unfold chunksOf. simpl. eauto. }
  split; [|split].
  - intros s text Hwf.
    destruct (embed_run preprocessText provider c
                (fun request => request ∈ embedRequests preprocessText (self w) text)
                (fun h q Hq =>
                   match Hwf h q Hq with
                   | ex_intro _ r (conj Hr Hr') =>
                       ex_intro _ r (conj Hr (taken_accepted c s r Hr'))
                   end)
                (maxTokens (self w)) text w Hst)
      as (v & r & w' & Hrun & _ & Hlog & Hlast & Hfield).
    + intros Hp. unfold embedRequests. fold c. rewrite Hp. left.
    + unfold embedRequests. apply elem_of_app. right. left.
    + exists v, r, w'. split; [exact Hrun|].
      split; [exact (newExchanges_app w w' _ Hlog)|]. split; [exact Hlast|].
      pose proof Hlast as Hreply.
      rewrite Hlog, exchangesFor_app in Hreply. cbn [exchangesFor] in Hreply.
      rewrite app_assoc, list.last_snoc in Hreply. injection Hreply as Hreply.
      destruct (Hwf (sent w ++ (if needsProbe c
                                then [textRequest preprocessText (self w) "test"]
                                else []))%list
                    (textRequest preprocessText (self w) text))
        as (r0 & Hr0 & Hwf0).
      { unfold embedRequests. apply elem_of_app. right. left. }
      rewrite Hr0 in Hreply. injection Hreply as ->.
      rewrite <- (taken_read c s r Hwf0). exact Hfield.
  - intros s fuel texts Hfuel Hwf.
    destruct (embedBatch_run preprocessText preprocessTexts provider c
                (fun request =>
                   request ∈ plannedRequests preprocessText preprocessTexts (self w) texts)
                (fun h q Hq =>
                   match Hwf h q Hq with
                   | ex_intro _ r (conj Hr Hr') =>
                       ex_intro _ r (conj Hr (taken_accepted c s r Hr'))
                   end)
                (maxTokens (self w)) fuel texts w Hfuel Hst)
      as (rs & w' & Hrun & _ & Hlog & Hvec).
    + intros Hp. unfold plannedRequests. fold c.
      destruct (Hfirst texts _ eq_refl) as (b & rest & ->). cbn [flat_map].
      unfold requestsOfBatch. fold c. rewrite Hp. left.
    + intros b Hb. unfold plannedRequests. fold c.
      apply list_elem_of_In, in_flat_map. exists b.
      split; [apply list_elem_of_In; exact Hb|].
      apply list_elem_of_In. unfold requestsOfBatch. apply elem_of_app. right. left.
    + destruct (replyVectors_taken provider c s
                  (plannedRequests preprocessText preprocessTexts (self w) texts)
                  (sent w) Hwf) as [Hsame Hall].
      exists rs, w'. split; [exact Hrun|].
      split; [exact (newExchanges_app w w' _ Hlog)|].
      rewrite (newExchanges_app w w' _ Hlog), Hvec, Hsame.
      split; [reflexivity|].
      rewrite <- Hsame, <- Hvec in Hall.
      exact (proj1 (List.Forall_map EmbeddingVector.vector is_Some rs) Hall).
  - intros Halibaba.
    destruct (AnyFacts.refreshDimension_any preprocessText provider w)
      as (_ & _ & _ & Hfst & _).
    fold c in Hfst.
    assert (Hrefresh :
      forall requests : list Request.t,
        (forall history request,
            request ∈ ((if needsProbe c
                        then [textRequest preprocessText (self w) "test"] else [])
                       ++ requests)%list ->
            exists r, provider history request = Ok r /\ vector_only r) ->
        fst (refreshDimension preprocessText provider (modelOf c) w)
        = if needsProbe c
          then Throw ("Failed to detect dimension for model " ++ modelOf c ++ ": "
                      ++ unexpected_format false)
          else Ok tt).
    { intros requests Hwf. rewrite Hfst.
      destruct (needsProbe c) eqn:Hp; [|reflexivity].
      unfold probeOutcome. fold c.
      destruct (Hwf (sent w) (textRequest preprocessText (self w) "test"))
        as (r & Hr & Hr'); [left|].
      rewrite Hr, Halibaba, (vector_only_refused r Hr'). reflexivity. }
    split.
    + intros text Hwf. rewrite AnyFacts.embed_any. fold c.
      specialize (Hrefresh [textRequest preprocessText (self w) text] Hwf).
      unfold refusal. rewrite Halibaba.
      destruct (refreshDimension preprocessText provider (modelOf c) w) as [o w1].
      simpl in *. rewrite Hrefresh.
      destruct (needsProbe c); [eexists; reflexivity|].
      destruct (Hwf (sent w1) (textRequest preprocessText (self w) text))
        as (r & Hr & Hr'); [apply elem_of_app; right; left|].
      rewrite Hr, (vector_only_refused r Hr'). eexists. reflexivity.
    + intros fuel texts Hwf. cbn [embedBatch]. fold c.
      rewrite Halibaba, Nat.ltb_irrefl.
      assert (Hplan : plannedRequests preprocessText preprocessTexts (self w) texts
                      = ((if needsProbe c
                          then [textRequest preprocessText (self w) "test"] else [])
                         ++ [batchRequest preprocessTexts (self w) texts])%list).
      { unfold plannedRequests, batches, providerBatchCeiling. fold c.
        rewrite Halibaba. cbn [flat_map]. rewrite app_nil_r. reflexivity. }
      rewrite Hplan in Hwf.
      rewrite AnyFacts.embedBatchRequest_any. fold c.
      specialize (Hrefresh [batchRequest preprocessTexts (self w) texts] Hwf).
      unfold refusal. rewrite Halibaba.
      destruct (refreshDimension preprocessText provider (modelOf c) w) as [o w1].
      simpl in *. rewrite Hrefresh.
      destruct (needsProbe c); [eexists; reflexivity|].
      destruct (Hwf (sent w1) (batchRequest preprocessTexts (self w) texts))
        as (r & Hr & Hr'); [apply elem_of_app; right; left|].
      rewrite Hr.
      match goal with
      | |- context [batchVectors ?a ?x ?y] =>
          pose proof (AnyFacts.batchVectors_any a x y) as Hbatch;
          destruct (batchVectors a x y) as [[rs0|e] w2]
      end.
      * destruct Hbatch as (v & Hv & _).
        rewrite (vector_only_refused r Hr') in Hv. discriminate Hv.
      * destruct Hbatch as [Hv _].
        rewrite (vector_only_refused r Hr') in Hv. injection Hv as <-.
        eexists. reflexivity.
Qed.

End ShapeFacts.

(** ** The embedding client: the batch ceiling *)

Module SplitFacts.
Import OpenAIEmbedding EmbeddingSpec BatchFacts RunFacts ShapeFacts.

(** C4 at sample clients: an OpenAI client reading [embedding] items, a
    DashScope client reading [vector] items, and an OpenAI client refusing
    [vector] items. *)
Lemma response_shape_follows_base_url_witness :
  (exists w',
     embed Samples.prepare (Samples.embedder false) "hello"
       (Samples.start Samples.openaiSmall)
     = (Ok {| EmbeddingVector.vector := Some (Samples.vectorOf "hello");
              EmbeddingVector.dimension := 4 |}, w'))
  /\
  (exists rs w',
     embedBatch Samples.prepare Samples.prepareAll (Samples.embedder true) 2
       (Samples.texts 3) (Samples.start Samples.dashscopeV4)
     = Some (Ok rs, w')
     /\ Forall (fun e => is_Some (EmbeddingVector.vector e)) rs)
  /\
  (exists w',
     embed Samples.prepare (Samples.embedder true) "hello"
       (Samples.start Samples.openaiSmall)
     = (Throw "Failed to generate OpenAI embedding: Unexpected embedding response format: expected embedding field", w')).
Proof.
  split; [|split].
  - destruct (response_shape_follows_base_url Samples.prepare Samples.prepareAll
                (Samples.embedder false) (Samples.start Samples.openaiSmall))
      as (Hembed & _ & _).
    destruct (Hembed OpenAIShape "hello") as (v & r & w' & Hrun & _ & _).
    + intros history request Hin. vm_compute in Hin.
      apply list_elem_of_In in Hin. destruct Hin as [<- | []].
      eexists. split; [reflexivity|]. split; [|left; reflexivity].
      split; [discriminate | repeat constructor; eexists; reflexivity].
    + exists w'. rewrite Hrun. vm_compute in Hrun. injection Hrun as <- _.
      reflexivity.
  - destruct (response_shape_follows_base_url Samples.prepare Samples.prepareAll
                (Samples.embedder true) (Samples.start Samples.dashscopeV4))
      as (_ & Hbatch & _).
    destruct (Hbatch AlibabaShape 2%nat (Samples.texts 3))
      as (rs & w' & Hrun & _ & _ & Hall).
    + lia.
    + intros history request Hin. vm_compute in Hin.
      apply list_elem_of_In in Hin. destruct Hin as [<- | []].
      eexists. split; [reflexivity|]. split; [|left; reflexivity].
      split; [discriminate | repeat constructor; eexists; reflexivity].
    + exists rs, w'. split; [exact Hrun | exact Hall].
  - destruct (response_shape_follows_base_url Samples.prepare Samples.prepareAll
                (Samples.embedder true) (Samples.start Samples.openaiSmall))
      as (_ & _ & Hrefused).
    destruct (Hrefused eq_refl) as [Hembed _].
    destruct (Hembed "hello") as (w' & Hrun).
    + intros history request Hin. vm_compute in Hin.
      apply list_elem_of_In in Hin. destruct Hin as [<- | []].
      eexists. split; [reflexivity|]. split.
      * split; [discriminate | repeat constructor; eexists; reflexivity].
      * eexists. split; reflexivity.
    + exists w'. rewrite Hrun. reflexivity.
Defined.

(** The selection is by configuration only in one direction: a DashScope
    client also takes items that carry [embedding], while a client of any
    other endpoint refuses items that only carry [vector]. *)
Example dashscope_client_falls_back_to_embedding :
  fst (embed Samples.prepare (Samples.embedder false) "hello"
         (Samples.start Samples.dashscopeV4))
  = Ok {| EmbeddingVector.vector := Some (Samples.vectorOf "hello");
          EmbeddingVector.dimension := 4 |}.
Proof. vm_compute. reflexivity. Qed.

Example openai_client_refuses_vector_items :
  fst (embed Samples.prepare (Samples.embedder true) "hello"
         (Samples.start Samples.openaiSmall))
  = Throw "Failed to generate OpenAI embedding: Unexpected embedding response format: expected embedding field".
Proof. vm_compute. reflexivity. Qed.

(** A model name that is a member of [Object.prototype] passes for a
    known model: no probe is sent, and the dimension of the instance is
    [undefined] until a vector comes back. *)
Example inherited_model_name_is_not_probed :
  dimension (new Samples.openaiConstructor) = None
  /\ maxTokens (new Samples.openaiConstructor) = None
  /\ fst (detectDimension Samples.prepare (Samples.embedder false) "test"
            (Samples.start Samples.openaiConstructor)) = Ok None
  /\ map Request.size
       (sent (snd (embed Samples.prepare (Samples.embedder false) "hello"
                     (Samples.start Samples.openaiConstructor)))) = [1%nat].
Proof. vm_compute. repeat split. Qed.

(** C3, counterexample.  A DashScope client with a model name that finds
    nothing in the catalog and no custom dimension sends two requests for
    ten texts: a probe for the dimension, then the batch. *)
Lemma embedBatch_probes_before_batch :
  ~ embedBatch_splits Samples.prepare Samples.prepareAll (Samples.embedder false)
      (Samples.start Samples.dashscopeCustom) (Samples.texts 10).
Proof.
  intros (rs & w' & Hrun & Hsizes & _).
  vm_compute in Hrun. injection Hrun as <- <-.
  vm_compute in Hsizes. discriminate Hsizes.
Qed.

Lemma answers_reply s vectorOf (texts : list string) :
  let r := {| data := map (fun text => item s (vectorOf text)) texts |} in
  map (field (fieldRead true r)) (data r) = map (fun text => Some (vectorOf text)) texts.
Proof.
  destruct texts as [|t texts]; [reflexivity|].
  destruct s; unfold fieldRead; simpl; f_equal;
    rewrite map_map; apply map_ext; reflexivity.
Qed.

Lemma answers_accepted s vectorOf (texts : list string) :
  texts <> [] ->
  accepted true {| data := map (fun text => item s (vectorOf text)) texts |}.
Proof.
  intros Hne. destruct texts as [|t texts]; [contradiction|].
  unfold accepted, well_formed. split; [discriminate|].
  assert (Hread : fieldRead true
                    {| data := map (fun text => item s (vectorOf text)) (t :: texts) |}
                  = s) by (destruct s; reflexivity).
  rewrite Hread. cbn [data].
  apply (proj2 (List.Forall_map _ _ _)), List.Forall_forall. intros x _.
  destruct s; simpl; eauto.
Qed.

Section Honest.

Variable preprocessText : option Z -> string -> string.
Variable preprocessTexts : option Z -> list string -> list string.
Variable provider : Provider.
Variable s : Shape.
Variable vectorOf : string -> list float.
Variable e : t.

Hypothesis honest : answersWith s vectorOf provider.
Hypothesis mapped :
  forall texts,
    preprocessTexts (maxTokens e) texts = map (preprocessText (maxTokens e)) texts.

Lemma honest_vectors (chunks : list (list string)) :
  forall history,
    flat_map (replyVectors (fieldRead true))
      (exchangesFor provider history
         (flat_map (requestsOfBatch preprocessText preprocessTexts e) chunks))
    = map (fun text => Some (vectorOf (preprocessText (maxTokens e) text)))
        (concat chunks).
Proof.
  induction chunks as [|b chunks IH]; intros history; [reflexivity|].
  cbn [flat_map concat]. rewrite exchangesFor_app, flat_map_app, IH, map_app.
  f_equal. unfold requestsOfBatch. rewrite exchangesFor_app, flat_map_app.
  assert (Hprobe : flat_map (replyVectors (fieldRead true))
                     (exchangesFor provider history
                        (if needsProbe (config e)
                         then [textRequest preprocessText e "test"] else [])) = []).
  { destruct (needsProbe (config e)); reflexivity. }
  rewrite Hprobe. cbn [exchangesFor flat_map]. rewrite app_nil_r, honest.
  unfold replyVectors, batchRequest, inputs. simpl.
  rewrite answers_reply, mapped, map_map. reflexivity.
Qed.

Lemma honest_sizes (chunks : list (list string)) :
  map Request.size (flat_map (requestsOfBatch preprocessText preprocessTexts e) chunks)
  = if needsProbe (config e)
    then flat_map (fun n => [1%nat; n]) (map length chunks)
    else map length chunks.
Proof.
  assert (Hsize : forall b,
             Request.size (batchRequest preprocessTexts e b) = length b).
  { intros b. unfold Request.size, batchRequest. simpl.
    rewrite mapped, length_map. reflexivity. }
  unfold requestsOfBatch.
  induction chunks as [|b chunks IH]; [destruct (needsProbe (config e)); reflexivity|].
  cbn [flat_map map]. rewrite map_app, IH.
  destruct (needsProbe (config e)); simpl; rewrite Hsize; reflexivity.
Qed.

End Honest.

(** C3, amended.  Take a client with the batch ceiling (a DashScope base
    URL, ceiling 10), a provider that answers every request with one vector
    per text in the order of the texts, under either field, and a text
    preparation that works text by text.  For a non-empty list of texts
    [embedBatch] (the fuel allowing one level of recursion) succeeds; the
    result has one vector per text, the vector of the prepared text, in
    input order; and the batch requests carry the consecutive pieces of at
    most 10 texts, so their sizes are 10, ..., 10 and the rest.  These are
    all the requests when a custom dimension is configured or the model
    name finds something in the catalog, be it an entry or, for a name such
    as [toString] or [constructor], a member of [Object.prototype];
    otherwise, that is when no non-zero [dimensions] value is configured and
    the model name is neither a catalog model nor such a member, every
    batch request is preceded by one probe request for a single text.  In
    particular 10 texts make one batch, 11 make two, and 23 make three of
    sizes 10, 10 and 3. *)
Theorem embedBatch_splits_at_ceiling
    (preprocessText : option Z -> string -> string)
    (preprocessTexts : option Z -> list string -> list string)
    (provider : Provider) (s : Shape) (vectorOf : string -> list float)
    (w : world) (texts : list string) (fuel : nat) :
  let c := config (self w) in
  let limit := maxTokens (self w) in
  providerBatchCeiling c = Some 10%nat ->
  answersWith s vectorOf provider ->
  (forall ts, preprocessTexts limit ts = map (preprocessText limit) ts) ->
  texts <> [] ->
  (2 <= fuel)%nat ->
  exists rs w',
    embedBatch preprocessText preprocessTexts provider fuel texts w = Some (Ok rs, w')
    /\ map EmbeddingVector.vector rs
       = map (fun text => Some (vectorOf (preprocessText limit text))) texts
    /\ length rs = length texts
    /\ newRequests w w'
       = flat_map (requestsOfBatch preprocessText preprocessTexts (self w))
           (chunksOf 10 texts)
    /\ map Request.size (newRequests w w')
       = (if needsProbe c
          then flat_map (fun n => [1%nat; n]) (batchSizes 10 (length texts))
          else batchSizes 10 (length texts))
    /\ (needsProbe c = true <->
        truthy_number (Config.dimensions c) = None
        /\ JsObject.get (modelOf c) getSupportedModels = None
        /\ JsObject.inherited (modelOf c) = false)
    /\ batchSizes 10 10 = [10%nat]
    /\ batchSizes 10 11 = [10%nat; 1%nat]
    /\ batchSizes 10 23 = [10%nat; 10%nat; 3%nat].
Proof.
  intros c limit Hceiling Hhonest Hmapped Hne Hfuel.
  assert (Halibaba : isAlibaba c = true).
  { unfold providerBatchCeiling in Hceiling.
    destruct (isAlibaba c); [reflexivity | discriminate]. }
  assert (Hst : stable c limit w) by (split; reflexivity).
  assert (Hbatches : batches c texts = chunksOf 10 texts).
  { unfold batches. rewrite Hceiling.
    destruct (Nat.ltb_spec 10 (length texts)) as [Hlong|Hshort]; [reflexivity|].
    rewrite chunksOf_cons by (lia || exact Hne).
    rewrite take_ge, drop_ge by exact Hshort. reflexivity. }
  destruct (embedBatch_run preprocessText preprocessTexts provider c
              (fun request => inputs request <> [])
              (fun h q Hq =>
                 ex_intro _ _ (conj (Hhonest h q)
                                 (eq_ind_r (fun a => accepted a _)
                                    (answers_accepted s vectorOf (inputs q) Hq)
                                    Halibaba)))
              limit fuel texts w Hfuel Hst)
    as (rs & w' & Hrun & _ & Hlog & Hvec).
  - intros _. discriminate.
  - intros b Hb. rewrite Hbatches in Hb.
    pose proof (chunksOf_nonempty 10 texts ltac:(lia) b Hb) as Hb'.
    unfold inputs, batchRequest. simpl. fold limit. rewrite Hmapped.
    destruct b; [contradiction | discriminate].
  - unfold plannedRequests in Hlog, Hvec. fold c in Hlog, Hvec.
    rewrite Hbatches in Hlog, Hvec. rewrite Halibaba in Hvec.
    rewrite (honest_vectors preprocessText preprocessTexts provider s vectorOf
               (self w) Hhonest Hmapped) in Hvec.
    rewrite concat_chunksOf in Hvec by lia.
    assert (Hnew : newRequests w w'
                   = flat_map (requestsOfBatch preprocessText preprocessTexts (self w))
                       (chunksOf 10 texts)).
    { unfold newRequests. rewrite (newExchanges_app w w' _ Hlog).
      apply exchangesFor_requests. }
    exists rs, w'. split; [exact Hrun|]. split; [exact Hvec|]. split.
    { apply (f_equal length) in Hvec. rewrite !length_map in Hvec. exact Hvec. }
    split; [exact Hnew|]. split.
    { rewrite Hnew.
      rewrite (honest_sizes preprocessText preprocessTexts (self w) Hmapped).
      rewrite length_chunksOf by lia. reflexivity. }
    split; [|repeat split].
    unfold needsProbe. rewrite <- JsObjectFacts.lookup_Nothing.
    destruct (truthy_number (Config.dimensions c));
      destruct (JsObject.lookup (modelOf c) getSupportedModels);
      split; try intros (? & ?); try intros ?; try split; congruence.
Qed.

Lemma embedBatch_splits_at_ceiling_witness :
  (exists rs w',
     embedBatch Samples.prepare Samples.prepareAll (Samples.embedder true) 2
       (Samples.texts 23) (Samples.start Samples.dashscopeV4) = Some (Ok rs, w')
     /\ map EmbeddingVector.vector rs
        = map (fun text => Some (Samples.vectorOf text)) (Samples.texts 23)
     /\ map Request.size (newRequests (Samples.start Samples.dashscopeV4) w')
        = [10%nat; 10%nat; 3%nat])
  /\
  (exists rs w',
     embedBatch Samples.prepare Samples.prepareAll (Samples.embedder true) 2
       (Samples.texts 23) (Samples.start Samples.dashscopeToString) = Some (Ok rs, w')
     /\ map Request.size (newRequests (Samples.start Samples.dashscopeToString) w')
        = [10%nat; 10%nat; 3%nat])
  /\
  (exists rs w',
     embedBatch Samples.prepare Samples.prepareAll (Samples.embedder true) 2
       (Samples.texts 23) (Samples.start Samples.dashscopeCustom) = Some (Ok rs, w')
     /\ map Request.size (newRequests (Samples.start Samples.dashscopeCustom) w')
        = [1%nat; 10%nat; 1%nat; 10%nat; 1%nat; 3%nat]).
Proof.
  assert (Hhonest : answersWith AlibabaShape Samples.vectorOf (Samples.embedder true)).
  { intros history request. unfold Samples.embedder, inputs.
    destruct (Request.input request); reflexivity. }
  split; [|split].
  2: { destruct (embedBatch_splits_at_ceiling Samples.prepare Samples.prepareAll
                   (Samples.embedder true) AlibabaShape Samples.vectorOf
                   (Samples.start Samples.dashscopeToString) (Samples.texts 23) 2)
         as (rs & w' & Hrun & _ & _ & _ & Hsizes & _);
         [reflexivity | exact Hhonest | reflexivity | discriminate | lia |].
       exists rs, w'. split; [exact Hrun | exact Hsizes]. }
  2: { destruct (embedBatch_splits_at_ceiling Samples.prepare Samples.prepareAll
                   (Samples.embedder true) AlibabaShape Samples.vectorOf
                   (Samples.start Samples.dashscopeCustom) (Samples.texts 23) 2)
         as (rs & w' & Hrun & _ & _ & _ & Hsizes & _);
         [reflexivity | exact Hhonest | reflexivity | discriminate | lia |].
       exists rs, w'. split; [exact Hrun | exact Hsizes]. }
  destruct (embedBatch_splits_at_ceiling Samples.prepare Samples.prepareAll
              (Samples.embedder true) AlibabaShape Samples.vectorOf
              (Samples.start Samples.dashscopeV4) (Samples.texts 23) 2)
    as (rs & w' & Hrun & Hvec & _ & _ & Hsizes & _).
  - reflexivity.
  - intros history request. unfold Samples.embedder, inputs.
    destruct (Request.input request); reflexivity.
  - intros ts. reflexivity.
  - discriminate.
  - lia.
  - exists rs, w'. split; [exact Hrun|]. split.
    + rewrite Hvec. apply map_ext_in. intros text Hin.
      apply in_map_iff in Hin as (i & <- & _). reflexivity.
    + exact Hsizes.
Defined.

End SplitFacts.

(** ** More about property lists: the keys *)

Module KeysFacts.
Import JsObject JsObjectFacts.

Lemma filter_all {A} (P : A -> Prop) `{forall x, Decision (P x)} (l : list A) :
  Forall P l -> filter P l = l.
Proof.
  induction 1 as [|x l Hx Hl IH]; [reflexivity|].
  rewrite filter_cons_True by exact Hx. rewrite IH. reflexivity.
Qed.

Lemma filter_none {A} (P : A -> Prop) `{forall x, Decision (P x)} (l : list A) :
  Forall (fun x => ~ P x) l -> filter P l = [].
Proof.
  induction 1 as [|x l Hx Hl IH]; [reflexivity|].
  rewrite filter_cons_False by exact Hx. exact IH.
Qed.

Section Keys.
Context {V : Type}.
Implicit Types (o : t V) (k : string) (v : V).

Lemma has_true k o : has k o = true <-> k ∈ keys o.
Proof.
  unfold has. rewrite elem_of_keys.
  destruct (get k o); split; intros H; try reflexivity; try discriminate; eauto.
  destruct H as [x H]. discriminate H.
Qed.

Lemma has_false k o : has k o = false <-> k ∉ keys o.
Proof.
  rewrite <- has_true. destruct (has k o); split; intros H; congruence.
Qed.

Lemma keys_overwrite k v o : keys (overwrite k v o) = keys o.
Proof.
  induction o as [|[k' v'] o IH]; simpl; [reflexivity|].
  destruct (String.eqb k k'); [reflexivity|].
  unfold keys in *. simpl. f_equal. exact IH.
Qed.

Lemma keys_add_index i k v o : keys (add_index i k v o) ≡ₚ k :: keys o.
Proof.
  induction o as [|[k' v'] o IH]; simpl; [reflexivity|].
  destruct (array_index k') as [j|]; [|reflexivity].
  destruct (j <? i)%N; [|reflexivity].
  unfold keys in *. simpl. rewrite IH. apply Permutation_swap.
Qed.

Lemma keys_snoc k v o : keys (o ++ [(k, v)])%list = (keys o ++ [k])%list.
Proof. unfold keys. rewrite map_app. reflexivity. Qed.

(** Assigning to a property keeps the other names and adds the name when
    it is new. *)
Lemma keys_set k v o :
  keys (set k v o) ≡ₚ if has k o then keys o else k :: keys o.
Proof.
  unfold set. destruct (has k o).
  - rewrite keys_overwrite. reflexivity.
  - destruct (array_index k) as [i|].
    + apply keys_add_index.
    + rewrite keys_snoc. symmetry. apply Permutation_cons_append.
Qed.

Lemma elem_of_keys_set k' k v o : k' ∈ keys (set k v o) <-> k' = k \/ k' ∈ keys o.
Proof.
  rewrite keys_set. destruct (has k o) eqn:Hhas.
  - apply has_true in Hhas. split; [auto|]. intros [->|H]; assumption.
  - rewrite elem_of_cons. reflexivity.
Qed.

Lemma NoDup_keys_set k v o : NoDup (keys o) -> NoDup (keys (set k v o)).
Proof.
  intros Hnd. rewrite keys_set. destruct (has k o) eqn:Hhas; [exact Hnd|].
  apply has_false in Hhas. apply NoDup_cons_2; assumption.
Qed.

Lemma length_keys_set k v o :
  length (keys (set k v o)) = (length (keys o) + if has k o then 0 else 1)%nat.
Proof.
  rewrite keys_set. destruct (has k o); simpl; lia.
Qed.

Lemma get_remove_other k k' o : k' <> k -> get k' (remove k o) = get k' o.
Proof.
  intros Hne. induction o as [|[k0 v0] o IH]; simpl; [reflexivity|].
  destruct (String.eqb k k0) eqn:E.
  - apply String.eqb_eq in E. subst k0. rewrite (eqb_other k' k Hne). reflexivity.
  - simpl. rewrite IH. reflexivity.
Qed.

Lemma remove_absent k o : get k o = None -> remove k o = o.
Proof.
  induction o as [|[k0 v0] o IH]; simpl; [reflexivity|].
  destruct (String.eqb k k0); [discriminate|]. intros H. rewrite (IH H). reflexivity.
Qed.

(** [delete] takes the name out of the list and keeps the order of the
    others. *)
Lemma keys_remove k o :
  NoDup (keys o) -> keys (remove k o) = filter (fun k' => k' <> k) (keys o).
Proof.
  induction o as [|[k0 v0] o IH]; simpl; intros Hnd; [reflexivity|].
  pose proof (NoDup_cons_1_1 _ _ Hnd) as Hnotin.
  apply NoDup_cons_1_2 in Hnd.
  destruct (String.eqb k k0) eqn:E.
  - apply String.eqb_eq in E. subst k0.
    rewrite filter_cons_False by (intros H; apply H; reflexivity).
    symmetry. apply filter_all.
    apply list.Forall_forall. intros k' Hin ->. apply Hnotin. exact Hin.
  - apply String.eqb_neq in E.
    rewrite filter_cons_True by (intros H; apply E; symmetry; exact H).
    unfold keys in *. simpl. f_equal. exact (IH Hnd).
Qed.


Lemma NoDup_keys_remove k o : NoDup (keys o) -> NoDup (keys (remove k o)).
Proof.
  intros Hnd. rewrite (keys_remove k o Hnd). apply list.NoDup_filter. exact Hnd.
Qed.

End Keys.

Section Totals.
Import CacheSpec.
Context {V : Type} (measure : V -> Z).
Implicit Types (o : t V) (k : string) (v : V).

Lemma foldl_sum_from (a : Z) (l : list V) :
  foldl (fun sum entry => sum + measure entry) a l
  = a + foldl (fun sum entry => sum + measure entry) 0 l.
Proof.
  revert a. induction l as [|x l IH]; intros a; simpl; [lia|].
  rewrite (IH (a + measure x)), (IH (0 + measure x)). lia.
Qed.

Lemma total_cons k v o : total measure ((k, v) :: o) = measure v + total measure o.
Proof. unfold total. simpl. rewrite foldl_sum_from. lia. Qed.

Lemma total_snoc k v o :
  total measure (o ++ [(k, v)])%list = total measure o + measure v.
Proof.
  unfold total, values. rewrite map_app, foldl_app. reflexivity.
Qed.

Lemma total_overwrite k v o :
  has k o = true ->
  total measure (overwrite k v o) = total measure o - share measure k o + measure v.
Proof.
  unfold has, share. induction o as [|[k' v'] o IH]; simpl; [discriminate|].
  destruct (String.eqb k k') eqn:E; intros H.
  - rewrite !total_cons. lia.
  - rewrite !total_cons, (IH H). lia.
Qed.

Lemma total_add_index i k v o :
  total measure (add_index i k v o) = total measure o + measure v.
Proof.
  induction o as [|[k' v'] o IH]; simpl; [rewrite total_cons; unfold total; simpl; lia|].
  destruct (array_index k') as [j|]; [|rewrite !total_cons; lia].
  destruct (j <? i)%N; rewrite !total_cons; [rewrite IH|]; lia.
Qed.

(** An assignment replaces the share of the property by the measure of
    the new value. *)
Lemma total_set k v o :
  total measure (set k v o) = total measure o - share measure k o + measure v.
Proof.
  unfold set. destruct (has k o) eqn:Hhas.
  - apply total_overwrite. exact Hhas.
  - assert (Hshare : share measure k o = 0).
    { unfold share. unfold has in Hhas. destruct (get k o); [discriminate|reflexivity]. }
    rewrite Hshare. destruct (array_index k) as [i|].
    + rewrite total_add_index. lia.
    + rewrite total_snoc. lia.
Qed.



End Totals.

End KeysFacts.

(** ** The symbol-level cache manager: entries, removal, clearing *)

Module SymbolCacheFacts.
Import JsObject JsObjectFacts KeysFacts HashCacheManager CacheSpec.

Lemma mapping_updateFileHash f m c :
  cache m = Some c ->
  mapping (updateFileHash f m) = set (filePath f) f (files c).
Proof. intros H. unfold mapping, updateFileHash. rewrite H. reflexivity. Qed.

Lemma mapping_removeFile p m : mapping (removeFile p m) = remove p (mapping m).
Proof.
  unfold mapping, removeFile. destruct (cache m) eqn:H; simpl; rewrite ?H; reflexivity.
Qed.

(** What [getFileHash] returns, by the entries of the mapping: without a
    cache the method returns [null] before any lookup. *)
Lemma getFileHash_mapping p m :
  getFileHash p m
  = match get p (mapping m) with
    | Some f => Entry f
    | None =>
        match cache m with
        | Some _ => if inherited p then Member else Nothing
        | None => Nothing
        end
    end.
Proof. unfold getFileHash, mapping, lookup. destruct (cache m); reflexivity. Qed.

Lemma cache_updateFileHash f m : cache (updateFileHash f m) = None <-> cache m = None.
Proof.
  unfold updateFileHash. destruct (cache m) eqn:H; simpl; rewrite ?H;
    split; congruence.
Qed.

Lemma cache_removeFile p m : cache (removeFile p m) = None <-> cache m = None.
Proof.
  unfold removeFile. destruct (cache m) eqn:H; simpl; rewrite ?H;
    split; congruence.
Qed.

(** Two managers that agree on the entry of a path and on holding a cache
    give the same [getFileHash] for it. *)
Lemma getFileHash_same p m m' :
  get p (mapping m') = get p (mapping m) ->
  (cache m' = None <-> cache m = None) ->
  getFileHash p m' = getFileHash p m.
Proof.
  intros Hget Hcache. rewrite !getFileHash_mapping, Hget.
  destruct (get p (mapping m)); [reflexivity|].
  destruct (cache m) eqn:H, (cache m') eqn:H'; try reflexivity.
  - destruct Hcache as [Hc _]. specialize (Hc eq_refl). discriminate.
  - destruct Hcache as [_ Hc]. specialize (Hc eq_refl). discriminate.
Qed.

Lemma getCachedFilePaths_mapping m : getCachedFilePaths m = keys (mapping m).
Proof. unfold getCachedFilePaths, mapping. destruct (cache m); reflexivity. Qed.

(** X1.  [updateFileHash] files the entry under its own [filePath],
    provided that path is not [__proto__] (an assignment to that name
    replaces the prototype of the mapping instead): with a cache in place,
    [getFileHash] of that path then returns the entry, [hasFileChanged] of
    the path and the entry's hash is false, the path is among the cached
    paths, what [getFileHash] returns for the other paths is as before and
    the property names stay distinct. *)
Theorem updateFileHash_then_getFileHash (m : t) (f : FileHash) :
  cache m <> None ->
  filePath f <> "__proto__" ->
  let m' := updateFileHash f m in
  getFileHash (filePath f) m' = Entry f
  /\ hasFileChanged (filePath f) (fileHash f) m' = false
  /\ (forall h, h <> fileHash f -> hasFileChanged (filePath f) h m' = true)
  /\ (forall q, q <> filePath f -> getFileHash q m' = getFileHash q m)
  /\ (forall q, q ∈ getCachedFilePaths m' <-> q = filePath f \/ q ∈ getCachedFilePaths m)
  /\ (distinct_keys (mapping m) -> distinct_keys (mapping m')).
Proof.
  intros Hcache _ m'. destruct (cache m) as [c|] eqn:Hc; [clear Hcache|congruence].
  assert (Hmap : mapping m' = set (filePath f) f (files c))
    by (apply mapping_updateFileHash; exact Hc).
  assert (Hold : mapping m = files c) by (unfold mapping; rewrite Hc; reflexivity).
  assert (Hget : getFileHash (filePath f) m' = Entry f)
    by (rewrite getFileHash_mapping, Hmap, get_set_same; reflexivity).
  split; [exact Hget|].
  split; [unfold hasFileChanged; rewrite Hget, eqb_same; reflexivity|].
  split.
  { intros h Hne. unfold hasFileChanged. rewrite Hget.
    rewrite eqb_other by congruence. reflexivity. }
  split.
  { intros q Hne. apply getFileHash_same; [|apply cache_updateFileHash].
    rewrite Hmap, Hold. apply get_set_other. exact Hne. }
  split.
  { intros q. rewrite !getCachedFilePaths_mapping, Hmap, Hold.
    apply elem_of_keys_set. }
  unfold distinct_keys. rewrite Hmap, Hold. apply NoDup_keys_set.
Qed.

Lemma updateFileHash_then_getFileHash_witness :
  getFileHash "src/a.ts"
    (updateFileHash Fixtures.fileA2 Samples.manager2) = Entry Fixtures.fileA2
  /\ hasFileChanged "src/a.ts" "0a0a0a0a"
       (updateFileHash Fixtures.fileA2 Samples.manager2) = false
  /\ hasFileChanged "src/a.ts" "9f86d081884c7d65"
       (updateFileHash Fixtures.fileA2 Samples.manager2) = true.
Proof.
  assert (Hcache : cache Samples.manager2 <> None) by (simpl; discriminate).
  assert (Hname : filePath Fixtures.fileA2 <> "__proto__") by (simpl; discriminate).
  destruct (updateFileHash_then_getFileHash Samples.manager2 Fixtures.fileA2 Hcache Hname)
    as (Hget & Hsame & Hother & _).
  split; [exact Hget|]. split; [exact Hsame|].
  apply Hother. simpl. discriminate.
Defined.

Lemma removeFile_keeps_the_others (m : t) (p : string) :
  distinct_keys (mapping m) ->
  getCachedFilePaths (removeFile p m) = filter (fun q => q <> p) (getCachedFilePaths m)
  /\ (forall q, q <> p -> getFileHash q (removeFile p m) = getFileHash q m)
  /\ distinct_keys (mapping (removeFile p m)).
Proof.
  intros Hnd. split; [|split].
  - rewrite !getCachedFilePaths_mapping, mapping_removeFile.
    apply keys_remove. exact Hnd.
  - intros q Hne. apply getFileHash_same; [|apply cache_removeFile].
    rewrite mapping_removeFile. apply get_remove_other. exact Hne.
  - unfold distinct_keys. rewrite mapping_removeFile.
    apply NoDup_keys_remove. exact Hnd.
Qed.



Lemma unlink_blocked p d :
  blocked p d ->
  Fs.nodes (snd (Fs.unlinkSync p d)) = Fs.nodes d
  /\ Fs.denied (snd (Fs.unlinkSync p d)) = Fs.denied d.
Proof.
  intros Hb. unfold Fs.unlinkSync.
  destruct (Fs.is_denied p d) eqn:Hden; [split; reflexivity|].
  destruct Hb as [Hb|Hb]; [congruence|].
  destruct (Fs.nodes d !! p) as [[data|]|] eqn:Hnode; simpl; try (split; reflexivity).
  exfalso. exact (Hb data eq_refl).
Qed.

Lemma unlink_journal p d :
  Fs.journal (snd (Fs.unlinkSync p d)) = (Fs.journal d ++ [Fs.SysUnlink p])%list.
Proof.
  unfold Fs.unlinkSync. destruct (Fs.is_denied p d); [reflexivity|].
  destruct (Fs.nodes d !! p) as [[data|]|]; reflexivity.
Qed.

Lemma clear_blocks m d : blocked (cacheFilePath m) (snd (clear m d)).
Proof.
  unfold clear, blocked. simpl. set (p := cacheFilePath m).
  unfold Fs.existsSync. destruct (Fs.nodes d !! p) as [node|] eqn:Hnode.
  - unfold Fs.unlinkSync, Fs.is_denied.
    destruct (bool_decide (p ∈ Fs.denied d)) eqn:Hden; simpl.
    + left. exact Hden.
    + rewrite Hnode. destruct node as [data|]; simpl.
      * right. intros data'. rewrite lookup_delete_eq. discriminate.
      * right. intros data'. rewrite Hnode. discriminate.
  - right. intros data. rewrite Hnode. discriminate.
Qed.

Lemma with_cache_None m : cache m = None -> with_cache None m = m.
Proof. destruct m as [dir file c]. simpl. intros ->. reflexivity. Qed.

Lemma run_snoc calls call s : run (calls ++ [call]) s = step (run calls s) call.
Proof. unfold run. rewrite foldl_app. reflexivity. Qed.

Lemma run_without_cache (calls : list Call) (m : t) (d : Fs.disk) :
  cache m = None -> blocked (cacheFilePath m) d ->
  fst (run calls (m, d)) = m
  /\ Fs.nodes (snd (run calls (m, d))) = Fs.nodes d
  /\ Fs.denied (snd (run calls (m, d))) = Fs.denied d
  /\ exists n,
       Fs.journal (snd (run calls (m, d)))
       = (Fs.journal d ++ replicate n (Fs.SysUnlink (cacheFilePath m)))%list.
Proof.
  intros Hnone Hblocked.
  induction calls as [|call calls IH] using rev_ind.
  { simpl. repeat split. exists 0%nat. simpl. rewrite app_nil_r. reflexivity. }
  rewrite run_snoc.
  destruct IH as (Hm & Hnodes & Hdenied & n & Hjournal).
  destruct (run calls (m, d)) as [m1 d1]. simpl in *. subst m1.
  assert (Hkeep : forall k, exists n',
            (Fs.journal d ++ replicate k (Fs.SysUnlink (cacheFilePath m)))%list
            = (Fs.journal d ++ replicate n' (Fs.SysUnlink (cacheFilePath m)))%list)
    by (intros k; exists k; reflexivity).
  destruct call as [f|p|now|]; simpl.
  - unfold updateFileHash. rewrite Hnone. repeat split; try assumption.
    exists n. exact Hjournal.
  - unfold removeFile. rewrite Hnone. repeat split; try assumption.
    exists n. exact Hjournal.
  - unfold save. rewrite Hnone. simpl. repeat split; try assumption.
    exists n. exact Hjournal.
  - unfold clear. simpl. split; [apply with_cache_None; exact Hnone|].
    assert (Hb1 : blocked (cacheFilePath m) d1).
    { destruct Hblocked as [Hden|Hfile]; [left|right].
      - unfold Fs.is_denied in *. rewrite Hdenied. exact Hden.
      - intros data. rewrite Hnodes. apply Hfile. }
    destruct (Fs.existsSync (cacheFilePath m) d1).
    + destruct (unlink_blocked _ _ Hb1) as [Hn Hd].
      split; [congruence|]. split; [congruence|].
      exists (S n). rewrite unlink_journal, Hjournal.
      rewrite <- app_assoc. f_equal.
      change [Fs.SysUnlink (cacheFilePath m)]
        with (replicate 1 (Fs.SysUnlink (cacheFilePath m))).
      rewrite <- replicate_add. f_equal. lia.
    + repeat split; try assumption. exists n. exact Hjournal.
Qed.

(** X3.  After [clear()] the manager holds no cache and nothing brings
    one back: whatever calls of [updateFileHash], [removeFile], [save] and
    [clear] follow, the manager is unchanged, the files on disk are those
    [clear()] left, no write is issued (the journal only grows by attempts
    to unlink the cache file), and every query answers as for an empty
    cache. *)
Theorem cleared_manager_stays_empty (m : t) (d : Fs.disk) (calls : list Call) :
  let s := clear m d in
  let s' := run calls s in
  fst s' = fst s
  /\ cache (fst s') = None
  /\ Fs.nodes (snd s') = Fs.nodes (snd s)
  /\ (exists n,
        Fs.journal (snd s')
        = (Fs.journal (snd s) ++ replicate n (Fs.SysUnlink (cacheFilePath m)))%list)
  /\ (forall p, getFileHash p (fst s') = Nothing)
  /\ (forall p h, hasFileChanged p h (fst s') = true)
  /\ (forall p current, getChangedSymbols p current (fst s') = Ok current)
  /\ getCachedFilePaths (fst s') = []
  /\ (forall current, getDeletedFiles current (fst s') = [])
  /\ getStats (fst s') = (0%nat, 0%nat, 0).
Proof.
  intros s s'.
  assert (Hnone : cache (fst s) = None) by reflexivity.
  assert (Hblocked : blocked (cacheFilePath (fst s)) (snd s))
    by exact (clear_blocks m d).
  destruct (run_without_cache calls (fst s) (snd s) Hnone Hblocked)
    as (Hm & Hnodes & _ & Hjournal).
  replace (fst s, snd s) with s in * by (destruct s; reflexivity).
  fold s' in Hm, Hnodes, Hjournal.
  assert (Hnone' : cache (fst s') = None) by (rewrite Hm; exact Hnone).
  split; [exact Hm|]. split; [exact Hnone'|]. split; [exact Hnodes|].
  split; [exact Hjournal|].
  assert (Hget : forall p, getFileHash p (fst s') = Nothing)
    by (intros p; unfold getFileHash; rewrite Hnone'; reflexivity).
  split; [exact Hget|].
  split; [intros p h; unfold hasFileChanged; rewrite Hget; reflexivity|].
  split; [intros p current; unfold getChangedSymbols; rewrite Hget; reflexivity|].
  assert (Hpaths : getCachedFilePaths (fst s') = [])
    by (unfold getCachedFilePaths; rewrite Hnone'; reflexivity).
  split; [exact Hpaths|].
  split; [intros current; unfold getDeletedFiles; rewrite Hpaths; reflexivity|].
  unfold getStats. rewrite Hnone'. reflexivity.
Qed.

(** The map of [getChangedSymbols] answers with the last cached symbol
    of the key. *)
Lemma map_get_last (k : string) (l : list SymbolHash) :
  map_get k (map (fun s => (symbol_key s, s)) l)
  = list.last (filter (fun c => symbol_key c = k) l).
Proof.
  unfold map_get. induction l as [|x l IH] using rev_ind; [reflexivity|].
  rewrite map_app, rev_app_distr, list.filter_app. simpl.
  destruct (String.eqb k (symbol_key x)) eqn:E.
  - apply String.eqb_eq in E.
    rewrite filter_cons_True by (symmetry; exact E).
    rewrite filter_nil, list.last_snoc. reflexivity.
  - apply String.eqb_neq in E.
    rewrite filter_cons_False by (intros H; apply E; symmetry; exact H).
    rewrite filter_nil, app_nil_r. exact IH.
Qed.

Lemma sublist_List_filter {A} (f : A -> bool) (l : list A) : sublist (List.filter f l) l.
Proof.
  induction l as [|x l IH]; simpl; [constructor|].
  destruct (f x); [apply sublist_skip|apply sublist_cons]; exact IH.
Qed.

Lemma List_filter_none {A} (f : A -> bool) (l : list A) :
  (forall x, x ∈ l -> f x = false) -> List.filter f l = [].
Proof.
  induction l as [|x l IH]; simpl; intros H; [reflexivity|].
  rewrite (H x) by (apply list.elem_of_cons; left; reflexivity).
  apply IH. intros y Hy. apply H. apply list.elem_of_cons. right. exact Hy.
Qed.

Lemma filter_unique_key (l : list SymbolHash) (s : SymbolHash) :
  NoDup (map symbol_key l) -> s ∈ l ->
  filter (fun c => symbol_key c = symbol_key s) l = [s].
Proof.
  induction l as [|x l IH]; simpl; intros Hnd Hin; [inversion Hin|].
  pose proof (NoDup_cons_1_1 _ _ Hnd) as Hnotin.
  apply NoDup_cons_1_2 in Hnd.
  apply list.elem_of_cons in Hin as [->|Hin].
  - rewrite filter_cons_True by reflexivity. f_equal.
    apply filter_none. apply list.Forall_forall. intros c Hc Hkey.
    apply Hnotin. rewrite <- Hkey. apply list_elem_of_fmap_2. exact Hc.
  - rewrite filter_cons_False; [exact (IH Hnd Hin)|].
    intros Hkey. apply Hnotin. rewrite Hkey. apply list_elem_of_fmap_2. exact Hin.
Qed.

(** X4.  [getChangedSymbols] returns the current symbols that are new or
    modified, in their order: all of them when [getFileHash] finds nothing
    for the file; otherwise, when it finds an entry, a current symbol is
    returned exactly when no cached symbol of the file has its key (name,
    start line, end line), or the last cached symbol with that key has
    another content hash.  When the path is not cached but is the name of a
    member of [Object.prototype], so that [getFileHash] returns that
    member, the method throws a TypeError. *)
Theorem getChangedSymbols_new_or_modified
    (m : t) (p : string) (current : list SymbolHash) :
  (getFileHash p m = Nothing -> getChangedSymbols p current m = Ok current)
  /\ (forall cached, getFileHash p m = Entry cached ->
        exists changed,
          getChangedSymbols p current m = Ok changed
          /\ sublist changed current
          /\ forall s,
               s ∈ changed <->
               s ∈ current
               /\ match list.last (filter (fun c => symbol_key c = symbol_key s)
                                     (symbols cached)) with
                  | Some c => contentHash c <> contentHash s
                  | None => True
                  end)
  /\ (getFileHash p m = Member ->
        getChangedSymbols p current m
        = Throw "Cannot read properties of undefined (reading 'map')").
Proof.
  split; [|split].
  - intros H. unfold getChangedSymbols. rewrite H. reflexivity.
  - intros cached H. unfold getChangedSymbols. rewrite H.
    eexists. split; [reflexivity|]. split; [apply sublist_List_filter|].
    intros s.
    rewrite list_elem_of_In, List.filter_In, <- list_elem_of_In.
    rewrite map_get_last.
    destruct (list.last _) as [c|]; [|tauto].
    destruct (String.eqb (contentHash c) (contentHash s)) eqn:E; simpl.
    + apply String.eqb_eq in E. split; intros [? ?]; [discriminate|contradiction].
    + apply String.eqb_neq in E. tauto.
  - intros H. unfold getChangedSymbols. rewrite H. reflexivity.
Qed.

Lemma getChangedSymbols_new_or_modified_witness :
  getChangedSymbols "src/c.ts" [Fixtures.symbolG] Fixtures.manager3
  = Ok [Fixtures.symbolG]
  /\ (exists changed,
        getChangedSymbols "src/b.ts" [Samples.symbolF; Fixtures.symbolG2]
          Fixtures.manager3 = Ok changed
        /\ Fixtures.symbolG2 ∈ changed
        /\ ~ (Samples.symbolF ∈ changed))
  /\ getChangedSymbols "constructor" [Fixtures.symbolG] Fixtures.manager3
     = Throw "Cannot read properties of undefined (reading 'map')".
Proof.
  pose proof (getChangedSymbols_new_or_modified Fixtures.manager3 "src/c.ts"
                [Fixtures.symbolG]) as (Hnew & _ & _).
  pose proof (getChangedSymbols_new_or_modified Fixtures.manager3 "src/b.ts"
                [Samples.symbolF; Fixtures.symbolG2]) as (_ & Hold & _).
  pose proof (getChangedSymbols_new_or_modified Fixtures.manager3 "constructor"
                [Fixtures.symbolG]) as (_ & _ & Hmember).
  destruct (Hold Fixtures.fileB eq_refl) as (changed & Hrun & _ & Hchanged).
  split; [apply Hnew; reflexivity|]. split; [|apply Hmember; reflexivity].
  exists changed. split; [exact Hrun|]. split.
  - apply Hchanged. split.
    + apply list.elem_of_cons. right. apply list.elem_of_cons. left. reflexivity.
    + vm_compute. discriminate.
  - intros Hin. apply Hchanged in Hin as [_ Hin]. vm_compute in Hin.
    apply Hin. reflexivity.
Defined.

(** X5.  Recording a file and asking at once which of its symbols
    changed gives none, provided the keys (name, start line, end line) of the
    recorded symbols are distinct and the manager holds a cache. *)
Theorem recorded_symbols_are_unchanged (m : t) (f : FileHash) :
  cache m <> None ->
  NoDup (map symbol_key (symbols f)) ->
  getChangedSymbols (filePath f) (symbols f) (updateFileHash f m) = Ok [].
Proof.
  intros Hcache Hnd.
  destruct (cache m) as [c|] eqn:Hc; [clear Hcache|congruence].
  assert (Hget : getFileHash (filePath f) (updateFileHash f m) = Entry f).
  { rewrite getFileHash_mapping, (mapping_updateFileHash f m c Hc), get_set_same.
    reflexivity. }
  unfold getChangedSymbols. rewrite Hget. f_equal.
  apply List_filter_none. intros s Hin.
  rewrite map_get_last, (filter_unique_key _ s Hnd Hin). simpl.
  rewrite eqb_same. reflexivity.
Qed.

Lemma recorded_symbols_are_unchanged_witness :
  getChangedSymbols "src/b.ts" [Samples.symbolF; Fixtures.symbolG]
    (updateFileHash Fixtures.fileB Samples.manager2) = Ok [].
Proof.
  apply (recorded_symbols_are_unchanged Samples.manager2 Fixtures.fileB).
  - simpl. discriminate.
  - vm_compute. apply NoDup_cons_2.
    + rewrite list_elem_of_singleton. discriminate.
    + apply NoDup_singleton.
Defined.

Lemma filter_ext_elem {A} (P Q : A -> Prop) `{forall x, Decision (P x)}
    `{forall x, Decision (Q x)} (l : list A) :
  (forall x, x ∈ l -> P x <-> Q x) -> filter P l = filter Q l.
Proof.
  induction l as [|x l IH]; intros Hext; [reflexivity|].
  assert (Hx : P x <-> Q x) by (apply Hext; apply list.elem_of_cons; left; reflexivity).
  assert (Hl : filter P l = filter Q l)
    by (apply IH; intros y Hy; apply Hext; apply list.elem_of_cons; right; exact Hy).
  destruct (decide (P x)) as [HP|HP].
  - rewrite !filter_cons_True by tauto. rewrite Hl. reflexivity.
  - rewrite !filter_cons_False by tauto. exact Hl.
Qed.

Lemma removeAll_keeps (paths : list string) :
  forall m,
    distinct_keys (mapping m) ->
    distinct_keys (mapping (removeAll paths m))
    /\ getCachedFilePaths (removeAll paths m)
       = filter (fun q => q ∉ paths) (getCachedFilePaths m)
    /\ (forall q, q ∉ paths -> getFileHash q (removeAll paths m) = getFileHash q m).
Proof.
  induction paths as [|p paths IH]; intros m Hnd.
  - split; [exact Hnd|]. split; [|reflexivity].
    symmetry. apply filter_all. apply list.Forall_forall. intros q _ Hq. inversion Hq.
  - destruct (removeFile_keeps_the_others m p Hnd) as (Hpaths & Hother & Hnd').
    destruct (IH (removeFile p m) Hnd') as (Hnd'' & Hpaths' & Hother').
    change (removeAll (p :: paths) m) with (removeAll paths (removeFile p m)).
    split; [exact Hnd''|]. split.
    + rewrite Hpaths', Hpaths, list_filter_filter.
      apply list_filter_iff. intros q. rewrite list.elem_of_cons. tauto.
    + intros q Hq. rewrite list.elem_of_cons in Hq.
      rewrite Hother' by tauto. apply Hother. tauto.
Qed.

(** X6.  Removing the files that [getDeletedFiles] reports, one
    [removeFile] call for each, leaves no deleted file to report: the cached
    paths are then the former ones that are among the current files, in
    their order, and the entries of the current files are untouched. *)
Theorem removing_the_deleted_files (m : t) (current : list string) :
  distinct_keys (mapping m) ->
  let m' := removeAll (getDeletedFiles current m) m in
  getDeletedFiles current m' = []
  /\ getCachedFilePaths m' = filter (fun p => p ∈ current) (getCachedFilePaths m)
  /\ (forall p, p ∈ current -> getFileHash p m' = getFileHash p m).
Proof.
  intros Hnd m'.
  destruct (removeAll_keeps (getDeletedFiles current m) m Hnd) as (_ & Hpaths & Hother).
  fold m' in Hpaths, Hother.
  assert (Hdeleted : forall q, q ∈ getDeletedFiles current m <->
                               (q ∉ current) /\ (q ∈ getCachedFilePaths m)).
  { intros q. unfold getDeletedFiles. rewrite list_elem_of_filter, elem_of_list_to_set.
    reflexivity. }
  assert (Hkept : getCachedFilePaths m'
                  = filter (fun p => p ∈ current) (getCachedFilePaths m)).
  { rewrite Hpaths. apply filter_ext_elem. intros q Hq. rewrite Hdeleted.
    destruct (decide (q ∈ current)); tauto. }
  split; [|split; [exact Hkept|]].
  - unfold getDeletedFiles at 1. rewrite Hkept. apply filter_none.
    apply list.Forall_forall. intros q Hq.
    apply list_elem_of_filter in Hq as [Hq _]. rewrite elem_of_list_to_set. tauto.
  - intros p Hp. apply Hother. rewrite Hdeleted. tauto.
Qed.

Lemma removing_the_deleted_files_witness :
  getDeletedFiles ["src/b.ts"]
    (removeAll (getDeletedFiles ["src/b.ts"] Fixtures.manager3) Fixtures.manager3) = []
  /\ getFileHash "src/b.ts"
       (removeAll (getDeletedFiles ["src/b.ts"] Fixtures.manager3) Fixtures.manager3)
     = Entry Fixtures.fileB.
Proof.
  assert (Hnd : distinct_keys (mapping Fixtures.manager3)).
  { unfold distinct_keys. simpl. apply NoDup_cons_2.
    - rewrite list_elem_of_singleton. discriminate.
    - apply NoDup_singleton. }
  destruct (removing_the_deleted_files Fixtures.manager3 ["src/b.ts"] Hnd)
    as (Hnone & _ & Hother).
  split; [exact Hnone|].
  rewrite Hother by (apply list_elem_of_singleton; reflexivity). reflexivity.
Defined.








End SymbolCacheFacts.

(** ** The file-level cache manager: statistics, sessions, persistence *)

Module FileCacheFacts.
Import JsObject JsObjectFacts KeysFacts SimpleHashCacheManager CacheSpec.

(** X8.  [getStats] after [updateFile], for a path other than [__proto__]
    (for which the assignment adds no entry) and chunk counts in the range
    in which the sum of doubles is exact (no count negative, totals up to
    2^53, before and after): a path that was not cached adds one file and
    its chunks to the totals; a cached path keeps the number of files and
    exchanges the chunks of the old entry for the new count; [lastIndexed]
    is not touched. *)
Theorem getStats_after_updateFile (m : t) (p h : string) (c now : Z) :
  p <> "__proto__" ->
  exact_totals m ->
  exact_totals (updateFile p h c now m) ->
  let m' := updateFile p h c now m in
  fst (fst (getStats m'))
  = (fst (fst (getStats m))
     + match get p (files (cache m)) with Some _ => 0 | None => 1 end)%nat
  /\ snd (fst (getStats m'))
     = snd (fst (getStats m))
       - match get p (files (cache m)) with Some old => chunkCount old | None => 0 end
       + c
  /\ snd (getStats m') = snd (getStats m).
Proof.
  intros _ _ _ m'. unfold getStats, m', updateFile. simpl.
  split; [|split; [|reflexivity]].
  - rewrite length_keys_set. unfold has. destruct (get p (files (cache m))); reflexivity.
  - exact (total_set chunkCount p _ (files (cache m))).
Qed.

Lemma getStats_after_updateFile_witness :
  getStats Samples.manager1 = (2%nat, 4, 1700000001000)
  /\ getStats (updateFile "src/c.ts" "0b0b0b0b" 2 1700000006000 Samples.manager1)
     = (3%nat, 6, 1700000001000)
  /\ getStats (updateFile "src/a.ts" "0a0a0a0a" 5 1700000006000 Samples.manager1)
     = (2%nat, 6, 1700000001000).
Proof.
  assert (H1 : exact_totals Samples.manager1).
  { split; [repeat constructor; simpl; lia | vm_compute; discriminate]. }
  assert (H2 : exact_totals
                 (updateFile "src/c.ts" "0b0b0b0b" 2 1700000006000 Samples.manager1)).
  { split; [repeat constructor; simpl; lia | vm_compute; discriminate]. }
  assert (H3 : exact_totals
                 (updateFile "src/a.ts" "0a0a0a0a" 5 1700000006000 Samples.manager1)).
  { split; [repeat constructor; simpl; lia | vm_compute; discriminate]. }
  assert (Hc : "src/c.ts" <> "__proto__") by discriminate.
  assert (Ha : "src/a.ts" <> "__proto__") by discriminate.
  destruct (getStats_after_updateFile Samples.manager1 "src/c.ts" "0b0b0b0b" 2
              1700000006000 Hc H1 H2) as (Hfiles & Hchunks & Hstamp).
  destruct (getStats_after_updateFile Samples.manager1 "src/a.ts" "0a0a0a0a" 5
              1700000006000 Ha H1 H3) as (Hfiles' & Hchunks' & Hstamp').
  split; [reflexivity|]. split.
  - rewrite (surjective_pairing (getStats (updateFile "src/c.ts" _ _ _ _))).
    rewrite (surjective_pairing (fst (getStats (updateFile "src/c.ts" _ _ _ _)))).
    rewrite Hfiles, Hchunks, Hstamp. reflexivity.
  - rewrite (surjective_pairing (getStats (updateFile "src/a.ts" _ _ _ _))).
    rewrite (surjective_pairing (fst (getStats (updateFile "src/a.ts" _ _ _ _)))).
    rewrite Hfiles', Hchunks', Hstamp'. reflexivity.
Defined.

Lemma simpleRun_snoc calls call s :
  simpleRun (calls ++ [call]) s = simpleStep (simpleRun calls s) call.
Proof. unfold simpleRun. rewrite foldl_app. reflexivity. Qed.

Lemma files_save now m d : files (cache (fst (save now m d))) = files (cache m).
Proof.
  unfold save. destruct (Fs.writeFileSync _ _ d) as [[u|e] d']; reflexivity.
Qed.

Lemma files_step s call :
  forall p, p ∈ keys (files (cache (fst s))) ->
            p ∈ keys (files (cache (fst (simpleStep s call)))).
Proof.
  intros p Hp. destruct call as [q h c now|now|]; simpl.
  - apply elem_of_keys_set. right. exact Hp.
  - rewrite files_save. exact Hp.
  - exact Hp.
Qed.

Lemma length_step s call :
  (length (keys (files (cache (fst s))))
   <= length (keys (files (cache (fst (simpleStep s call))))))%nat.
Proof.
  destruct call as [q h c now|now|]; simpl.
  - rewrite length_keys_set. lia.
  - rewrite files_save. lia.
  - lia.
Qed.

(** X9.  The file-level manager has no call that takes an entry out:
    through any sequence of [updateFile], [save] and [clear] calls every
    cached path stays cached, so a path that [getDeletedFiles] reports is
    reported after the calls as well, and [totalFiles] never goes down. *)
Theorem simple_cache_never_forgets
    (calls : list SimpleCall) (m : t) (d : Fs.disk) (current : gset string) :
  let m' := fst (simpleRun calls (m, d)) in
  (forall p, p ∈ keys (files (cache m)) -> p ∈ keys (files (cache m')))
  /\ (forall p, p ∈ getDeletedFiles current m -> p ∈ getDeletedFiles current m')
  /\ (fst (fst (getStats m)) <= fst (fst (getStats m')))%nat.
Proof.
  intros m'.
  assert (Hkeys : (forall p, p ∈ keys (files (cache m)) -> p ∈ keys (files (cache m')))
                  /\ (length (keys (files (cache m)))
                      <= length (keys (files (cache m'))))%nat).
  { unfold m'. induction calls as [|call calls IH] using rev_ind.
    - split; [intros p Hp; exact Hp|simpl; lia].
    - rewrite simpleRun_snoc. destruct IH as [IHin IHlen]. split.
      + intros p Hp. apply files_step. apply IHin. exact Hp.
      + pose proof (length_step (simpleRun calls (m, d)) call). lia. }
  destruct Hkeys as [Hin Hlen].
  split; [exact Hin|]. split; [|exact Hlen].
  intros p. unfold getDeletedFiles. rewrite !list_elem_of_filter.
  intros [Hout Hp]. split; [exact Hout|apply Hin; exact Hp].
Qed.

Section Persistence.

Variable path_join : string -> string -> string.
Variable JSON_parse : string -> option SimpleHashCache.

Lemma loadCache_names file P C now d :
  projectPath (loadCache JSON_parse file P C now d) = P
  /\ collectionName (loadCache JSON_parse file P C now d) = C.
Proof.
  unfold loadCache.
  destruct (Fs.existsSync file d); [|split; reflexivity].
  destruct (Fs.readFileSync file d) as [data|e]; [|split; reflexivity].
  destruct (JSON_parse data) as [loaded|]; [|split; reflexivity].
  destruct (String.eqb (projectPath loaded) P) eqn:HP; simpl; [|split; reflexivity].
  destruct (String.eqb (collectionName loaded) C) eqn:HC; simpl; [|split; reflexivity].
  apply String.eqb_eq in HP, HC. split; assumption.
Qed.

Lemma new_simple_for P C now d m d1 :
  new path_join JSON_parse P C now d = (Ok m, d1) -> simple_for path_join P C m.
Proof.
  unfold new. destruct (ensureCacheDir _ d) as [[u|e] d']; [|discriminate].
  intros H. injection H as <- <-. unfold simple_for. simpl.
  split; [reflexivity|]. split; [reflexivity|]. apply loadCache_names.
Qed.

Lemma step_simple_for P C s call :
  simple_for path_join P C (fst s) -> simple_for path_join P C (fst (simpleStep s call)).
Proof.
  intros H. destruct call as [q h c now|now|]; simpl; [exact H| |exact H].
  unfold save. destruct (Fs.writeFileSync _ _ (snd s)) as [[u|e] d']; exact H.
Qed.

(** X10.  The constructor does not fail on what the cache file holds: it
    throws only when the directory [.context] is missing and cannot be
    created.  The manager it returns is a manager of its project and
    collection, whatever the file holds, and stays one through every
    sequence of [updateFile], [save] and [clear] calls: the cache file is
    [<project>/.context/file-hashes.json] and the cache names the project
    path and the collection given to the constructor. *)
Theorem manager_keeps_its_project (P C : string) (now : Z) (d : Fs.disk) :
  (forall e d1,
      new path_join JSON_parse P C now d = (Throw e, d1) ->
      Fs.existsSync (path_join P ".context") d = false
      /\ Fs.is_denied (path_join P ".context") d = true)
  /\ (forall m d1 calls d2,
        new path_join JSON_parse P C now d = (Ok m, d1) ->
        simple_for path_join P C (fst (simpleRun calls (m, d2)))).
Proof.
  split.
  - intros e d1. unfold new, ensureCacheDir, Fs.existsSync, Fs.mkdirSync.
    destruct (Fs.nodes d !! path_join P ".context") as [node|] eqn:Hnode; simpl;
      [discriminate|].
    destruct (Fs.is_denied (path_join P ".context") d); [|discriminate].
    intros _. split; reflexivity.
  - intros m d1 calls d2 Hnew. apply new_simple_for in Hnew.
    induction calls as [|call calls IH] using rev_ind; [exact Hnew|].
    rewrite simpleRun_snoc. apply step_simple_for. exact IH.
Qed.

(** X11.  What [save()] writes is what the next manager of the same
    project and collection starts from: when the cache file can be written
    and [JSON.parse] reads the saved document back, the constructor run on
    the disk that [save()] left returns the very manager that saved, with
    the entries and the time stamp of the save, and changes nothing on
    disk. *)
Theorem saved_cache_is_loaded_again
    (P C : string) (m : t) (d : Fs.disk) (now now' : Z) :
  simple_for path_join P C m ->
  Fs.existsSync (cacheDir m) d = true ->
  Atomicity.writable (cacheFilePath m) d ->
  JSON_parse (document (with_lastIndexed now (cache m)))
    = Some (with_lastIndexed now (cache m)) ->
  new path_join JSON_parse P C now' (snd (save now m d))
  = (Ok (fst (save now m d)), snd (save now m d))
  /\ files (cache (fst (save now m d))) = files (cache m)
  /\ lastIndexed (cache (fst (save now m d))) = now.
Proof.
  intros (Hdir & Hfile & HP & HC) Hexists Hwritable Hparse.
  unfold save. rewrite (SaveFacts.writeFileSync_writable _ _ _ Hwritable). simpl.
  split; [|split; reflexivity].
  set (doc := document (with_lastIndexed now (cache m))) in *.
  set (d' := Fs.with_nodes _ _).
  assert (Hnodes : Fs.nodes d' !! cacheFilePath m = Some (Fs.File doc))
    by (unfold d'; simpl; apply lookup_insert_eq).
  assert (Hdir' : Fs.existsSync (path_join P ".context") d' = true).
  { rewrite <- Hdir. unfold Fs.existsSync in *. unfold d'. simpl.
    destruct (decide (cacheFilePath m = cacheDir m)) as [Heq|Hne].
    - rewrite <- Heq, lookup_insert_eq. reflexivity.
    - rewrite lookup_insert_ne by exact Hne. exact Hexists. }
  assert (Hden : Fs.is_denied (cacheFilePath m) d' = false)
    by (destruct Hwritable as [H _]; exact H).
  clearbody d'.
  unfold new, ensureCacheDir. rewrite Hdir'. simpl.
  rewrite <- Hfile, <- Hdir. f_equal.
  destruct m as [dir file c]. unfold with_cache. simpl in *. f_equal.
  unfold loadCache, Fs.existsSync, Fs.readFileSync. rewrite Hnodes, Hden.
  fold doc. rewrite Hparse. simpl. rewrite HP, HC, !eqb_same. reflexivity.
Qed.

End Persistence.

Lemma saved_cache_is_loaded_again_witness :
  SimpleHashCacheManager.new Samples.join Fixtures.parseSaved
    "/home/user/project" "code_chunks_90722f26" 1700000010000
    (snd (save 1700000009000 Samples.manager1 Samples.disk1))
  = (Ok (fst (save 1700000009000 Samples.manager1 Samples.disk1)),
     snd (save 1700000009000 Samples.manager1 Samples.disk1)).
Proof.
  apply (saved_cache_is_loaded_again Samples.join Fixtures.parseSaved
           "/home/user/project" "code_chunks_90722f26" Samples.manager1 Samples.disk1
           1700000009000 1700000010000).
  - repeat split.
  - reflexivity.
  - split; [reflexivity|]. split; [vm_compute; discriminate | reflexivity].
  - vm_compute. reflexivity.
Defined.

Lemma manager_keeps_its_project_witness :
  exists m d1,
    SimpleHashCacheManager.new Samples.join Samples.parse1
      "/home/user/project" "hybrid_code_chunks_90722f26" 1700000005000 Samples.disk1
    = (Ok m, d1)
    /\ simple_for Samples.join "/home/user/project" "hybrid_code_chunks_90722f26"
         (fst (simpleRun [UpdateFile "src/c.ts" "0b0b0b0b" 2 1700000006000;
                          SimpleSave 1700000007000] (m, d1))).
Proof.
  eexists _, _. split; [reflexivity|].
  apply (proj2 (manager_keeps_its_project Samples.join Samples.parse1
                  "/home/user/project" "hybrid_code_chunks_90722f26" 1700000005000
                  Samples.disk1) _ Samples.disk1).
  reflexivity.
Defined.

(** X12.  [clear()] of the file-level manager deletes the cache file and
    nothing else, and leaves the entries in memory: when the file can be
    written, it is gone after [clear()], every other path is as before, a
    manager constructed next starts from an empty cache, and yet a later
    [save()] of the manager that cleared puts the complete document of its
    entries back. *)
Theorem clear_then_save_restores (m : t) (d : Fs.disk) (now : Z) :
  Atomicity.writable (cacheFilePath m) d ->
  let d' := clear m d in
  Fs.existsSync (cacheFilePath m) d' = false
  /\ (forall q, q <> cacheFilePath m -> Fs.nodes d' !! q = Fs.nodes d !! q)
  /\ Fs.content (cacheFilePath m) (snd (save now m d'))
     = Some (document (with_lastIndexed now (cache m)))
  /\ (forall path_join JSON_parse P C now',
        simple_for path_join P C m ->
        Fs.existsSync (cacheDir m) d = true ->
        cacheDir m <> cacheFilePath m ->
        exists m',
          new path_join JSON_parse P C now' d' = (Ok m', d')
          /\ cache m' = emptyCache P C now').
Proof.
  intros (Hden & Hnotdir & Hspace) d'.
  set (file := cacheFilePath m) in *.
  assert (Hd' : Fs.nodes d' = delete file (Fs.nodes d) /\ Fs.denied d' = Fs.denied d
                /\ Fs.space d' = Fs.space d).
  { unfold d', clear. fold file. unfold Fs.existsSync, Fs.unlinkSync. rewrite Hden.
    destruct (Fs.nodes d !! file) as [[data|]|] eqn:Hnode; simpl.
    - repeat split.
    - congruence.
    - split; [|split; reflexivity]. symmetry. apply delete_id. exact Hnode. }
  destruct Hd' as (Hnodes & Hdenied & Hspace').
  assert (Hgone : Fs.existsSync file d' = false)
    by (unfold Fs.existsSync; rewrite Hnodes, lookup_delete_eq; reflexivity).
  split; [exact Hgone|]. split.
  { intros q Hq. rewrite Hnodes. apply lookup_delete_ne. congruence. }
  split.
  { assert (Hw : Atomicity.writable file d').
    { split; [|split].
      - unfold Fs.is_denied in *. rewrite Hdenied. exact Hden.
      - rewrite Hnodes, lookup_delete_eq. discriminate.
      - rewrite Hspace'. exact Hspace. }
    unfold save. fold file. rewrite (SaveFacts.writeFileSync_writable _ _ _ Hw).
    unfold Fs.content. simpl. rewrite lookup_insert_eq. reflexivity. }
  intros path_join JSON_parse P C now' (Hdir & Hfile & _ & _) Hexists Hne.
  unfold new, ensureCacheDir.
  assert (Hdir' : Fs.existsSync (path_join P ".context") d' = true).
  { rewrite <- Hdir. unfold Fs.existsSync in *. rewrite Hnodes.
    rewrite lookup_delete_ne by (intros Heq; apply Hne; symmetry; exact Heq).
    exact Hexists. }
  rewrite Hdir'. simpl. eexists. split; [reflexivity|]. simpl.
  unfold loadCache. rewrite <- Hfile. fold file. rewrite Hgone. reflexivity.
Qed.

Lemma clear_then_save_restores_witness :
  Fs.existsSync "/home/user/project/.context/file-hashes.json"
    (clear Samples.manager1 Samples.disk1) = false
  /\ Fs.content "/home/user/project/.context/file-hashes.json"
       (snd (save 1700000009000 Samples.manager1 (clear Samples.manager1 Samples.disk1)))
     = Some (document (with_lastIndexed 1700000009000 Samples.cache1)).
Proof.
  assert (Hw : Atomicity.writable (cacheFilePath Samples.manager1) Samples.disk1).
  { split; [reflexivity|]. split; [vm_compute; discriminate | reflexivity]. }
  destruct (clear_then_save_restores Samples.manager1 Samples.disk1 1700000009000 Hw)
    as (Hgone & _ & Hback & _).
  split; [exact Hgone|exact Hback].
Defined.

End FileCacheFacts.

(** ** The metadata manager *)

Module MetadataFacts.
Import JsObjectFacts ProjectMetadataManager MetadataSpec.

Lemma length_warnings (x : ProjectMetadata) (h : bool) (e : string) (dim : Z) (m : t) :
  metadata m = Some x ->
  length (warnings (validateAgainstConfig h e dim m)) = mismatches x h e dim
  /\ valid (validateAgainstConfig h e dim m) = (mismatches x h e dim =? 0)%nat.
Proof.
  intros H. unfold validateAgainstConfig, mismatches. rewrite H. simpl.
  destruct (Bool.eqb (isHybrid x) h), (String.eqb (embeddingModel x) e),
    (embeddingDimension x =? dim); split; reflexivity.
Qed.

Lemma mismatches_zero (x : ProjectMetadata) (h : bool) (e : string) (dim : Z) :
  mismatches x h e dim = 0%nat
  <-> isHybrid x = h /\ embeddingModel x = e /\ embeddingDimension x = dim.
Proof.
  unfold mismatches.
  destruct (Bool.eqb (isHybrid x) h) eqn:Hh;
    destruct (String.eqb (embeddingModel x) e) eqn:He;
    destruct (embeddingDimension x =? dim) eqn:Hd;
    rewrite ?Bool.eqb_true_iff, ?Bool.eqb_false_iff, ?String.eqb_eq, ?String.eqb_neq,
      ?Z.eqb_eq, ?Z.eqb_neq in *;
    split; try (intros H; discriminate H); try tauto.
Qed.

(** X13.  [validateAgainstConfig] accepts a configuration exactly when
    there is no metadata or the search mode, the embedding model and the
    embedding dimension all equal the stored ones; it returns one warning
    for each of the three that differs and is valid exactly when there is no
    warning.  Right after [initializeOrUpdate] the settings passed to it
    are valid, with no warning. *)
Theorem validateAgainstConfig_counts_mismatches
    (m : t) (h : bool) (e : string) (dim : Z) :
  let v := validateAgainstConfig h e dim m in
  (metadata m = None -> v = {| valid := true; warnings := [] |})
  /\ (forall x, metadata m = Some x ->
        (valid v = true
         <-> isHybrid x = h /\ embeddingModel x = e /\ embeddingDimension x = dim)
        /\ length (warnings v) = mismatches x h e dim
        /\ (mismatches x h e dim <= 3)%nat)
  /\ (valid v = true <-> warnings v = [])
  /\ (forall params now,
        Params.isHybrid params = h -> Params.embeddingModel params = e ->
        Params.embeddingDimension params = dim ->
        validateAgainstConfig h e dim (initializeOrUpdate params now m)
        = {| valid := true; warnings := [] |}).
Proof.
  intros v. split; [|split; [|split]].
  - intros H. unfold v, validateAgainstConfig. rewrite H. reflexivity.
  - intros x H. destruct (length_warnings x h e dim m H) as [Hlen Hvalid].
    fold v in Hlen, Hvalid. split; [|split; [exact Hlen|]].
    + rewrite Hvalid, Nat.eqb_eq. apply mismatches_zero.
    + unfold mismatches.
      destruct (Bool.eqb _ _), (String.eqb _ _), (_ =? _); simpl; lia.
  - unfold v, validateAgainstConfig. destruct (metadata m) as [x|]; simpl.
    + rewrite Nat.eqb_eq. apply length_zero_iff_nil.
    + split; reflexivity.
  - intros params now <- <- <-.
    unfold validateAgainstConfig, initializeOrUpdate.
    destruct (metadata m) as [x|]; simpl;
      rewrite Bool.eqb_reflx, eqb_same, Z.eqb_refl; reflexivity.
Qed.

Lemma validateAgainstConfig_counts_mismatches_witness :
  length (warnings (validateAgainstConfig true "text-embedding-v4" 1536
                      Fixtures.metadataManager1)) = 2%nat
  /\ valid (validateAgainstConfig true "text-embedding-v4" 1536
              Fixtures.metadataManager1) = false
  /\ validateAgainstConfig true "text-embedding-v4" 1024
       (initializeOrUpdate Fixtures.params1 1700000003000 Fixtures.metadataManager1)
     = {| valid := true; warnings := [] |}.
Proof.
  pose proof (validateAgainstConfig_counts_mismatches Fixtures.metadataManager1
                true "text-embedding-v4" 1536) as (_ & Hsome & _ & _).
  destruct (Hsome Fixtures.metadata1 eq_refl) as (_ & Hlen & _).
  pose proof (validateAgainstConfig_counts_mismatches Fixtures.metadataManager1
                true "text-embedding-v4" 1024) as (_ & _ & _ & Hinit).
  split; [rewrite Hlen; reflexivity|]. split; [reflexivity|].
  apply Hinit; reflexivity.
Defined.

Section Sessions.

Variable JSON_stringify : ProjectMetadata -> string.

Lemma metadata_run_snoc calls call s :
  run JSON_stringify (calls ++ [call]) s
  = step JSON_stringify (run JSON_stringify calls s) call.
Proof. unfold run. rewrite foldl_app. reflexivity. Qed.

Lemma metadata_save now (m : t) (d : Fs.disk) :
  metadata (fst (save JSON_stringify now m d)) = stamped now <$> metadata m.
Proof.
  unfold save. destruct (metadata m) as [x|] eqn:H; simpl; [|exact H].
  destruct (Fs.writeFileSync _ _ d) as [[u|e] d']; reflexivity.
Qed.

Lemma existsb_snoc {A} (f : A -> bool) (l : list A) (x : A) :
  existsb f (l ++ [x]) = existsb f l || f x.
Proof. rewrite existsb_app. simpl. rewrite orb_false_r. reflexivity. Qed.

(** X14.  [createdAt] is the time of the first indexing and the version
    only changes at [save()]: through any sequence of [initializeOrUpdate]
    and [save] calls a manager that holds metadata keeps holding metadata
    with the same [createdAt], and with the version it had until the first
    [save()], which sets it to 1.0; a manager that holds none gets
    [createdAt] from the clock of its first [initializeOrUpdate] and keeps
    it. *)
Theorem createdAt_is_kept (calls : list Call) (m : t) (d : Fs.disk) :
  (forall x, metadata m = Some x ->
     exists x',
       metadata (fst (run JSON_stringify calls (m, d))) = Some x'
       /\ createdAt x' = createdAt x
       /\ version x' = if existsb isSave calls then "1.0" else version x)
  /\ (forall params now,
        metadata m = None ->
        exists x',
          metadata (fst (run JSON_stringify (InitializeOrUpdate params now :: calls) (m, d)))
          = Some x'
          /\ createdAt x' = now
          /\ version x' = "1.0").
Proof.
  assert (Hkept : forall m0 d0 x,
            metadata m0 = Some x ->
            exists x',
              metadata (fst (run JSON_stringify calls (m0, d0))) = Some x'
              /\ createdAt x' = createdAt x
              /\ version x' = if existsb isSave calls then "1.0" else version x).
  { intros m0 d0 x Hx. induction calls as [|call calls IH] using rev_ind.
    - exists x. split; [exact Hx|]. split; reflexivity.
    - destruct IH as (x1 & Hx1 & Hcreated & Hversion).
      rewrite metadata_run_snoc, existsb_snoc.
      destruct call as [params now|now]; simpl.
      + unfold initializeOrUpdate. rewrite Hx1. simpl. eexists. split; [reflexivity|].
        simpl. rewrite orb_false_r. split; assumption.
      + rewrite metadata_save, Hx1. simpl. eexists. split; [reflexivity|].
        simpl. rewrite orb_true_r. split; [assumption|reflexivity]. }
  split; [intros x Hx; apply Hkept; exact Hx|].
  intros params now Hnone.
  change (run JSON_stringify (InitializeOrUpdate params now :: calls) (m, d))
    with (run JSON_stringify calls (initializeOrUpdate params now m, d)).
  edestruct (Hkept (initializeOrUpdate params now m) d) as (x' & Hx' & Hcreated & Hversion).
  { unfold initializeOrUpdate. rewrite Hnone. reflexivity. }
  exists x'. split; [exact Hx'|]. split; [exact Hcreated|].
  rewrite Hversion. simpl. destruct (existsb isSave calls); reflexivity.
Qed.

End Sessions.

Lemma createdAt_is_kept_witness :
  exists x',
    metadata (fst (run Fixtures.render
                     [InitializeOrUpdate Fixtures.params1 1700000003000;
                      Save 1700000004000]
                     (Fixtures.metadataManager1, Samples.disk1))) = Some x'
    /\ createdAt x' = 1690000000000
    /\ version x' = "1.0".
Proof.
  exact (proj1 (createdAt_is_kept Fixtures.render
                  [InitializeOrUpdate Fixtures.params1 1700000003000; Save 1700000004000]
                  Fixtures.metadataManager1 Samples.disk1)
           Fixtures.metadata1 eq_refl).
Defined.

Section Loading.

Variable path_join : string -> string -> string.
Variable path_resolve : string -> string.
Variable JSON_parse : string -> option ProjectMetadata.

Lemma new_metadata P d m d1 :
  new path_join path_resolve JSON_parse P d = (Ok m, d1) ->
  metadataFilePath m = path_join (path_join P ".context") "project.json"
  /\ metadata m
     = loadMetadata path_resolve JSON_parse (metadataFilePath m) P d1.
Proof.
  unfold new. destruct (ensureMetadataDir _ d) as [[u|e] d']; [|discriminate].
  intros H. injection H as <- <-. split; reflexivity.
Qed.

(** X15.  The constructor takes the metadata file of a project that was
    moved: when the file can be read and parsed, the manager holds what the
    file says, with only [projectPath] replaced by the resolved current
    path when the two resolve differently, so the collection name of the
    file is the one [getCollectionName] returns; if [path.resolve] is
    idempotent the stored path then resolves to the current project.  When
    the file cannot be read or parsed the manager holds no metadata. *)
Theorem moved_project_keeps_its_metadata
    (P : string) (d d1 : Fs.disk) (m : t) :
  new path_join path_resolve JSON_parse P d = (Ok m, d1) ->
  (forall data loaded,
      Fs.readFileSync (metadataFilePath m) d1 = Ok data ->
      JSON_parse data = Some loaded ->
      exists x,
        metadata m = Some x
        /\ same_but_path x loaded
        /\ projectPath x
           = (if String.eqb (path_resolve P) (path_resolve (projectPath loaded))
              then projectPath loaded else path_resolve P)
        /\ getCollectionName m = truthy (Some (collectionName loaded))
        /\ ((forall p, path_resolve (path_resolve p) = path_resolve p) ->
            path_resolve (projectPath x) = path_resolve P))
  /\ (forall data,
        Fs.readFileSync (metadataFilePath m) d1 = Ok data ->
        JSON_parse data = None -> exists_ m = false)
  /\ (forall e,
        Fs.readFileSync (metadataFilePath m) d1 = Throw e -> exists_ m = false).
Proof.
  intros Hnew. destruct (new_metadata P d m d1 Hnew) as [_ Hmeta].
  split; [|split].
  - intros data loaded Hread Hparse.
    pose proof (LoadFacts.readFileSync_exists _ _ _ Hread) as Hexists.
    unfold loadMetadata in Hmeta. rewrite Hexists, Hread, Hparse in Hmeta.
    unfold getCollectionName. rewrite Hmeta.
    destruct (String.eqb (path_resolve P) (path_resolve (projectPath loaded))) eqn:E;
      simpl; eexists; (split; [reflexivity|]); simpl.
    + split; [reflexivity|]. split; [reflexivity|]. split; [reflexivity|].
      intros _. apply String.eqb_eq in E. symmetry. exact E.
    + split; [reflexivity|]. split; [reflexivity|]. split; [reflexivity|].
      intros Hidem. apply Hidem.
  - intros data Hread Hparse.
    pose proof (LoadFacts.readFileSync_exists _ _ _ Hread) as Hexists.
    unfold loadMetadata in Hmeta. rewrite Hexists, Hread, Hparse in Hmeta.
    unfold exists_. rewrite Hmeta. reflexivity.
  - intros e Hread. unfold loadMetadata in Hmeta. rewrite Hread in Hmeta.
    unfold exists_. rewrite Hmeta. destruct (Fs.existsSync _ d1); reflexivity.
Qed.

End Loading.

Lemma moved_project_keeps_its_metadata_witness :
  exists m d1,
    new Samples.join (fun p => p) Fixtures.parse3 "/srv/checkout" Fixtures.disk3
    = (Ok m, d1)
    /\ getCollectionName m = Some "code_chunks_90722f26"
    /\ projectPath <$> metadata m = Some "/srv/checkout"
    /\ createdAt <$> metadata m = Some 1690000000000.
Proof.
  eexists _, _. split; [reflexivity|].
  edestruct (proj1 (moved_project_keeps_its_metadata Samples.join (fun p => p)
                      Fixtures.parse3 "/srv/checkout" Fixtures.disk3 _ _ eq_refl))
    as (x & Hx & Hsame & Hpath & Hname & _).
  - vm_compute. reflexivity.
  - vm_compute. reflexivity.
  - split; [exact Hname|]. split; reflexivity.
Defined.

(** X16.  [save()] of the metadata manager does nothing when there is no
    metadata.  Otherwise it sets the version to 1.0 and [lastIndexed] to
    the clock in memory, whether or not the write succeeds, and issues one
    write of the text of the stamped record straight to [project.json]:
    when that path can be opened the file is truncated and then holds the
    part of the text that fitted on the volume, and no other path changes:
    the complete text when there is room, the first [n] code units when
    there is room for [n] only, the error being swallowed; when the path
    cannot be opened nothing on disk changes. *)
Theorem metadata_save_stamps_and_overwrites
    (JSON_stringify : ProjectMetadata -> string) (now : Z) (m : t) (d : Fs.disk) :
  let m' := fst (save JSON_stringify now m d) in
  let d' := snd (save JSON_stringify now m d) in
  match metadata m with
  | None => m' = m /\ d' = d
  | Some x =>
      let text := JSON_stringify (stamped now x) in
      metadata m' = Some (stamped now x)
      /\ version (stamped now x) = "1.0"
      /\ lastIndexed (stamped now x) = now
      /\ createdAt (stamped now x) = createdAt x
      /\ Fs.journal d' = (Fs.journal d ++ [Fs.SysWrite (metadataFilePath m) text])%list
      /\ (Atomicity.openable (metadataFilePath m) d ->
            Fs.content (metadataFilePath m) d'
            = Some (String.substring 0 (Fs.fits (metadataFilePath m) text d) text)
            /\ (forall q, q <> metadataFilePath m -> Fs.nodes d' !! q = Fs.nodes d !! q))
      /\ (Atomicity.writable (metadataFilePath m) d ->
            Fs.content (metadataFilePath m) d' = Some text)
      /\ (forall n,
            Atomicity.openable (metadataFilePath m) d ->
            Fs.space d !! metadataFilePath m = Some n ->
            (n < String.length text)%nat ->
            Fs.content (metadataFilePath m) d' = Some (String.substring 0 n text))
      /\ (~ Atomicity.openable (metadataFilePath m) d -> Fs.nodes d' = Fs.nodes d)
  end.
Proof.
  intros m' d'. unfold m', d', save. destruct (metadata m) as [x|] eqn:Hx.
  2: { split; reflexivity. }
  set (text := JSON_stringify (stamped now x)).
  pose proof (SaveFacts.writeFileSync_journal (metadataFilePath m) text d) as Hjournal.
  assert (Hmem : metadata
                   (fst (match Fs.writeFileSync (metadataFilePath m) text d with
                         | (Ok _, d0) => (with_metadata (Some (stamped now x)) m, d0)
                         | (Throw _, d0) => (with_metadata (Some (stamped now x)) m, d0)
                         end)) = Some (stamped now x))
    by (destruct (Fs.writeFileSync _ _ d) as [[u|e] d0]; reflexivity).
  assert (Hdisk : snd (match Fs.writeFileSync (metadataFilePath m) text d with
                       | (Ok _, d0) => (with_metadata (Some (stamped now x)) m, d0)
                       | (Throw _, d0) => (with_metadata (Some (stamped now x)) m, d0)
                       end) = snd (Fs.writeFileSync (metadataFilePath m) text d))
    by (destruct (Fs.writeFileSync _ _ d) as [[u|e] d0]; reflexivity).
  simpl. fold text. rewrite Hdisk.
  split; [exact Hmem|]. split; [reflexivity|]. split; [reflexivity|].
  split; [reflexivity|]. split; [exact Hjournal|].
  assert (Hopen : Atomicity.openable (metadataFilePath m) d ->
            Fs.content (metadataFilePath m)
              (snd (Fs.writeFileSync (metadataFilePath m) text d))
            = Some (String.substring 0 (Fs.fits (metadataFilePath m) text d) text)).
  { intros Ho. unfold Fs.content. rewrite (SaveFacts.writeFileSync_openable _ text _ Ho).
    rewrite lookup_insert_eq. reflexivity. }
  split; [|split; [|split]].
  - intros Ho. split; [exact (Hopen Ho)|].
    intros q Hq. rewrite (SaveFacts.writeFileSync_openable _ text _ Ho).
    apply lookup_insert_ne. congruence.
  - intros Hw. rewrite (SaveFacts.writeFileSync_writable _ _ _ Hw).
    unfold Fs.content. simpl. rewrite lookup_insert_eq. reflexivity.
  - intros n Ho Hn Hlt. rewrite (Hopen Ho), (SaveFacts.fits_short _ text _ _ Hn Hlt).
    reflexivity.
  - intros Hw. destruct (SaveFacts.writeFileSync_refused _ text _ Hw) as [e He].
    rewrite He. reflexivity.
Qed.

(** X17.  [clear()] of the metadata manager forgets in memory and on
    disk: afterwards [exists()] is false, [getCollectionName()] is [null],
    every configuration validates without a warning, [save()] writes
    nothing, and an [initializeOrUpdate] starts over with [createdAt] at
    the clock and version 1.0.  When the file could be written it is gone,
    no other path has changed, and a manager constructed next for a
    project with that metadata file holds no metadata. *)
Theorem clear_forgets_the_metadata (m : t) (d : Fs.disk) :
  let m' := fst (clear m d) in
  let d' := snd (clear m d) in
  exists_ m' = false
  /\ getCollectionName m' = None
  /\ (forall h e dim,
        validateAgainstConfig h e dim m' = {| valid := true; warnings := [] |})
  /\ (forall JSON_stringify now, save JSON_stringify now m' d' = (m', d'))
  /\ (forall params now,
        exists x,
          metadata (initializeOrUpdate params now m') = Some x
          /\ createdAt x = now /\ version x = "1.0")
  /\ (Atomicity.writable (metadataFilePath m) d ->
        Fs.existsSync (metadataFilePath m) d' = false
        /\ (forall q, q <> metadataFilePath m -> Fs.nodes d' !! q = Fs.nodes d !! q)
        /\ (forall path_join path_resolve JSON_parse P m2 d2,
              metadataFilePath m = path_join (path_join P ".context") "project.json" ->
              new path_join path_resolve JSON_parse P d' = (Ok m2, d2) ->
              Fs.existsSync (path_join P ".context") d' = true ->
              exists_ m2 = false)).
Proof.
  intros m' d'.
  split; [reflexivity|]. split; [reflexivity|]. split; [reflexivity|].
  split; [reflexivity|].
  split; [intros params now; eexists; split; [reflexivity|split; reflexivity]|].
  intros (Hden & Hnotdir & _). set (file := metadataFilePath m) in *.
  assert (Hnodes : Fs.nodes d' = delete file (Fs.nodes d)).
  { unfold d', clear. fold file. simpl. unfold Fs.existsSync, Fs.unlinkSync. rewrite Hden.
    destruct (Fs.nodes d !! file) as [[data|]|] eqn:Hnode; simpl.
    - reflexivity.
    - congruence.
    - symmetry. apply delete_id. exact Hnode. }
  assert (Hgone : Fs.existsSync file d' = false)
    by (unfold Fs.existsSync; rewrite Hnodes, lookup_delete_eq; reflexivity).
  split; [exact Hgone|]. split.
  { intros q Hq. rewrite Hnodes. apply lookup_delete_ne. congruence. }
  intros path_join path_resolve JSON_parse P m2 d2 Hfile Hnew Hdir.
  unfold new, ensureMetadataDir in Hnew. rewrite Hdir in Hnew. simpl in Hnew.
  injection Hnew as <- <-. unfold exists_, loadMetadata. simpl.
  rewrite <- Hfile, Hgone. reflexivity.
Qed.

Lemma clear_forgets_the_metadata_witness :
  Fs.existsSync "/srv/checkout/.context/project.json"
    (snd (clear Fixtures.metadataManager3 Fixtures.disk3)) = false
  /\ Fs.existsSync "/srv/checkout/.context"
       (snd (clear Fixtures.metadataManager3 Fixtures.disk3)) = true.
Proof.
  assert (Hw : Atomicity.writable (metadataFilePath Fixtures.metadataManager3) Fixtures.disk3).
  { split; [reflexivity|]. split; [vm_compute; discriminate | reflexivity]. }
  pose proof (clear_forgets_the_metadata Fixtures.metadataManager3 Fixtures.disk3)
    as (_ & _ & _ & _ & _ & Hdisk).
  destruct (Hdisk Hw) as (Hgone & Hothers & _).
  split; [exact Hgone|].
  unfold Fs.existsSync. rewrite Hothers by discriminate. reflexivity.
Defined.

Lemma metadata_save_stamps_and_overwrites_witness :
  Fs.content "/srv/checkout/.context/project.json"
    (snd (save Fixtures.render 1700000004000 Fixtures.metadataManager3 Fixtures.disk3))
  = Some "code_chunks_90722f26"
  /\ version <$> metadata (fst (save Fixtures.render 1700000004000
                                  Fixtures.metadataManager3 Fixtures.disk3))
     = Some "1.0".
Proof.
  pose proof (metadata_save_stamps_and_overwrites Fixtures.render 1700000004000
                Fixtures.metadataManager3 Fixtures.disk3) as H.
  simpl in H. destruct H as (Hmem & _ & _ & _ & _ & _ & Hwrite & _).
  assert (Hw : Atomicity.writable "/srv/checkout/.context/project.json" Fixtures.disk3).
  { split; [reflexivity|]. split; [vm_compute; discriminate | reflexivity]. }
  split; [exact (Hwrite Hw)|]. rewrite Hmem. reflexivity.
Defined.

End MetadataFacts.

(** ** Collection names are identifiers *)

Module IdentifierFacts.
Import JsString NameSpec.

Lemma all_chars_app p (a b : string) :
  all_chars p (a ++ b) = all_chars p a && all_chars p b.
Proof.
  induction a as [|c a IH]; simpl; [reflexivity|].
  rewrite IH. apply andb_assoc.
Qed.

Lemma all_chars_substring p (n len : nat) (s : string) :
  all_chars p s = true -> all_chars p (String.substring n len s) = true.
Proof.
  revert n len. induction s as [|c s IH]; intros n len H.
  - destruct n, len; reflexivity.
  - simpl in H. apply andb_true_iff in H as [Hc Hs].
    destruct n as [|n]; simpl.
    + destruct len as [|len]; simpl; [reflexivity|].
      rewrite Hc. simpl. apply IH. exact Hs.
    + apply IH. exact Hs.
Qed.

Lemma all_chars_map_chars p f (s : string) :
  (forall c, p (f c) = true) -> all_chars p (map_chars f s) = true.
Proof.
  intros H. induction s as [|c s IH]; simpl; [reflexivity|].
  rewrite H. exact IH.
Qed.

Lemma length_string_app (a b : string) :
  String.length (a ++ b) = (String.length a + String.length b)%nat.
Proof. induction a as [|c a IH]; simpl; [reflexivity|]. rewrite IH. reflexivity. Qed.

(** The slug of an identifier is made of name characters: what is not
    alphanumeric became an underscore and the capitals became small. *)
Lemma slug_char (c : ascii) :
  name_char (lower_char (if is_alnum c then c else "_"%char)) = true.
Proof.
  destruct c as [b0 b1 b2 b3 b4 b5 b6 b7].
  destruct b0, b1, b2, b3, b4, b5, b6, b7; vm_compute; reflexivity.
Qed.

Lemma slug_chars (id : string) :
  all_chars name_char (toLowerCase (replace_non_alnum id)) = true.
Proof.
  unfold toLowerCase, replace_non_alnum.
  induction id as [|c id IH]; simpl; [reflexivity|].
  rewrite slug_char. exact IH.
Qed.

Lemma hex_digit_char (n : N) : (n < 16)%N -> name_char (Json.hex_digit n) = true.
Proof.
  intros H.
  assert (Hcases : In n [0; 1; 2; 3; 4; 5; 6; 7; 8; 9; 10; 11; 12; 13; 14; 15]%N).
  { simpl. lia. }
  simpl in Hcases.
  repeat (destruct Hcases as [<-|Hcases]; [vm_compute; reflexivity|]).
  contradiction.
Qed.

Lemma hex_byte_chars (b : Z) :
  0 <= b < 256 -> all_chars name_char (Md5.hex_byte b) = true.
Proof.
  intros Hb. unfold Md5.hex_byte. simpl.
  rewrite !hex_digit_char; [reflexivity| |].
  - pose proof (Z.mod_pos_bound b 16). lia.
  - assert (0 <= b / 16 < 16) by (split; [apply Z.div_pos; lia|apply Z.div_lt_upper_bound; lia]).
    lia.
Qed.

Lemma le_bytes_range (count : nat) (x : Z) :
  Forall (fun b => 0 <= b < 256) (Md5.le_bytes count x).
Proof.
  unfold Md5.le_bytes. apply List.Forall_map. apply List.Forall_forall. intros i _.
  change 255 with (Z.ones 8). rewrite Z.land_ones by lia.
  apply Z.mod_pos_bound. lia.
Qed.

Lemma digest_range (message : list Z) :
  Forall (fun b => 0 <= b < 256) (Md5.digest message).
Proof.
  unfold Md5.digest. destruct (Md5.blocks _ _ _) as [[[a b] c] d].
  repeat (apply Forall_app; split); apply le_bytes_range.
Qed.

Lemma hex_bytes_chars (bytes : list Z) :
  Forall (fun b => 0 <= b < 256) bytes ->
  all_chars name_char (foldr (fun b acc => Md5.hex_byte b ++ acc) EmptyString bytes) = true.
Proof.
  induction 1 as [|b bytes Hb Hbytes IH]; [reflexivity|].
  change (foldr (fun b acc => Md5.hex_byte b ++ acc) EmptyString (b :: bytes))
    with (Md5.hex_byte b ++ foldr (fun b acc => Md5.hex_byte b ++ acc) EmptyString bytes).
  rewrite all_chars_app, IH, (hex_byte_chars b Hb). reflexivity.
Qed.

(** The hexadecimal digest is made of digits and the letters a to f. *)
Lemma md5_hex_chars (s : string) : all_chars name_char (Md5.hex s) = true.
Proof. unfold Md5.hex. apply hex_bytes_chars. apply digest_range. Qed.

(** X18.  Every collection name is an identifier of bounded length: it
    consists of lower-case ASCII letters, digits and underscores, starts
    with a letter and has at most 64 characters (the prefix, [_git_] with
    at most 32 characters of the identifier when one is supplied, an
    underscore and 8 digest characters); and the names of the hybrid and
    of the regular collection of the same project are never equal. *)
Theorem generateCollectionName_is_an_identifier
    (path_resolve : string -> string) (projectPath : string) (isHybrid : bool)
    (gitRepoIdentifier : option string) :
  let name :=
    ProjectMetadataManager.generateCollectionName path_resolve projectPath isHybrid
      gitRepoIdentifier in
  identifier name
  /\ String.length name
     = ((if isHybrid then 18 else 11)
        + match ProjectMetadataManager.truthy gitRepoIdentifier with
          | Some id => 5 + Nat.min 32 (String.length id) + 9
          | None => 9
          end)%nat
  /\ (String.length name <= 64)%nat
  /\ ProjectMetadataManager.generateCollectionName path_resolve projectPath
       (negb isHybrid) gitRepoIdentifier <> name.
Proof.
  intros name.
  assert (Hlen : String.length name
                 = ((if isHybrid then 18 else 11)
                    + match ProjectMetadataManager.truthy gitRepoIdentifier with
                      | Some id => 5 + Nat.min 32 (String.length id) + 9
                      | None => 9
                      end)%nat).
  { unfold name, ProjectMetadataManager.generateCollectionName.
    destruct (ProjectMetadataManager.truthy gitRepoIdentifier) as [id|];
      rewrite !length_string_app; unfold substring;
      rewrite ?NamingFacts.length_prefix, ?NamingFacts.length_md5_hex;
      unfold toLowerCase, replace_non_alnum;
      rewrite ?NamingFacts.length_map_chars;
      destruct isHybrid; simpl; lia. }
  split; [|split; [exact Hlen|split]].
  - split.
    + unfold name, ProjectMetadataManager.generateCollectionName.
      destruct (ProjectMetadataManager.truthy gitRepoIdentifier) as [id|];
        rewrite !all_chars_app; unfold substring.
      * rewrite (all_chars_substring _ _ _ _ (md5_hex_chars id)).
        rewrite (all_chars_substring _ _ _ _ (slug_chars id)).
        destruct isHybrid; reflexivity.
      * rewrite (all_chars_substring _ _ _ _ (md5_hex_chars (path_resolve projectPath))).
        destruct isHybrid; reflexivity.
    + unfold name, ProjectMetadataManager.generateCollectionName.
      destruct isHybrid, (ProjectMetadataManager.truthy gitRepoIdentifier); simpl;
        eexists _, _; (split; [reflexivity|reflexivity]).
  - rewrite Hlen.
    destruct isHybrid, (ProjectMetadataManager.truthy gitRepoIdentifier) as [id|];
      try pose proof (Nat.le_min_l 32 (String.length id)); lia.
  - unfold name, ProjectMetadataManager.generateCollectionName.
    destruct isHybrid, (ProjectMetadataManager.truthy gitRepoIdentifier); simpl;
      discriminate.
Qed.

End IdentifierFacts.

(** ** Symbol hashes and white space *)

Module SymbolHashFacts.
Import JsString HashCacheManager CacheSpec.

Lemma scan_trimStart (s : string) : scan AtStart (trimStart s) = scan AtStart s.
Proof.
  induction s as [|c s IH]; simpl; [reflexivity|].
  destruct (is_space c) eqn:E; [exact IH|]. simpl. rewrite E. reflexivity.
Qed.

Lemma scan_word_start (t : string) :
  match t with
  | EmptyString => True
  | String c _ => is_space c = false
  end ->
  scan InWord t = scan AtStart t.
Proof. destruct t as [|c t]; simpl; [reflexivity|]. intros ->. reflexivity. Qed.

Lemma head_trimStart (s : string) :
  match trimStart s with
  | EmptyString => True
  | String c _ => is_space c = false
  end.
Proof.
  induction s as [|c s IH]; simpl; [exact I|].
  destruct (is_space c) eqn:E; [exact IH|exact E].
Qed.

(** In a gap nothing is written when only white space follows, and one
    blank before the rest otherwise. *)
Lemma scan_gap (r : string) :
  scan InGap r
  = match trimEnd r with
    | EmptyString => EmptyString
    | _ => String " "%char (scan AtStart r)
    end.
Proof.
  induction r as [|c r IH]; simpl; [reflexivity|].
  destruct (is_space c) eqn:E.
  - rewrite IH. destruct (trimEnd r); reflexivity.
  - destruct (trimEnd r); reflexivity.
Qed.

Lemma collapse_trimEnd (t : string) :
  collapse false (trimEnd t) = scan InWord t
  /\ collapse true (trimEnd t) = scan AtStart t.
Proof.
  induction t as [|c t [IHword IHstart]]; simpl; [split; reflexivity|].
  pose proof (scan_gap t) as Hgap.
  destruct (trimEnd t) as [|c' t'] eqn:Hend.
  - destruct (is_space c) eqn:E; simpl.
    + split; [symmetry; exact Hgap|exact IHstart].
    + rewrite E. simpl in IHword. rewrite <- IHword. split; reflexivity.
  - simpl. destruct (is_space c) eqn:E.
    + rewrite Hgap. split; [f_equal; exact IHstart|exact IHstart].
    + split; f_equal; exact IHword.
Qed.

(** The constant [normalized] of [calculateSymbolHash], computed in one
    pass. *)
Lemma normalized_scan (s : string) : normalized s = scan AtStart s.
Proof.
  unfold normalized, replace_spaces, trim.
  rewrite (proj1 (collapse_trimEnd (trimStart s))).
  rewrite (scan_word_start _ (head_trimStart s)). apply scan_trimStart.
Qed.

Lemma scan_blank at_ (ws : string) :
  all_chars is_space ws = true -> scan at_ ws = EmptyString.
Proof.
  revert at_. induction ws as [|c ws IH]; intros at_; simpl; [reflexivity|].
  intros H. apply andb_true_iff in H as [Hc Hws]. rewrite Hc. apply IH. exact Hws.
Qed.

Lemma scan_trailing at_ (s ws : string) :
  all_chars is_space ws = true -> scan at_ (s ++ ws) = scan at_ s.
Proof.
  intros Hws. revert at_. induction s as [|c s IH]; intros at_; simpl.
  - apply scan_blank. exact Hws.
  - destruct (is_space c); [apply IH|]. destruct at_; rewrite IH; reflexivity.
Qed.

Lemma scan_leading at_ (ws s : string) :
  all_chars is_space ws = true -> ws <> EmptyString ->
  scan at_ (ws ++ s) = scan (match at_ with AtStart => AtStart | _ => InGap end) s.
Proof.
  revert at_. induction ws as [|c ws IH]; intros at_ Hws Hne; [congruence|].
  simpl in *. apply andb_true_iff in Hws as [Hc Hws]. rewrite Hc.
  destruct ws as [|c' ws]; [reflexivity|].
  rewrite IH by (assumption || discriminate). destruct at_; reflexivity.
Qed.

Lemma scan_context at_ (a x y : string) :
  (forall at', scan at' x = scan at' y) -> scan at_ (a ++ x) = scan at_ (a ++ y).
Proof.
  intros H. revert at_. induction a as [|c a IH]; intros at_; simpl; [apply H|].
  destruct (is_space c); [apply IH|]. destruct at_; rewrite IH; reflexivity.
Qed.

Lemma scan_scan (s : string) :
  scan AtStart (scan AtStart s) = scan AtStart s
  /\ scan InWord (scan InWord s) = scan InWord s
  /\ scan InWord (scan InGap s) = scan InGap s.
Proof.
  induction s as [|c s (IHstart & IHword & IHgap)]; simpl; [repeat split|].
  destruct (is_space c) eqn:E.
  - repeat split; assumption.
  - simpl. rewrite !E. simpl. rewrite ?E, IHword. repeat split.
Qed.

(** X19.  The text that [calculateSymbolHash] hashes depends on the
    white space of the content only through where it separates other
    characters: normalizing twice is normalizing once; white space before
    and after the content is ignored; and a non-empty run of white space
    inside the content may be replaced by any other.  Contents with the
    same normalized text have the same symbol hash. *)
Theorem calculateSymbolHash_ignores_white_space :
  (forall s, normalized (normalized s) = normalized s)
  /\ (forall ws s ws',
       all_chars is_space ws = true -> all_chars is_space ws' = true ->
       normalized (ws ++ s ++ ws') = normalized s)
  /\ (forall a ws ws' b,
       all_chars is_space ws = true -> ws <> EmptyString ->
       all_chars is_space ws' = true -> ws' <> EmptyString ->
       normalized (a ++ ws ++ b) = normalized (a ++ ws' ++ b))
  /\ (forall sha256 s s',
       normalized s = normalized s' ->
       calculateSymbolHash sha256 s = calculateSymbolHash sha256 s').
Proof.
  split; [|split; [|split]].
  - intros s. rewrite !normalized_scan. apply scan_scan.
  - intros ws s ws' Hws Hws'. rewrite !normalized_scan.
    destruct ws as [|c ws].
    + change (scan AtStart (s ++ ws') = scan AtStart s).
      apply scan_trailing. exact Hws'.
    + rewrite scan_leading by (assumption || discriminate).
      apply scan_trailing. exact Hws'.
  - intros a ws ws' b Hws Hne Hws' Hne'. rewrite !normalized_scan.
    apply scan_context. intros at'.
    rewrite !scan_leading by assumption. reflexivity.
  - intros sha256 s s' H. unfold calculateSymbolHash. rewrite H. reflexivity.
Qed.

Lemma calculateSymbolHash_ignores_white_space_witness :
  normalized (Fixtures.indent ++ "return 1;" ++ Fixtures.indent) = normalized "return 1;"
  /\ normalized ("if (a)" ++ Fixtures.indent ++ "b();")
     = normalized ("if (a)" ++ " " ++ "b();")
  /\ normalized ("if (a)" ++ Fixtures.indent ++ "b();") = "if (a) b();".
Proof.
  destruct calculateSymbolHash_ignores_white_space as (_ & Hends & Hinside & _).
  split; [|split].
  - apply Hends; reflexivity.
  - apply Hinside; (reflexivity || discriminate).
  - vm_compute. reflexivity.
Defined.

End SymbolHashFacts.

(** ** The embedding client: what a call leaves behind *)

Module ClientFacts.
Import OpenAIEmbedding EmbeddingSpec ClientSpec AnyFacts.

#[local] Arguments JsObject.lookup : simpl never.

Section Any.

Variable preprocessText : option Z -> string -> string.
Variable preprocessTexts : option Z -> list string -> list string.
Variable provider : Provider.

(** X20.  [setModel] changes the model name first and then settles the
    dimension.  For a model of the catalog it takes dimension and context
    length from the catalog, sends nothing and ignores a configured
    [dimensions] value.  For a name that is no catalog model but a member
    of [Object.prototype] ([constructor], [toString], ...) it takes the
    same branch: dimension and token limit become [undefined] and nothing
    is sent.  For a name that finds nothing in the catalog it sets the
    token limit to 8192 and the dimension to the configured [dimensions]
    value if there is one (for the empty name, which stands for the
    default model, else to 1536), again without a request; if there is
    none it sends exactly one probe, prepared with the token limit of the
    model before, and takes the length of the vector that comes back.
    When that probe fails [setModel] throws the error of [detectDimension]
    and leaves the new name in place with the dimension and the token
    limit of the model before. *)
Theorem setModel_settles_dimension (model : string) (w : world) :
  let w0 := renamed model w in
  let c' := config (self w0) in
  let r := setModel preprocessText provider model w in
  config (self (snd r)) = c'
  /\ (forall info,
        JsObject.get model getSupportedModels = Some info ->
        r = (Ok tt, {| self := {| config := c';
                                  dimension := Some (ModelInfo.dimension info);
                                  maxTokens := Some (ModelInfo.contextLength info) |};
                       log := log w |})
        /\ getDimension (self (snd r)) = Some (ModelInfo.dimension info))
  /\ (JsObject.lookup model getSupportedModels = JsObject.Member ->
        r = (Ok tt, {| self := {| config := c'; dimension := None; maxTokens := None |};
                       log := log w |})
        /\ getDimension (self (snd r)) = None)
  /\ (JsObject.lookup model getSupportedModels = JsObject.Nothing ->
      needsProbe c' = false ->
        r = (Ok tt, {| self := {| config := c';
                                  dimension := Some (or_number (Config.dimensions c') 1536);
                                  maxTokens := Some 8192 |};
                       log := log w |}))
  /\ (needsProbe c' = true ->
        let probe := textRequest preprocessText (self w0) "test" in
        JsObject.lookup model getSupportedModels = JsObject.Nothing
        /\ log (snd r) = (log w ++ [(probe, provider (sent w) probe)])%list
        /\ match probeOutcome preprocessText provider w0 "test" with
           | Ok d =>
               fst r = Ok tt
               /\ self (snd r)
                  = {| config := c'; dimension := d; maxTokens := Some 8192 |}
           | Throw e => fst r = Throw e /\ self (snd r) = self w0
           end).
Proof.
  intros w0 c' r.
  assert (Hr : r = match JsObject.lookup model getSupportedModels with
                   | JsObject.Entry info =>
                       (Ok tt, {| self := {| config := c';
                                             dimension := Some (ModelInfo.dimension info);
                                             maxTokens :=
                                               Some (ModelInfo.contextLength info) |};
                                  log := log w |})
                   | JsObject.Member =>
                       (Ok tt, {| self := {| config := c'; dimension := None;
                                             maxTokens := None |};
                                  log := log w |})
                   | JsObject.Nothing =>
                       match detectDimension preprocessText provider "test" w0 with
                       | (Ok d, w1) =>
                           (Ok tt, {| self := {| config := config (self w1);
                                                 dimension := d;
                                                 maxTokens := Some 8192 |};
                                      log := log w1 |})
                       | (Throw e, w1) => (Throw e, w1)
                       end
                   end).
  { unfold r, setModel, bind.
    change (setConfigModel model w) with (@Ok unit tt, w0). cbv beta iota.
    destruct (JsObject.lookup model getSupportedModels) as [info| |];
      [reflexivity|reflexivity|].
    destruct (detectDimension preprocessText provider "test" w0) as [[d|e] w1];
      reflexivity. }
  assert (Hsent : sent w0 = sent w) by reflexivity.
  pose proof (DetectionFacts.detectDimension_run preprocessText provider "test" w0) as Hrun.
  fold c' in Hrun. rewrite Hsent in Hrun.
  assert (Hname : forall x, JsObject.lookup model getSupportedModels = x ->
                            x <> JsObject.Nothing ->
                            or_string model default_model = model).
  { intros x Hx Hne. destruct model as [|a model]; [|reflexivity].
    subst x. exfalso. apply Hne. reflexivity. }
  split; [|split; [|split; [|split]]].
  - rewrite Hr. destruct (JsObject.lookup model getSupportedModels) as [info| |];
      [reflexivity|reflexivity|].
    rewrite Hrun. destruct (truthy_number (Config.dimensions c')); [reflexivity|].
    destruct (JsObject.lookup (modelOf c') getSupportedModels);
      [reflexivity|reflexivity|].
    destruct (probeOutcome preprocessText provider w0 "test"); reflexivity.
  - intros info Hinfo. apply JsObjectFacts.lookup_own in Hinfo.
    rewrite Hr, Hinfo. split; [reflexivity|].
    unfold getDimension. simpl.
    rewrite (Hname _ Hinfo) by discriminate. rewrite Hinfo. reflexivity.
  - intros Hmember. rewrite Hr, Hmember. split; [reflexivity|].
    unfold getDimension. simpl.
    rewrite (Hname _ Hmember) by discriminate. rewrite Hmember. reflexivity.
  - intros Hnone Hprobe. rewrite Hr, Hnone, Hrun. unfold needsProbe in Hprobe.
    unfold or_number.
    destruct (truthy_number (Config.dimensions c')) as [d|]; [reflexivity|].
    destruct (JsObject.lookup (modelOf c') getSupportedModels) as [info| |] eqn:Hknown;
      [| |discriminate].
    + destruct model as [|a model].
      * change (modelOf c') with default_model in Hknown.
        apply JsObjectFacts.lookup_Entry in Hknown.
        rewrite default_model_dimension in Hknown. injection Hknown as <-. reflexivity.
      * change (modelOf c') with (String a model) in Hknown. congruence.
    + destruct model as [|a model].
      * change (modelOf c') with default_model in Hknown. discriminate Hknown.
      * change (modelOf c') with (String a model) in Hknown. congruence.
  - intros Hprobe probe. unfold needsProbe in Hprobe.
    destruct (truthy_number (Config.dimensions c')) as [d|]; [discriminate|].
    destruct (JsObject.lookup (modelOf c') getSupportedModels) as [info| |] eqn:Hknown;
      [discriminate|discriminate|].
    assert (Hmodel : JsObject.lookup model getSupportedModels = JsObject.Nothing).
    { destruct model as [|a model]; [reflexivity|exact Hknown]. }
    split; [exact Hmodel|].
    rewrite Hr, Hmodel, Hrun.
    destruct (probeOutcome preprocessText provider w0 "test") as [d|e]; simpl;
      repeat split; reflexivity.
Qed.

(** X21.  A successful [embed] leaves the length of the returned vector
    in [this.dimension]: the result carries a vector, its [dimension] is the
    length of that vector, which is the vector of the first item of the
    answer to the last request, and so is the dimension of the instance
    afterwards.  What [getDimension()] then returns depends on the model
    name: that length when the name finds nothing in the catalog, the
    catalog dimension for a catalog model, and [undefined] when the name
    is a member of [Object.prototype]. *)
Theorem embed_sets_the_dimension
    (text : string) (w w' : world) (result : EmbeddingVector.t) :
  embed preprocessText provider text w = (Ok result, w') ->
  exists v response,
    EmbeddingVector.vector result = Some v
    /\ EmbeddingVector.dimension result = vector_length v
    /\ dimension (self w') = Some (vector_length v)
    /\ list.last (log w') = Some (textRequest preprocessText (self w) text, Ok response)
    /\ firstVector (isAlibaba (config (self w))) response = Ok v
    /\ getDimension (self w')
       = match JsObject.lookup (modelOf (config (self w))) getSupportedModels with
         | JsObject.Entry info => Some (ModelInfo.dimension info)
         | JsObject.Member => None
         | JsObject.Nothing => Some (vector_length v)
         end.
Proof.
  rewrite embed_any.
  destruct (refreshDimension_any preprocessText provider w) as (Hconfig & _ & _ & _ & _).
  destruct (refreshDimension preprocessText provider (modelOf (config (self w))) w)
    as [[u|e] w1]; [|discriminate].
  simpl in *.
  destruct (provider (sent w1) (textRequest preprocessText (self w) text))
    as [response|e] eqn:Hreply; [|discriminate].
  destruct (firstVector (isAlibaba (config (self w))) response) as [v|e] eqn:Hv;
    [|discriminate].
  intros H. injection H as <- <-. exists v, response. simpl.
  split; [reflexivity|]. split; [reflexivity|]. split; [reflexivity|].
  split; [apply list.last_snoc|]. split; [exact Hv|].
  unfold getDimension. simpl. rewrite Hconfig.
  fold (modelOf (config (self w))).
  destruct (JsObject.lookup (modelOf (config (self w))) getSupportedModels);
    reflexivity.
Qed.

Lemma splitLoop_success
    (recur : list string -> world -> option (outcome (list EmbeddingVector.t) * world))
    (maxBatchSize : nat) (texts : list string) :
  (forall b w rs w',
      recur b w = Some (Ok rs, w') ->
      rs <> [] /\ (length (log w) < length (log w'))%nat
      /\ EmbeddingVector.dimension <$> list.last rs = dimension (self w')) ->
  forall count i results w rs w',
    splitLoop recur maxBatchSize texts count i results w = Some (Ok rs, w') ->
    if (i <? length texts)%nat
    then rs <> [] /\ (length (log w) < length (log w'))%nat
         /\ EmbeddingVector.dimension <$> list.last rs = dimension (self w')
    else rs = results /\ w' = w.
Proof.
  intros Hrecur. induction count as [|count IH]; intros i results w rs w'; simpl.
  - destruct (i <? length texts)%nat; [discriminate|].
    intros H. injection H as <- <-. split; reflexivity.
  - destruct (i <? length texts)%nat eqn:Hi.
    2: { intros H. injection H as <- <-. split; reflexivity. }
    destruct (recur (slice i (i + maxBatchSize) texts) w) as [[[br|e] w1]|] eqn:Hbatch;
      [|discriminate|discriminate].
    destruct (Hrecur _ _ _ _ Hbatch) as (Hbr & Hlog & Hdim).
    intros Hrest. specialize (IH _ _ _ _ _ Hrest).
    destruct (i + maxBatchSize <? length texts)%nat.
    + destruct IH as (Hrs & Hlog' & Hdim'). split; [exact Hrs|]. split; [lia|exact Hdim'].
    + destruct IH as [-> ->]. split; [|split; [exact Hlog|]].
      * intros Happ. apply app_eq_nil in Happ as [_ Happ]. contradiction.
      * destruct br as [|b br] using rev_ind; [contradiction|].
        rewrite app_assoc, list.last_snoc. rewrite list.last_snoc in Hdim. exact Hdim.
Qed.

(** X22.  A successful [embedBatch] never comes back empty-handed: it
    has asked the provider at least once and returns at least one result,
    for an empty list of texts as well (where it succeeds only if the
    provider makes up an item); and the [dimension] of the last result is
    the dimension of the instance after the call. *)
Theorem embedBatch_success_is_not_empty
    (fuel : nat) (texts : list string) (w w' : world) (rs : list EmbeddingVector.t) :
  embedBatch preprocessText preprocessTexts provider fuel texts w = Some (Ok rs, w') ->
  rs <> []
  /\ (length (log w) < length (log w'))%nat
  /\ EmbeddingVector.dimension <$> list.last rs = dimension (self w').
Proof.
  revert texts w w' rs. induction fuel as [|fuel IH]; intros texts w w' rs; simpl;
    [discriminate|].
  destruct (_ <? length texts)%nat eqn:Hsplit.
  - intros H.
    pose proof (splitLoop_success _ _ texts (fun b w0 rs0 w1 => IH b w0 w1 rs0)
                  _ _ _ _ _ _ H) as Hloop.
    assert (Hi : (0 <? length texts)%nat = true).
    { apply Nat.ltb_lt in Hsplit. apply Nat.ltb_lt. lia. }
    rewrite Hi in Hloop. exact Hloop.
  - rewrite embedBatchRequest_any.
    destruct (refreshDimension_any preprocessText provider w) as (_ & _ & Hlog & _ & _).
    destruct (refreshDimension preprocessText provider (modelOf (config (self w))) w)
      as [[u|e] w1]; [|discriminate].
    simpl in *.
    destruct (provider (sent w1) (batchRequest preprocessTexts (self w) texts))
      as [response|e]; [|discriminate].
    match goal with
    | |- context [batchVectors ?a ?r ?x] =>
        pose proof (batchVectors_any a r x) as Hbatch;
        destruct (batchVectors a r x) as [[rs0|e] w2]; [|discriminate]
    end.
    destruct Hbatch as (v & _ & -> & Hrs & _ & Hdims).
    intros H. injection H as <- <-. simpl.
    split; [exact Hrs|]. split.
    { rewrite length_app, Hlog, length_app. simpl. lia. }
    destruct rs0 as [|b rs0] using rev_ind; [contradiction|].
    rewrite list.last_snoc. simpl. f_equal.
    apply Forall_app in Hdims as [_ Hb]. apply Forall_inv in Hb. exact Hb.
Qed.

Lemma continues_refl (w : world) : continues provider w w.
Proof.
  split; [reflexivity|]. split; [reflexivity|]. exists [].
  simpl. rewrite app_nil_r. split; [reflexivity|constructor].
Qed.

Lemma continues_trans (w1 w2 w3 : world) :
  continues provider w1 w2 -> continues provider w2 w3 -> continues provider w1 w3.
Proof.
  intros (Hc & Hm & r1 & Hlog1 & Hr1) (Hc' & Hm' & r2 & Hlog2 & Hr2).
  split; [congruence|]. split; [congruence|]. exists (r1 ++ r2)%list. split.
  - rewrite Hlog2, Hlog1, BatchFacts.exchangesFor_app, <- app_assoc.
    f_equal. f_equal. unfold sent. rewrite Hlog1, map_app.
    rewrite BatchFacts.exchangesFor_requests. reflexivity.
  - apply Forall_app. split; [exact Hr1|]. rewrite <- Hc. exact Hr2.
Qed.

Lemma continues_ask (w : world) (request : Request.t) (e : t) :
  wellShaped (config (self w)) request ->
  config e = config (self w) -> maxTokens e = maxTokens (self w) ->
  continues provider w
    {| self := e; log := (log w ++ [(request, provider (sent w) request)])%list |}.
Proof.
  intros Hshape Hc Hm. split; [exact Hc|]. split; [exact Hm|].
  exists [request]. split; [reflexivity|]. constructor; [exact Hshape|constructor].
Qed.

Lemma continues_self (w : world) (e : t) :
  config e = config (self w) -> maxTokens e = maxTokens (self w) ->
  continues provider w {| self := e; log := log w |}.
Proof.
  intros Hc Hm. split; [exact Hc|]. split; [exact Hm|]. exists [].
  simpl. rewrite app_nil_r. split; [reflexivity|constructor].
Qed.

Lemma textRequest_wellShaped (e : t) (text : string) :
  wellShaped (config e) (textRequest preprocessText e text).
Proof. repeat split. Qed.

Lemma batchRequest_wellShaped (e : t) (texts : list string) :
  wellShaped (config e) (batchRequest preprocessTexts e texts).
Proof. repeat split. Qed.

Lemma detectDimension_continues (text : string) (w : world) :
  continues provider w (snd (detectDimension preprocessText provider text w)).
Proof.
  rewrite DetectionFacts.detectDimension_run.
  destruct (truthy_number _); [apply continues_refl|].
  destruct (JsObject.lookup _ _); [apply continues_refl|apply continues_refl|].
  simpl. apply continues_ask; [apply textRequest_wellShaped|reflexivity|reflexivity].
Qed.

Lemma refreshDimension_continues (w : world) :
  continues provider w
    (snd (refreshDimension preprocessText provider (modelOf (config (self w))) w)).
Proof.
  destruct (refreshDimension_any preprocessText provider w) as (Hc & Hm & Hlog & _ & _).
  split; [exact Hc|]. split; [exact Hm|].
  exists (if needsProbe (config (self w))
          then [textRequest preprocessText (self w) "test"] else []).
  rewrite Hlog. destruct (needsProbe (config (self w))); simpl.
  - split; [reflexivity|]. constructor; [apply textRequest_wellShaped|constructor].
  - split; [reflexivity|constructor].
Qed.

Lemma embed_continues (text : string) (w : world) :
  continues provider w (snd (embed preprocessText provider text w)).
Proof.
  rewrite embed_any. pose proof (refreshDimension_continues w) as Hrefresh.
  destruct (refreshDimension preprocessText provider (modelOf (config (self w))) w)
    as [[u|e] w1]; simpl in *; [|exact Hrefresh].
  pose proof Hrefresh as (Hc & Hm & _).
  assert (Hask : forall e0,
            config e0 = config (self w1) -> maxTokens e0 = maxTokens (self w1) ->
            continues provider w
              {| self := e0;
                 log := (log w1
                         ++ [(textRequest preprocessText (self w) text,
                              provider (sent w1)
                                (textRequest preprocessText (self w) text))])%list |}).
  { intros e0 Hc0 Hm0. apply (continues_trans w w1); [exact Hrefresh|].
    apply continues_ask; [|exact Hc0|exact Hm0].
    rewrite Hc. apply textRequest_wellShaped. }
  destruct (provider (sent w1) (textRequest preprocessText (self w) text))
    as [response|e] eqn:Hreply; simpl.
  - destruct (firstVector _ response) as [v|e]; simpl; apply Hask; reflexivity.
  - apply Hask; reflexivity.
Qed.

Lemma embedBatchRequest_continues (texts : list string) (w : world) :
  continues provider w
    (snd (embedBatchRequest preprocessText preprocessTexts provider texts w)).
Proof.
  rewrite embedBatchRequest_any. pose proof (refreshDimension_continues w) as Hrefresh.
  destruct (refreshDimension preprocessText provider (modelOf (config (self w))) w)
    as [[u|e] w1]; simpl in *; [|exact Hrefresh].
  pose proof Hrefresh as (Hc & Hm & _).
  assert (Hask : forall e0,
            config e0 = config (self w1) -> maxTokens e0 = maxTokens (self w1) ->
            continues provider w
              {| self := e0;
                 log := (log w1
                         ++ [(batchRequest preprocessTexts (self w) texts,
                              provider (sent w1)
                                (batchRequest preprocessTexts (self w) texts))])%list |}).
  { intros e0 Hc0 Hm0. apply (continues_trans w w1); [exact Hrefresh|].
    apply continues_ask; [|exact Hc0|exact Hm0].
    rewrite Hc. apply batchRequest_wellShaped. }
  destruct (provider (sent w1) (batchRequest preprocessTexts (self w) texts))
    as [response|e] eqn:Hreply; simpl.
  - match goal with
    | |- context [batchVectors ?a ?r ?x] =>
        pose proof (batchVectors_any a r x) as Hbatch;
        destruct (batchVectors a r x) as [[rs0|e] w2]
    end; simpl.
    + destruct Hbatch as (v & _ & -> & _). apply Hask; reflexivity.
    + destruct Hbatch as [_ ->]. apply Hask; reflexivity.
  - apply Hask; reflexivity.
Qed.

Lemma splitLoop_continues
    (recur : list string -> world -> option (outcome (list EmbeddingVector.t) * world))
    (maxBatchSize : nat) (texts : list string) :
  (forall b w r w', recur b w = Some (r, w') -> continues provider w w') ->
  forall count i results w r w',
    splitLoop recur maxBatchSize texts count i results w = Some (r, w') ->
    continues provider w w'.
Proof.
  intros Hrecur. induction count as [|count IH]; intros i results w r w'; simpl.
  - destruct (i <? length texts)%nat; [discriminate|].
    intros H. injection H as <- <-. apply continues_refl.
  - destruct (i <? length texts)%nat.
    2: { intros H. injection H as <- <-. apply continues_refl. }
    destruct (recur (slice i (i + maxBatchSize) texts) w) as [[[br|e] w1]|] eqn:Hbatch;
      [| |discriminate].
    + intros Hrest. apply (continues_trans w w1).
      * exact (Hrecur _ _ _ _ Hbatch).
      * exact (IH _ _ _ _ _ Hrest).
    + intros H. injection H as <- <-. exact (Hrecur _ _ _ _ Hbatch).
Qed.

Lemma embedBatch_continues (fuel : nat) :
  forall texts w r w',
    embedBatch preprocessText preprocessTexts provider fuel texts w = Some (r, w') ->
    continues provider w w'.
Proof.
  induction fuel as [|fuel IH]; intros texts w r w'; simpl; [discriminate|].
  destruct (_ <? length texts)%nat.
  - apply splitLoop_continues. exact IH.
  - intros H. injection H as H. rewrite (surjective_pairing (embedBatchRequest _ _ _ _ _)) in H.
    injection H as _ <-. apply embedBatchRequest_continues.
Qed.

(** X23.  [detectDimension], [embed] and [embedBatch] keep the
    configuration and the token limit of the instance, whatever the
    provider answers and whether they return or throw; they only add to
    the log; and every request they send names the model in use
    ([config.model], or the default when that is empty), asks for the
    encoding [float] and carries [dimensions] exactly when a non-zero value
    is configured. *)
Theorem client_continues (w : world) :
  (forall text,
      continues provider w (snd (detectDimension preprocessText provider text w)))
  /\ (forall text, continues provider w (snd (embed preprocessText provider text w)))
  /\ (forall fuel texts r w',
        embedBatch preprocessText preprocessTexts provider fuel texts w = Some (r, w') ->
        continues provider w w').
Proof.
  split; [|split].
  - intros text. apply detectDimension_continues.
  - intros text. apply embed_continues.
  - intros fuel texts r w'. apply embedBatch_continues.
Qed.


End Any.

Section Down.

Variable preprocessText : option Z -> string -> string.
Variable preprocessTexts : option Z -> list string -> list string.
Variable message : string.

Lemma refreshDimension_down (w : world) :
  let c := config (self w) in
  let r := refreshDimension preprocessText (down message) (modelOf c) w in
  if needsProbe c
  then fst r = Throw ("Failed to detect dimension for model " ++ modelOf c ++ ": "
                      ++ message)
       /\ length (log (snd r)) = S (length (log w))
  else fst r = Ok tt /\ log (snd r) = log w.
Proof.
  intros c r.
  destruct (refreshDimension_any preprocessText (down message) w)
    as (_ & _ & Hlog & Hfst & _).
  fold c r in Hlog, Hfst. destruct (needsProbe c).
  - split; [exact Hfst|]. rewrite Hlog, length_app. simpl. lia.
  - split; [exact Hfst|]. rewrite Hlog, app_nil_r. reflexivity.
Qed.

Lemma embedBatchRequest_down (texts : list string) (w : world) :
  exists w',
    embedBatchRequest preprocessText preprocessTexts (down message) texts w
    = (Throw (if needsProbe (config (self w))
              then "Failed to detect dimension for model " ++ modelOf (config (self w))
                   ++ ": " ++ message
              else "Failed to generate OpenAI batch embeddings: " ++ message), w')
    /\ length (log w') = S (length (log w)).
Proof.
  set (c := config (self w)). rewrite embedBatchRequest_any. fold c.
  pose proof (refreshDimension_down w) as Hrefresh. cbv zeta in Hrefresh. fold c in Hrefresh.
  destruct (refreshDimension preprocessText (down message) (modelOf c) w) as [o w1].
  simpl in *. destruct (needsProbe c).
  - destruct Hrefresh as [-> Hlog]. eexists. split; [reflexivity|exact Hlog].
  - destruct Hrefresh as [-> Hlog]. eexists. split; [reflexivity|].
    simpl. rewrite length_app, Hlog. simpl. lia.
Qed.

(** X25.  When the provider is down, so that every call of it throws the
    same error, [embed] and [embedBatch] give up after one request: the
    call throws and the log has grown by exactly one exchange, also when
    [embedBatch] has many sub-batches to send.  The error is that of
    [detectDimension], not wrapped again, when the dimension had to be
    probed (no non-zero [dimensions] value is configured and the model name
    finds nothing in the catalog, neither an entry nor a member of
    [Object.prototype]), and otherwise the error of the provider behind the
    prefix of the method. *)
Theorem provider_down_costs_one_request (w : world) :
  let c := config (self w) in
  let reason (prefix : string) :=
    if needsProbe c
    then "Failed to detect dimension for model " ++ modelOf c ++ ": " ++ message
    else prefix ++ message in
  (forall text,
      exists w',
        embed preprocessText (down message) text w
        = (Throw (reason "Failed to generate OpenAI embedding: "), w')
        /\ length (log w') = S (length (log w)))
  /\ (forall fuel texts,
        (2 <= fuel)%nat ->
        exists w',
          embedBatch preprocessText preprocessTexts (down message) fuel texts w
          = Some (Throw (reason "Failed to generate OpenAI batch embeddings: "), w')
          /\ length (log w') = S (length (log w)))
  /\ (needsProbe c = true <->
      truthy_number (Config.dimensions c) = None
      /\ JsObject.get (modelOf c) getSupportedModels = None
      /\ JsObject.inherited (modelOf c) = false).
Proof.
  intros c reason. split; [|split].
  3: { unfold needsProbe. rewrite <- JsObjectFacts.lookup_Nothing.
       destruct (truthy_number (Config.dimensions c));
         destruct (JsObject.lookup (modelOf c) getSupportedModels);
         split; try intros (? & ?); try intros ?; try split; congruence. }
  - intros text. rewrite embed_any. fold c.
    pose proof (refreshDimension_down w) as Hrefresh. cbv zeta in Hrefresh.
    fold c in Hrefresh. unfold reason.
    destruct (refreshDimension preprocessText (down message) (modelOf c) w) as [o w1].
    simpl in *. destruct (needsProbe c).
    + destruct Hrefresh as [-> Hlog]. eexists. split; [reflexivity|exact Hlog].
    + destruct Hrefresh as [-> Hlog]. eexists. split; [reflexivity|].
      simpl. rewrite length_app, Hlog. simpl. lia.
  - intros fuel texts Hfuel. destruct fuel as [|[|fuel]]; [lia|lia|].
    destruct (embedBatchRequest_down texts w) as (w1 & Hone & Hlog1).
    change (embedBatch preprocessText preprocessTexts (down message) (S (S fuel)) texts w)
      with (let maxBatchSize :=
              if isAlibaba (config (self w)) then 10%nat else length texts in
            if (maxBatchSize <? length texts)%nat
            then splitLoop (embedBatch preprocessText preprocessTexts (down message) (S fuel))
                   maxBatchSize texts (length texts) 0 [] w
            else Some (embedBatchRequest preprocessText preprocessTexts (down message)
                         texts w)).
    cbv zeta.
    destruct ((if isAlibaba (config (self w)) then 10%nat else length texts)
              <? length texts)%nat eqn:Hsplit.
    2: { exists w1. split; [rewrite Hone; reflexivity|exact Hlog1]. }
    destruct (isAlibaba (config (self w))); [|rewrite Nat.ltb_irrefl in Hsplit; discriminate].
    apply Nat.ltb_lt in Hsplit.
    destruct (embedBatchRequest_down (slice 0 (0 + 10) texts) w) as (w2 & Hfirst & Hlog2).
    exists w2. split; [|exact Hlog2].
    destruct (length texts) as [|n] eqn:Hlen; [lia|].
    cbn [splitLoop]. rewrite Hlen.
    change (0 <? S n)%nat with true. cbv iota.
    rewrite RunFacts.embedBatch_single.
    + rewrite Hfirst. reflexivity.
    + unfold slice. rewrite length_take. lia.
Qed.

End Down.

Lemma provider_down_costs_one_request_witness :
  (exists w',
     embedBatch Samples.prepare Samples.prepareAll (down "503 service unavailable") 2
       (Samples.texts 23) (Samples.start Samples.dashscopeV4)
     = Some (Throw "Failed to generate OpenAI batch embeddings: 503 service unavailable", w')
     /\ length (log w') = 1%nat)
  /\
  (exists w',
     embed Samples.prepare (down "503 service unavailable") "hello"
       (Samples.start Samples.openaiConstructor)
     = (Throw "Failed to generate OpenAI embedding: 503 service unavailable", w')
     /\ length (log w') = 1%nat).
Proof.
  split.
  - exact (proj1 (proj2 (provider_down_costs_one_request Samples.prepare
                           Samples.prepareAll "503 service unavailable"
                           (Samples.start Samples.dashscopeV4)))
             2%nat (Samples.texts 23) (le_n 2)).
  - exact (proj1 (provider_down_costs_one_request Samples.prepare
                    Samples.prepareAll "503 service unavailable"
                    (Samples.start Samples.openaiConstructor)) "hello").
Defined.

Lemma embed_sets_the_dimension_witness :
  (exists v response,
     dimension (self (snd (embed Samples.prepare (Samples.embedder true) "hello"
                             (Samples.start Samples.dashscopeCustom))))
     = Some (vector_length v)
     /\ firstVector true response = Ok v
     /\ getDimension (self (snd (embed Samples.prepare (Samples.embedder true) "hello"
                                   (Samples.start Samples.dashscopeCustom))))
        = Some (vector_length v))
  /\
  (exists v,
     dimension (self (snd (embed Samples.prepare (Samples.embedder false) "hello"
                             (Samples.start Samples.openaiConstructor))))
     = Some (vector_length v)
     /\ getDimension (self (snd (embed Samples.prepare (Samples.embedder false) "hello"
                                   (Samples.start Samples.openaiConstructor))))
        = None).
Proof.
  split.
  - destruct (embed Samples.prepare (Samples.embedder true) "hello"
                (Samples.start Samples.dashscopeCustom)) as [[result|e] w'] eqn:Hrun.
    + destruct (embed_sets_the_dimension _ _ _ _ _ _ Hrun)
        as (v & response & _ & _ & Hdim & _ & Hfirst & Hget).
      exists v, response. split; [exact Hdim|]. split; [exact Hfirst|].
      exact (eq_trans Hget eq_refl).
    + vm_compute in Hrun. discriminate Hrun.
  - destruct (embed Samples.prepare (Samples.embedder false) "hello"
                (Samples.start Samples.openaiConstructor)) as [[result|e] w'] eqn:Hrun.
    + destruct (embed_sets_the_dimension _ _ _ _ _ _ Hrun)
        as (v & response & _ & _ & Hdim & _ & _ & Hget).
      exists v. split; [exact Hdim|]. exact (eq_trans Hget eq_refl).
    + vm_compute in Hrun. discriminate Hrun.
Defined.

Lemma embedBatch_success_is_not_empty_witness :
  exists rs w',
    embedBatch Samples.prepare Samples.prepareAll (Samples.embedder true) 2
      (Samples.texts 12) (Samples.start Samples.dashscopeCustom) = Some (Ok rs, w')
    /\ rs <> []
    /\ EmbeddingVector.dimension <$> list.last rs = dimension (self w').
Proof.
  destruct (embedBatch Samples.prepare Samples.prepareAll (Samples.embedder true) 2
              (Samples.texts 12) (Samples.start Samples.dashscopeCustom))
    as [[[rs|e] w']|] eqn:Hrun.
  - destruct (embedBatch_success_is_not_empty _ _ _ _ _ _ _ _ Hrun) as (Hrs & _ & Hdim).
    exists rs, w'. split; [reflexivity|]. split; [exact Hrs|exact Hdim].
  - vm_compute in Hrun. discriminate Hrun.
  - vm_compute in Hrun. discriminate Hrun.
Defined.


Lemma client_continues_witness :
  continues (Samples.embedder true) (Samples.start Samples.dashscopeCustom)
    (snd (embed Samples.prepare (Samples.embedder true) "hello"
            (Samples.start Samples.dashscopeCustom))).
Proof.
  exact (proj1 (proj2 (client_continues Samples.prepare Samples.prepareAll
                         (Samples.embedder true)
                         (Samples.start Samples.dashscopeCustom))) "hello").
Defined.

Lemma setModel_settles_dimension_witness :
  setModel Samples.prepare (down "401 unauthorized") "text-embedding-v4"
    (Samples.start Samples.dashscopeCustom2048)
  = (Ok tt,
     {| self := {| config := Config.with_model "text-embedding-v4"
                               Samples.dashscopeCustom2048;
                   dimension := Some 1024; maxTokens := Some 32000 |};
        log := [] |})
  /\ setModel Samples.prepare (down "401 unauthorized") "constructor"
       (Samples.start Samples.openaiSmall)
     = (Ok tt,
        {| self := {| config := Config.with_model "constructor" Samples.openaiSmall;
                      dimension := None; maxTokens := None |};
           log := [] |})
  /\ fst (setModel Samples.prepare (down "401 unauthorized") "my-embedding"
            (Samples.start Samples.openaiSmall))
     = Throw "Failed to detect dimension for model my-embedding: 401 unauthorized"
  /\ dimension (self (snd (setModel Samples.prepare (down "401 unauthorized")
                             "my-embedding" (Samples.start Samples.openaiSmall))))
     = Some 1536.
Proof.
  pose proof (setModel_settles_dimension Samples.prepare (down "401 unauthorized")
                "text-embedding-v4" (Samples.start Samples.dashscopeCustom2048))
    as (_ & Hcatalog & _).
  pose proof (setModel_settles_dimension Samples.prepare (down "401 unauthorized")
                "constructor" (Samples.start Samples.openaiSmall))
    as (_ & _ & Hmember & _).
  pose proof (setModel_settles_dimension Samples.prepare (down "401 unauthorized")
                "my-embedding" (Samples.start Samples.openaiSmall))
    as (_ & _ & _ & _ & Hprobe).
  split; [exact (proj1 (Hcatalog _ eq_refl))|].
  split; [exact (proj1 (Hmember eq_refl))|].
  destruct (Hprobe eq_refl) as (_ & _ & Hfailed). cbv zeta in Hfailed.
  vm_compute probeOutcome in Hfailed. destruct Hfailed as [Hthrow Hself].
  split; [exact Hthrow|]. rewrite Hself. reflexivity.
Defined.

End ClientFacts.

(** ** The symbol-level cache manager: construction and persistence *)

Module SymbolStoreFacts.
Import JsObjectFacts HashCacheManager CacheSpec.

Section Persistence.

Variable path_join : string -> string -> string.
Variable JSON_parse : string -> option (option HashCache).

Lemma loadCache_holds file P C now d :
  exists c,
    loadCache JSON_parse file P C now d = Some c
    /\ projectPath c = P /\ collectionName c = C.
Proof.
  unfold loadCache.
  assert (Hfresh : exists c,
            Some (createEmptyCache P C now) = Some c
            /\ projectPath c = P /\ collectionName c = C)
    by (eexists; repeat split).
  destruct (Fs.existsSync file d); [|exact Hfresh].
  destruct (Fs.readFileSync file d) as [data|e]; [|exact Hfresh].
  destruct (JSON_parse data) as [[loaded|]|]; [|exact Hfresh|exact Hfresh].
  destruct (String.eqb (projectPath loaded) P) eqn:HP; simpl; [|exact Hfresh].
  destruct (String.eqb (collectionName loaded) C) eqn:HC; simpl; [|exact Hfresh].
  apply String.eqb_eq in HP, HC. exists loaded. repeat split; assumption.
Qed.

(** X26.  A constructed symbol-level manager always holds a cache of its
    own project and collection, also when the cache file holds the text
    [null], another project or something unreadable; the cache is only
    missing after [clear()].  And what [save()] writes is what the next
    manager of the same project and collection starts from: when the
    cache file can be written and [JSON.parse] reads the saved document
    back, the constructor run on the disk [save()] left returns the very
    manager that saved and changes nothing on disk. *)
Theorem symbol_manager_holds_its_project (P C : string) :
  (forall now d m d1,
      new path_join JSON_parse P C now d = (Ok m, d1) ->
      symbols_for path_join P C m)
  /\ (forall m c d now now',
        symbols_for path_join P C m ->
        cache m = Some c ->
        Fs.existsSync (cacheDir m) d = true ->
        Atomicity.writable (cacheFilePath m) d ->
        JSON_parse (document (with_lastIndexed now c))
          = Some (Some (with_lastIndexed now c)) ->
        new path_join JSON_parse P C now' (snd (save now m d))
        = (Ok (fst (save now m d)), snd (save now m d))
        /\ cache (fst (save now m d)) = Some (with_lastIndexed now c)).
Proof.
  split.
  - intros now d m d1. unfold new.
    destruct (ensureCacheDir _ d) as [[u|e] d']; [|discriminate].
    intros H. injection H as <- <-. unfold symbols_for. simpl.
    split; [reflexivity|]. split; [reflexivity|]. apply loadCache_holds.
  - intros m c d now now' (Hdir & Hfile & c0 & Hc0 & HP & HC) Hc Hexists Hwritable Hparse.
    rewrite Hc in Hc0. injection Hc0 as <-.
    unfold save. rewrite Hc. rewrite (SaveFacts.writeFileSync_writable _ _ _ Hwritable).
    simpl. split; [|reflexivity].
    set (doc := document (with_lastIndexed now c)) in *.
    set (d' := Fs.with_nodes _ _).
    assert (Hnodes : Fs.nodes d' !! cacheFilePath m = Some (Fs.File doc))
      by (unfold d'; simpl; apply lookup_insert_eq).
    assert (Hdir' : Fs.existsSync (path_join P ".context") d' = true).
    { rewrite <- Hdir. unfold Fs.existsSync in *. unfold d'. simpl.
      destruct (decide (cacheFilePath m = cacheDir m)) as [Heq|Hne].
      - rewrite <- Heq, lookup_insert_eq. reflexivity.
      - rewrite lookup_insert_ne by exact Hne. exact Hexists. }
    assert (Hden : Fs.is_denied (cacheFilePath m) d' = false)
      by (destruct Hwritable as [H _]; exact H).
    clearbody d'.
    unfold new, ensureCacheDir. rewrite Hdir'. simpl.
    rewrite <- Hfile, <- Hdir. f_equal.
    destruct m as [dir file c1]. unfold with_cache. simpl in *. f_equal.
    unfold loadCache, Fs.existsSync, Fs.readFileSync. rewrite Hnodes, Hden.
    fold doc. rewrite Hparse. simpl. rewrite HP, HC, !eqb_same. reflexivity.
Qed.

End Persistence.

Lemma symbol_manager_holds_its_project_witness :
  new Samples.join Fixtures.parseSaved2 "/home/user/project" "code_chunks_90722f26"
    1700000010000 (snd (save 1700000009000 Samples.manager2 Samples.disk2))
  = (Ok (fst (save 1700000009000 Samples.manager2 Samples.disk2)),
     snd (save 1700000009000 Samples.manager2 Samples.disk2)).
Proof.
  apply (proj2 (symbol_manager_holds_its_project Samples.join Fixtures.parseSaved2
                  "/home/user/project" "code_chunks_90722f26")
           Samples.manager2 Samples.cache2 Samples.disk2 1700000009000 1700000010000).
  - split; [reflexivity|]. split; [reflexivity|].
    exists Samples.cache2. repeat split.
  - reflexivity.
  - reflexivity.
  - split; [reflexivity|]. split; [vm_compute; discriminate | reflexivity].
  - vm_compute. reflexivity.
Defined.

End SymbolStoreFacts.
